(** * agent-browser daemon: transport addressing, session registry,
      command daemon and stream server

    A shallow embedding of [src/daemon.ts] and [src/stream-server.ts].

    Conventions of the embedding.
    - A JavaScript string is the list of its UTF-16 code units
      ([length], [charCodeAt], [indexOf], [substring] and the regular
      expression of the daemon all work on code units).
    - A JavaScript number that the code only uses as an integer is a [Z];
      32-bit wrap-around ([|= 0], [<<]) is written out.
    - Code that can throw returns a [completion]; handlers run in the
      monad [M], which threads the mutable state, keeps the state changes
      made before a throw (as JavaScript does) and records every
      externally visible action in a trace of [effect]s.
    - The reactor is single threaded. Each callback is embedded as one
      function that runs to its end, an [await] sequenced in place: this
      is the callback when nothing else runs while it is suspended. For
      the viewers of the stream server, whose callbacks leave a promise
      behind without awaiting it, the part up to the [await] and the
      continuation are embedded separately as well ([handleOpen_begin],
      [resume]), and sequences of callbacks are run with the
      continuations interleaved in any order ([runViewers]).
    - Collaborators whose code lives in other modules ([BrowserManager],
      [parseCommand], [executeCommand], [path.join], ...) are interfaces
      (type classes); every theorem holds for all their implementations.
    - Console output is not part of the model. *)

From Stdlib Require Import ZArith List Bool Lia Ascii String DecimalString.
From Stdlib Require DecimalPos.
From stdpp Require Import base gmap sets list strings.

Set Warnings "-register-all".
Local Open Scope Z_scope.

(* ================================================================= *)
(** * JavaScript values used by the daemon *)
(* ================================================================= *)

Module JS.

(** A string, as the sequence of its UTF-16 code units. *)
Abbreviation jsstring := (list Z).

(** An ASCII literal as a JavaScript string. *)
Definition lit (s : string) : jsstring :=
  map (fun a => Z.of_nat (nat_of_ascii a)) (list_ascii_of_string s).

(** The outcome of evaluating code that may throw. The thrown value is
    represented by its message ([err.message], or [String(err)]). *)
Inductive completion (A : Type) : Type :=
| Normal (a : A)
| Throw (msg : jsstring).
Arguments Normal {A} a.
Arguments Throw {A} msg.

(** [ToInt32], the conversion behind [x | 0] and [x << n]. *)
Definition ToInt32 (x : Z) : Z := (x + 2 ^ 31) mod 2 ^ 32 - 2 ^ 31.

(** [x << n] for an [x] that is an integer. *)
Definition shl (x n : Z) : Z := ToInt32 (Z.shiftl (ToInt32 x) n).

(** ECMAScript [WhiteSpace] and [LineTerminator] code units: what
    [trim], [trimStart] and the regular expression class [\s] accept. *)
Definition isWhiteSpace (c : Z) : bool :=
  (c =? 9) || (c =? 10) || (c =? 11) || (c =? 12) || (c =? 13) ||
  (c =? 32) || (c =? 160) || (c =? 5760) ||
  ((8192 <=? c) && (c <=? 8202)) ||
  (c =? 8232) || (c =? 8233) || (c =? 8239) || (c =? 8287) ||
  (c =? 12288) || (c =? 65279).

Fixpoint trimStart (s : jsstring) : jsstring :=
  match s with
  | c :: s' => if isWhiteSpace c then trimStart s' else s
  | [] => []
  end.

Definition trimEnd (s : jsstring) : jsstring := rev (trimStart (rev s)).

Definition trim (s : jsstring) : jsstring := trimEnd (trimStart s).

(** Truthiness of a string: the empty string is falsy. *)
Definition nonEmpty (s : jsstring) : bool :=
  match s with [] => false | _ :: _ => true end.

Fixpoint code_units_eqb (s t : jsstring) : bool :=
  match s, t with
  | [], [] => true
  | c :: s', d :: t' => (c =? d) && code_units_eqb s' t'
  | _, _ => false
  end.

(** [s.startsWith(p)] (case sensitive, code unit by code unit). *)
Fixpoint startsWith (p s : jsstring) : bool :=
  match p, s with
  | [], _ => true
  | c :: p', d :: s' => (c =? d) && startsWith p' s'
  | _ :: _, [] => false
  end.

(** Canonicalisation of a code unit by a regular expression with the
    [i] flag and without the [u] flag: [toUpperCase], except that a
    non-ASCII unit is never mapped to an ASCII one. On the ASCII
    letters of the daemon's pattern this is plain upper-casing. *)
Definition canonicalize (c : Z) : Z :=
  if (97 <=? c) && (c <=? 122) then c - 32 else c.

(** Does [s] begin with the upper-case ASCII keyword [kw], letters
    compared case-insensitively? Returns the rest of [s]. *)
Fixpoint matchKeyword (kw s : jsstring) : option jsstring :=
  match kw, s with
  | [], _ => Some s
  | k :: kw', c :: s' =>
      if canonicalize c =? k then matchKeyword kw' s' else None
  | _ :: _, [] => None
  end.

(** [s.split(sep)] for a set of one-unit separators given as a
    predicate; [cur] is the piece being read. *)
Fixpoint splitOn (isSep : Z -> bool) (cur s : jsstring) : list jsstring :=
  match s with
  | [] => [rev cur]
  | c :: s' =>
      if isSep c then rev cur :: splitOn isSep [] s'
      else splitOn isSep (c :: cur) s'
  end.

(** [s.indexOf('\n')] with the two [substring] calls of the read loop:
    the text before the first line feed and the text after it; [None]
    when [s.includes('\n')] is false. *)
Fixpoint cutLine (s : jsstring) : option (jsstring * jsstring) :=
  match s with
  | [] => None
  | c :: s' =>
      if c =? 10 then Some ([], s')
      else match cutLine s' with
           | Some (line, rest) => Some (c :: line, rest)
           | None => None
           end
  end.

Definition isDigit (c : Z) : bool := (48 <=? c) && (c <=? 57).

Fixpoint digitsValue (acc : Z) (s : jsstring) : Z :=
  match s with
  | c :: s' => if isDigit c then digitsValue (10 * acc + (c - 48)) s' else acc
  | [] => acc
  end.

(** [parseInt(s, 10)]: leading white space, an optional sign, then the
    longest run of decimal digits; [None] stands for [NaN]. *)
Definition parseInt10 (s : jsstring) : option Z :=
  let t := trimStart s in
  let '(sign, ds) :=
    match t with
    | 45 :: r => (-1, r)
    | 43 :: r => (1, r)
    | _ => (1, t)
    end in
  match ds with
  | c :: _ => if isDigit c then Some (sign * digitsValue 0 ds) else None
  | [] => None
  end.

(** [String(n)] and [n.toString()] for an integer [n]. *)
Definition numberToString (n : Z) : jsstring :=
  lit (NilZero.string_of_int (Z.to_int n)).

End JS.
Import JS.

(* ================================================================= *)
(** * Interfaces of the collaborators *)
(* ================================================================= *)

(** A value returned by [JSON.parse]. Numbers stay uninterpreted: the
    stream server only forwards them. *)
Inductive json : Type :=
| JNull
| JBool (b : bool)
| JNumber (literal : jsstring)
| JString (s : jsstring)
| JArray (items : list json)
| JObject (fields : list (jsstring * json)).

(** The object literal handed to [browser.launch] by the auto-launch. *)
Record LaunchCommand : Type := mkLaunch {
  launch_id : jsstring;
  launch_action : jsstring;
  headless : bool;
  executablePath : option jsstring;
  extensions : option (list jsstring);
  profile : option jsstring;
  storageState : option jsstring;
  args : option (list jsstring);
  userAgent : option jsstring;
  proxy : option (jsstring * option jsstring);
  ignoreHTTPSErrors : bool
}.

(** The argument object of an input-injection call: its properties in
    source order, [None] for [undefined]. *)
Abbreviation InjectParams := (list (jsstring * option json)).

(** [BrowserManager] ([./browser.js]): the automation engine, an opaque
    capability object. Every method that can throw returns a completion
    together with the engine's next state. [viewportSize] stands for
    [getPage().viewportSize()]: it throws when there is no page and
    yields [None] for a [null] viewport. The engine's own
    [startScreencast] and [stopScreencast] carry the prefix [browser]
    to tell them from the [StreamServer] methods of the same name. *)
Class BrowserManager : Type := {
  browser : Type;
  isLaunched : browser -> bool;
  launch : LaunchCommand -> browser -> completion unit * browser;
  close : browser -> completion unit * browser;
  viewportSize : browser -> completion (option (Z * Z));
  browserStartScreencast : browser -> completion unit * browser;
  browserStopScreencast : browser -> completion unit * browser;
  injectMouseEvent : InjectParams -> browser -> completion unit * browser;
  injectKeyboardEvent : InjectParams -> browser -> completion unit * browser;
  injectTouchEvent : InjectParams -> browser -> completion unit * browser
}.

(** The result of [parseCommand]: [{success: true, command}] or
    [{success: false, id?, error}]. *)
Inductive ParseResult (Command : Type) : Type :=
| ParseOk (command : Command)
| ParseFail (id : option jsstring) (error : jsstring).
Arguments ParseOk {Command} command.
Arguments ParseFail {Command} id error.

(** The protocol codec ([./protocol.js]). *)
Class Protocol : Type := {
  Command : Type;
  Response : Type;
  action : Command -> jsstring;
  parseCommand : jsstring -> completion (ParseResult Command);
  errorResponse : jsstring -> jsstring -> Response;
  serializeResponse : Response -> jsstring
}.

(** [executeCommand] ([./actions.js]). *)
Class Actions (BM : BrowserManager) (PR : Protocol) : Type := {
  executeCommand : Command -> browser -> completion Response * browser
}.

(** What the runtime and the operating system supply: the platform,
    [process.env], [os.homedir()], [os.tmpdir()], [path.join] on two
    segments, [process.pid], the outcome of the existence probe
    [process.kill(pid, 0)] ([true] when it returns normally),
    [JSON.parse] and whether [Bun.serve] can bind a port. *)
Class Host : Type := {
  isWindows : bool;
  env : jsstring -> option jsstring;
  homedir : jsstring;
  tmpdir : jsstring;
  join : jsstring -> jsstring -> jsstring;
  pid : Z;
  kill0 : Z -> bool;
  JSON_parse : jsstring -> completion json;
  bunServe : Z -> completion unit
}.

(* ================================================================= *)
(** * Observable actions and the handler monad *)
(* ================================================================= *)

(** Messages the stream server sends to viewers. *)
Inductive StreamMessage : Type :=
| StatusMessage (connected screencasting : bool)
                (viewportWidth viewportHeight : option Z)
| ErrorMessage (message : jsstring)
| FrameMessage (data : jsstring) (metadata : json).

Inductive topic : Type := screencast | status.

(** Why a command connection was terminated (a label for the two
    [socket.terminate()] calls of the data handler). *)
Inductive terminateReason : Type := BufferOverflow | HttpRequest.

(** Calls issued to the automation engine. *)
Inductive engineCall : Type :=
| CallLaunch (cmd : LaunchCommand)
| CallClose
| CallExecuteCommand (act : jsstring)
| CallStartScreencast
| CallStopScreencast
| CallInjectMouseEvent (p : InjectParams)
| CallInjectKeyboardEvent (p : InjectParams)
| CallInjectTouchEvent (p : InjectParams).

(** Everything a handler does to the outside world. Viewers and
    command connections are named by numbers. *)
Inductive effect : Type :=
| WsSend (ws : nat) (m : StreamMessage)
| WsSubscribe (ws : nat) (t : topic)
| WsUnsubscribe (ws : nat) (t : topic)
| Publish (t : topic) (m : StreamMessage)
| StreamListen (port : Z)
| StreamStop
| SetScreencastFrameCallback (installed : bool)
| Engine (c : engineCall)
| SocketWrite (socket : nat) (text : jsstring)
| SocketTerminate (socket : nat) (why : terminateReason)
| SetTimeout (ms : Z)
| ServerStop
| ProcessExit (code : Z).

(** A handler over a mutable state [St]: its completion, the state it
    leaves (also when it throws) and the actions it performed. *)
Definition M (St A : Type) : Type := St -> completion A * St * list effect.

Definition ret {St A} (a : A) : M St A := fun s => (Normal a, s, []).

Definition bind {St A B} (m : M St A) (k : A -> M St B) : M St B :=
  fun s =>
    match m s with
    | (Normal a, s1, l1) =>
        let '(r, s2, l2) := k a s1 in (r, s2, l1 ++ l2)
    | (Throw e, s1, l1) => (Throw e, s1, l1)
    end.

Definition throw {St A} (msg : jsstring) : M St A :=
  fun s => (Throw msg, s, []).

Definition emit {St} (e : effect) : M St unit :=
  fun s => (Normal tt, s, [e]).

Definition gets {St A} (f : St -> A) : M St A :=
  fun s => (Normal (f s), s, []).

Definition modify {St} (f : St -> St) : M St unit :=
  fun s => (Normal tt, f s, []).

(** [try { m } catch (e) { h e }] *)
Definition tryCatch {St A} (m : M St A) (h : jsstring -> M St A) : M St A :=
  fun s =>
    match m s with
    | (Normal a, s1, l1) => (Normal a, s1, l1)
    | (Throw e, s1, l1) =>
        let '(r, s2, l2) := h e s1 in (r, s2, l1 ++ l2)
    end.

(** [try { m } finally { f }] for an [f] that does not throw. *)
Definition tryFinally {St A} (m : M St A) (f : M St unit) : M St A :=
  fun s =>
    let '(r, s1, l1) := m s in
    let '(_, s2, l2) := f s1 in (r, s2, l1 ++ l2).

(** Run a handler written over a component [T] of the state. *)
Definition zoom {St T A} (get : St -> T) (set : T -> St -> St)
  (m : M T A) : M St A :=
  fun s => let '(r, t, l) := m (get s) in (r, set t s, l).

Declare Scope handler_scope.
Delimit Scope handler_scope with handler.
Notation "'let!' x ':=' m 'in' k" := (bind m (fun x => k))
  (at level 10, x name, m at level 100, k at level 200) : handler_scope.
Notation "m '>>' k" := (bind m (fun _ => k))
  (at level 90, right associativity) : handler_scope.
Local Open Scope handler_scope.

Definition when {St} (b : bool) (m : M St unit) : M St unit :=
  if b then m else ret tt.

(** The three components of a run. *)
Definition result {St A} (m : M St A) (s : St) : completion A := fst (fst (m s)).
Definition final {St A} (m : M St A) (s : St) : St := snd (fst (m s)).
Definition trace {St A} (m : M St A) (s : St) : list effect := snd (m s).

(** Every action of [m] satisfies [P], from every state. *)
Definition traceAll {St A} (P : effect -> Prop) (m : M St A) : Prop :=
  forall s, Forall P (trace m s).

(** [m] never changes the part [f] of the state. *)
Definition keeps {St A T} (f : St -> T) (m : M St A) : Prop :=
  forall s, f (final m s) = f s.

(* ================================================================= *)
(** * The model *)
(* ================================================================= *)

Section Model.
Context {HO : Host} {BM : BrowserManager} {PR : Protocol} {AC : Actions BM PR}.

(** ** Transport addressing ([daemon.ts]) *)

Definition MAX_BUFFER_SIZE : Z := 1024 * 1024 * 4.

(** The loop of [getPortForSession]: [hash = (hash << 5) - hash + c]
    followed by [hash |= 0], over the code units of the name. *)
Definition sessionHash (session : jsstring) : Z :=
  fold_left (fun hash c => ToInt32 (shl hash 5 - hash + c)) session 0.

(** [%] is the remainder that takes the sign of the dividend. *)
Definition getPortForSession (session : jsstring) : Z :=
  let hash := sessionHash session in
  49152 + Z.rem (Z.abs hash) 16383.

Definition getAppDir : jsstring :=
  match env (lit "XDG_RUNTIME_DIR") with
  | Some (c :: d) => join (c :: d) (lit "agent-browser")
  | _ =>
      if nonEmpty homedir then join homedir (lit ".agent-browser")
      else join tmpdir (lit "agent-browser")
  end.

Definition getSocketDir : jsstring :=
  match env (lit "AGENT_BROWSER_SOCKET_DIR") with
  | Some (c :: d) => c :: d
  | _ => getAppDir
  end.

(** ** State of the daemon process *)

(** The fields of a [StreamServer] object; [server] tells whether
    [this.server] is non-null. The [BrowserManager] it refers to is the
    daemon's, and lives in [Process]. *)
Record StreamServer : Type := mkStreamServer {
  server : bool;
  port : Z;
  isScreencasting : bool;
  clientCount : Z
}.

(** The module-level variables of [daemon.ts] ([currentSession],
    [cleaningUp], [streamServer]), the variables [startDaemon] closes
    over ([browser], [shuttingDown], the listener), the exit code once
    [process.exit] ran, and what the runtime and the disk hold:
    - [files], the regular files on disk (path to content). Only these
      are seen by [Bun.file(path).exists()] and read by [text()];
    - [sockets], the paths at which a Unix socket file exists. A socket
      is not a regular file: [Bun.file(path).exists()] answers [false]
      for it;
    - [viewers], the websocket connections that the listener of the
      stream server holds open. *)
Record Process : Type := mkProcess {
  currentSession : jsstring;
  cleaningUp : gset jsstring;
  files : gmap jsstring jsstring;
  streamServer : option StreamServer;
  theBrowser : browser;
  shuttingDown : bool;
  listening : bool;
  exited : option Z;
  sockets : gset jsstring;
  viewers : list nat
}.

Definition set_cleaningUp (f : gset jsstring -> gset jsstring) (p : Process) :=
  mkProcess (currentSession p) (f (cleaningUp p)) (files p) (streamServer p)
    (theBrowser p) (shuttingDown p) (listening p) (exited p)
    (sockets p) (viewers p).

Definition set_files (f : gmap jsstring jsstring -> gmap jsstring jsstring)
  (p : Process) :=
  mkProcess (currentSession p) (cleaningUp p) (f (files p)) (streamServer p)
    (theBrowser p) (shuttingDown p) (listening p) (exited p)
    (sockets p) (viewers p).

Definition set_streamServer (s : option StreamServer) (p : Process) :=
  mkProcess (currentSession p) (cleaningUp p) (files p) s
    (theBrowser p) (shuttingDown p) (listening p) (exited p)
    (sockets p) (viewers p).

Definition set_theBrowser (b : browser) (p : Process) :=
  mkProcess (currentSession p) (cleaningUp p) (files p) (streamServer p)
    b (shuttingDown p) (listening p) (exited p)
    (sockets p) (viewers p).

Definition set_shuttingDown (b : bool) (p : Process) :=
  mkProcess (currentSession p) (cleaningUp p) (files p) (streamServer p)
    (theBrowser p) b (listening p) (exited p)
    (sockets p) (viewers p).

Definition set_listening (b : bool) (p : Process) :=
  mkProcess (currentSession p) (cleaningUp p) (files p) (streamServer p)
    (theBrowser p) (shuttingDown p) b (exited p)
    (sockets p) (viewers p).

Definition set_exited (c : option Z) (p : Process) :=
  mkProcess (currentSession p) (cleaningUp p) (files p) (streamServer p)
    (theBrowser p) (shuttingDown p) (listening p) c
    (sockets p) (viewers p).

Definition set_sockets (f : gset jsstring -> gset jsstring) (p : Process) :=
  mkProcess (currentSession p) (cleaningUp p) (files p) (streamServer p)
    (theBrowser p) (shuttingDown p) (listening p) (exited p)
    (f (sockets p)) (viewers p).

Definition set_viewers (v : list nat) (p : Process) :=
  mkProcess (currentSession p) (cleaningUp p) (files p) (streamServer p)
    (theBrowser p) (shuttingDown p) (listening p) (exited p)
    (sockets p) v.

(** [session ?? currentSession] *)
Definition sessionOr (p : Process) (session : option jsstring) : jsstring :=
  match session with Some s => s | None => currentSession p end.

Definition getSocketAddress (p : Process) (session : option jsstring) : jsstring :=
  let sess := sessionOr p session in
  if isWindows then numberToString (getPortForSession sess)
  else join getSocketDir (sess ++ lit ".sock").

Definition getPortFile (p : Process) (session : option jsstring) : jsstring :=
  let sess := sessionOr p session in
  join getSocketDir (sess ++ lit ".port").

Definition getPidFile (p : Process) (session : option jsstring) : jsstring :=
  let sess := sessionOr p session in
  join getSocketDir (sess ++ lit ".pid").

Definition getStreamPortFile (p : Process) (session : option jsstring) : jsstring :=
  let sess := sessionOr p session in
  join getSocketDir (sess ++ lit ".stream").

(** ** Session registry ([daemon.ts]) *)

(** [if (await f.exists()) await f.delete()] for [f = Bun.file(path)].
    [exists()] is true for a regular file only; for a Unix socket it
    answers [false], so a socket at [path] is never deleted here (it is
    in [sockets], not in [files]). Deleting an existing regular file
    succeeds in this model of the disk, so the [catch] clause of
    [cleanupSocket] is never entered. *)
Definition deleteIfExists (path : jsstring) : M Process unit :=
  let! present := gets (fun p => bool_decide (is_Some (files p !! path))) in
  when present (modify (set_files (delete path))).

(** [process.exit(code)] *)
Definition processExit (code : Z) : M Process unit :=
  emit (ProcessExit code) >> modify (set_exited (Some code)).

Definition cleanupSocket (session : option jsstring) : M Process unit :=
  let! sess := gets (fun p => sessionOr p session) in
  let! busy := gets (fun p => bool_decide (sess ∈ cleaningUp p)) in
  if busy then ret tt
  else
    modify (set_cleaningUp (fun c => c ∪ {[sess]})) >>
    tryFinally
      (tryCatch
         (let! pidFile := gets (fun p => getPidFile p session) in
          let! streamPortFile := gets (fun p => getStreamPortFile p session) in
          deleteIfExists pidFile >>
          deleteIfExists streamPortFile >>
          if isWindows then
            let! portFile := gets (fun p => getPortFile p session) in
            deleteIfExists portFile
          else
            let! socketFile := gets (fun p => getSocketAddress p session) in
            deleteIfExists socketFile)
         (fun _ => ret tt))
      (modify (set_cleaningUp (fun c => c ∖ {[sess]}))).

(** [process.kill(pid, 0)] throws when the probe fails, and when
    [parseInt] produced [NaN]. *)
Definition probe (pid : option Z) : M Process unit :=
  match pid with
  | Some n => if kill0 n then ret tt else throw (lit "ESRCH")
  | None => throw (lit "ERR_INVALID_ARG_TYPE")
  end.

Definition isDaemonRunning (session : option jsstring) : M Process bool :=
  let! pidFile := gets (fun p => getPidFile p session) in
  let! content := gets (fun p => files p !! pidFile) in
  match content with
  | None => ret false
  | Some text =>
      tryCatch
        (let pid := parseInt10 (trim text) in
         probe pid >> ret true)
        (fun _ => cleanupSocket session >> ret false)
  end.

(** ** Stream server ([stream-server.ts]) *)

(** The methods of [StreamServer] run on the object's fields and on the
    [BrowserManager] it was constructed with. *)
Abbreviation StreamState := (StreamServer * browser)%type.

Definition set_server (v : bool) (st : StreamState) : StreamState :=
  let '(s, b) := st in
  (mkStreamServer v (port s) (isScreencasting s) (clientCount s), b).

Definition set_isScreencasting (v : bool) (st : StreamState) : StreamState :=
  let '(s, b) := st in
  (mkStreamServer (server s) (port s) v (clientCount s), b).

Definition set_clientCount (v : Z) (st : StreamState) : StreamState :=
  let '(s, b) := st in
  (mkStreamServer (server s) (port s) (isScreencasting s) v, b).

(** A call of an engine method, recorded in the trace. *)
Definition callBrowser {A} (c : engineCall)
  (f : browser -> completion A * browser) : M StreamState A :=
  fun st => let '(s, b) := st in let '(r, b') := f b in (r, (s, b'), [Engine c]).

(** A computation that only may throw. *)
Definition liftC {St A} (c : completion A) : M St A := fun s => (c, s, []).

(** An inbound HTTP request as the [fetch] callback sees it: its
    [origin] header and whether [server.upgrade(req)] would succeed. *)
Record Request : Type := mkRequest {
  origin : option jsstring;
  upgradable : bool
}.

Inductive fetchResult : Type :=
| HttpResponse (statusCode : Z) (body : jsstring)
| Upgraded.

(** The [fetch] callback installed by [start]. *)
Definition fetch (req : Request) : fetchResult :=
  match origin req with
  | Some (c :: o) =>
      if negb (startsWith (lit "file://") (c :: o))
      then HttpResponse 403 (lit "Forbidden")
      else if upgradable req then Upgraded
           else HttpResponse 400 (lit "Upgrade failed")
  | _ =>
      if upgradable req then Upgraded
      else HttpResponse 400 (lit "Upgrade failed")
  end.

Definition statusMessage : M StreamState (option StreamMessage) :=
  fun st =>
    match viewportSize (snd st) with
    | Normal viewport =>
        (Normal (Some (StatusMessage true (isScreencasting (fst st))
                         (fst <$> viewport) (snd <$> viewport))), st, [])
    | Throw _ => (Normal None, st, [])
    end.

Definition broadcastFrame (data : jsstring) (metadata : json) : M StreamState unit :=
  let! srv := gets (fun st => server (fst st)) in
  when srv (emit (Publish screencast (FrameMessage data metadata))).

Definition broadcastStatus : M StreamState unit :=
  let! srv := gets (fun st => server (fst st)) in
  if negb srv then ret tt
  else
    let! message := statusMessage in
    match message with
    | Some m => emit (Publish status m)
    | None => ret tt
    end.

Definition sendStatus (ws : nat) : M StreamState unit :=
  let! message := statusMessage in
  match message with
  | Some m => emit (WsSend ws m)
  | None => ret tt
  end.

Definition sendError (ws : nat) (errorMessage : jsstring) : M StreamState unit :=
  emit (WsSend ws (ErrorMessage errorMessage)).

Definition startScreencast : M StreamState unit :=
  let! casting := gets (fun st => isScreencasting (fst st)) in
  if casting then ret tt
  else
    modify (set_isScreencasting true) >>
    tryCatch
      (let! launched := gets (fun st => isLaunched (snd st)) in
       (if negb launched then throw (lit "Browser not launched") else ret tt) >>
       callBrowser CallStartScreencast browserStartScreencast >>
       broadcastStatus)
      (fun error => modify (set_isScreencasting false) >> throw error).

Definition stopScreencast : M StreamState unit :=
  let! casting := gets (fun st => isScreencasting (fst st)) in
  if negb casting then ret tt
  else
    callBrowser CallStopScreencast browserStopScreencast >>
    modify (set_isScreencasting false) >>
    broadcastStatus.

Definition start : M StreamState unit :=
  tryCatch
    (let! p := gets (fun st => port (fst st)) in
     liftC (bunServe p) >>
     modify (set_server true) >>
     emit (StreamListen p) >>
     emit (SetScreencastFrameCallback true))
    (fun error => throw error).

(** The [open] callback, taken together with the continuation of the
    [startScreencast()] it calls without awaiting: this is what happens
    when the engine answers before the next callback runs. The two parts
    are [handleOpen_begin] and [resume] below. *)
Definition handleOpen (ws : nat) : M StreamState unit :=
  modify (fun st => set_clientCount (clientCount (fst st) + 1) st) >>
  emit (WsSubscribe ws screencast) >>
  emit (WsSubscribe ws status) >>
  sendStatus ws >>
  let! count := gets (fun st => clientCount (fst st)) in
  let! casting := gets (fun st => isScreencasting (fst st)) in
  when ((count =? 1) && negb casting)
    (tryCatch startScreencast (fun error => sendError ws error)).

(** The [close] callback, taken together with the continuation of the
    [stopScreencast()] it calls without awaiting. *)
Definition handleClose (ws : nat) : M StreamState unit :=
  emit (WsUnsubscribe ws screencast) >>
  emit (WsUnsubscribe ws status) >>
  modify (fun st => set_clientCount (clientCount (fst st) - 1) st) >>
  let! count := gets (fun st => clientCount (fst st)) in
  let! casting := gets (fun st => isScreencasting (fst st)) in
  when ((count =? 0) && casting)
    (tryCatch stopScreencast (fun _ => ret tt)).

(** *** The callbacks and the promises they leave behind

    [handleOpen] and [handleClose] return as soon as the
    [startScreencast()] or [stopScreencast()] they call reaches its
    [await]; what follows the [await], and the [catch] handler attached
    to the promise, run when the engine has answered, which may be after
    other callbacks. *)

(** A call of an engine method up to the point where the caller awaits
    it: the call is made (and recorded), the answer is kept for the
    continuation. *)
Definition callBrowserAsync {A} (c : engineCall)
  (f : browser -> completion A * browser) : M StreamState (completion A) :=
  fun st => let '(s, b) := st in let '(r, b') := f b in (Normal r, (s, b'), [Engine c]).

(** An engine call that has been made and is not answered yet: the one
    [startScreencast] awaits, called for the viewer [ws], or the one
    [stopScreencast] awaits. [outcome] is the engine's answer. *)
Inductive pending : Type :=
| Starting (ws : nat) (outcome : completion unit)
| Stopping (outcome : completion unit).

(** [startScreencast] up to its [await]: [Some outcome] when it got
    there, [None] when it returned before. It throws when the promise
    is rejected without suspending (browser not launched). *)
Definition startScreencast_begin : M StreamState (option (completion unit)) :=
  let! casting := gets (fun st => isScreencasting (fst st)) in
  if casting then ret None
  else
    modify (set_isScreencasting true) >>
    tryCatch
      (let! launched := gets (fun st => isLaunched (snd st)) in
       (if negb launched then throw (lit "Browser not launched") else ret tt) >>
       let! outcome := callBrowserAsync CallStartScreencast browserStartScreencast in
       ret (Some outcome))
      (fun error => modify (set_isScreencasting false) >> throw error).

(** [startScreencast] from its [await] on, still inside its [try]. *)
Definition startScreencast_resume (outcome : completion unit) : M StreamState unit :=
  tryCatch
    (liftC outcome >> broadcastStatus)
    (fun error => modify (set_isScreencasting false) >> throw error).

Definition stopScreencast_begin : M StreamState (option (completion unit)) :=
  let! casting := gets (fun st => isScreencasting (fst st)) in
  if negb casting then ret None
  else
    let! outcome := callBrowserAsync CallStopScreencast browserStopScreencast in
    ret (Some outcome).

Definition stopScreencast_resume (outcome : completion unit) : M StreamState unit :=
  liftC outcome >>
  modify (set_isScreencasting false) >>
  broadcastStatus.

(** The [open] callback itself. A [startScreencast()] that is rejected
    without suspending has its [catch] handler run before any other
    callback. *)
Definition handleOpen_begin (ws : nat) : M StreamState (option pending) :=
  modify (fun st => set_clientCount (clientCount (fst st) + 1) st) >>
  emit (WsSubscribe ws screencast) >>
  emit (WsSubscribe ws status) >>
  sendStatus ws >>
  let! count := gets (fun st => clientCount (fst st)) in
  let! casting := gets (fun st => isScreencasting (fst st)) in
  if (count =? 1) && negb casting
  then tryCatch
         (let! called := startScreencast_begin in ret (Starting ws <$> called))
         (fun error => sendError ws error >> ret None)
  else ret None.

(** The [close] callback itself. *)
Definition handleClose_begin (ws : nat) : M StreamState (option pending) :=
  emit (WsUnsubscribe ws screencast) >>
  emit (WsUnsubscribe ws status) >>
  modify (fun st => set_clientCount (clientCount (fst st) - 1) st) >>
  let! count := gets (fun st => clientCount (fst st)) in
  let! casting := gets (fun st => isScreencasting (fst st)) in
  if (count =? 0) && casting
  then tryCatch
         (let! called := stopScreencast_begin in ret (Stopping <$> called))
         (fun _ => ret None)
  else ret None.

(** The engine has answered: the rest of [startScreencast] or
    [stopScreencast] runs, and then the [catch] handler that the
    callback attached to the promise. *)
Definition resume (call : pending) : M StreamState unit :=
  match call with
  | Starting ws outcome =>
      tryCatch (startScreencast_resume outcome) (fun error => sendError ws error)
  | Stopping outcome =>
      tryCatch (stopScreencast_resume outcome) (fun _ => ret tt)
  end.

(** What [this.server.stop(true)] does to the viewers: the runtime
    closes every open connection, and the [close] callback of the
    listener, which is [handleClose], runs for each of them. *)
Fixpoint closeViewers (open : list nat) : M StreamState unit :=
  match open with
  | [] => ret tt
  | ws :: rest => handleClose ws >> closeViewers rest
  end.

(** [stop()], called while the runtime holds the connections [open] on
    the listener. [server.stop(true)] stops the listener and closes the
    viewers; [this.server = null] follows in its [finally]. *)
Definition stop (open : list nat) : M StreamState unit :=
  let! casting := gets (fun st => isScreencasting (fst st)) in
  when casting stopScreencast >>
  emit (SetScreencastFrameCallback false) >>
  let! srv := gets (fun st => server (fst st)) in
  when srv
    (modify (set_clientCount 0) >>
     emit StreamStop >>
     closeViewers open >>
     modify (set_server false)).

Fixpoint assoc (name : jsstring) (fields : list (jsstring * json)) : option json :=
  match fields with
  | [] => None
  | (k, v) :: rest => if code_units_eqb k name then Some v else assoc name rest
  end.

(** [message.name] for a [message] that is not [null]. *)
Definition prop (message : json) (name : string) : option json :=
  match message with
  | JObject fields => assoc (lit name) fields
  | _ => None
  end.

(** [message.type]: reading a property of [null] throws a [TypeError]. *)
Definition messageType (message : json) : completion (option json) :=
  match message with
  | JNull => Throw (lit "null is not an object (evaluating 'message.type')")
  | _ => Normal (prop message "type")
  end.

Definition isType (ty : option json) (name : string) : bool :=
  match ty with
  | Some (JString s) => code_units_eqb s (lit name)
  | _ => false
  end.

Definition mouseParams (message : json) : InjectParams :=
  [ (lit "type", prop message "eventType"); (lit "x", prop message "x");
    (lit "y", prop message "y"); (lit "button", prop message "button");
    (lit "clickCount", prop message "clickCount");
    (lit "deltaX", prop message "deltaX"); (lit "deltaY", prop message "deltaY");
    (lit "modifiers", prop message "modifiers") ].

Definition keyboardParams (message : json) : InjectParams :=
  [ (lit "type", prop message "eventType"); (lit "key", prop message "key");
    (lit "code", prop message "code"); (lit "text", prop message "text");
    (lit "modifiers", prop message "modifiers") ].

Definition touchParams (message : json) : InjectParams :=
  [ (lit "type", prop message "eventType");
    (lit "touchPoints", prop message "touchPoints");
    (lit "modifiers", prop message "modifiers") ].

(** The [switch] of [handleMessage] on a parsed message. *)
Definition dispatchMessage (ws : nat) (message : json) : M StreamState unit :=
  let! ty := liftC (messageType message) in
  if isType ty "input_mouse" then
    callBrowser (CallInjectMouseEvent (mouseParams message))
      (injectMouseEvent (mouseParams message))
  else if isType ty "input_keyboard" then
    callBrowser (CallInjectKeyboardEvent (keyboardParams message))
      (injectKeyboardEvent (keyboardParams message))
  else if isType ty "input_touch" then
    callBrowser (CallInjectTouchEvent (touchParams message))
      (injectTouchEvent (touchParams message))
  else if isType ty "status" then sendStatus ws
  else ret tt.

Definition handleMessage (ws : nat) (data : jsstring) : M StreamState unit :=
  tryCatch
    (let! message := liftC (JSON_parse data) in
     dispatchMessage ws message)
    (fun errorMessage => sendError ws errorMessage).

(** ** Command daemon ([daemon.ts]) *)

(** [socket.data] *)
Record SocketData : Type := mkSocketData {
  chunks : list jsstring;
  httpChecked : bool
}.

(** The data handler runs on the daemon's state and on the data of the
    connection it serves. *)
Abbreviation Conn := (Process * SocketData)%type.

Definition set_chunks (f : list jsstring -> list jsstring) (st : Conn) : Conn :=
  let '(p, d) := st in (p, mkSocketData (f (chunks d)) (httpChecked d)).

Definition set_httpChecked (v : bool) (st : Conn) : Conn :=
  let '(p, d) := st in (p, mkSocketData (chunks d) v).

(** The [open] callback. *)
Definition open : SocketData := mkSocketData [] false.

(** [chunks.reduce((sum, c) => sum + c.length, 0)] *)
Definition bufferedSize (cs : list jsstring) : Z :=
  fold_left (fun sum c => sum + Z.of_nat (length c)) cs 0.

(** [/^(GET|POST|PUT|DELETE|HEAD|OPTIONS|PATCH|CONNECT|TRACE)\s/i.test(s)] *)
Definition httpMethods : list jsstring :=
  map lit ["GET"; "POST"; "PUT"; "DELETE"; "HEAD"; "OPTIONS"; "PATCH";
           "CONNECT"; "TRACE"]%string.

Definition isHttpRequestLine (s : jsstring) : bool :=
  existsb (fun kw => match matchKeyword kw s with
                     | Some (c :: _) => isWhiteSpace c
                     | _ => false
                     end) httpMethods.

(** [v === '1'] *)
Definition isOne (v : option jsstring) : bool :=
  match v with Some s => code_units_eqb s (lit "1") | None => false end.

(** [s.split(sep).map(x => x.trim()).filter(x => x.length > 0)] *)
Definition splitList (isSep : Z -> bool) (s : jsstring) : list jsstring :=
  filter (fun x => nonEmpty x = true) (map trim (splitOn isSep [] s)).

(** The implicit launch command built from the environment. *)
Definition autoLaunch : LaunchCommand :=
  let extensions :=
    match env (lit "AGENT_BROWSER_EXTENSIONS") with
    | Some (c :: v) => Some (splitList (fun x => x =? 44) (c :: v))
    | _ => None
    end in
  let args :=
    match env (lit "AGENT_BROWSER_ARGS") with
    | Some (c :: v) => Some (splitList (fun x => (x =? 44) || (x =? 10)) (c :: v))
    | _ => None
    end in
  let proxy :=
    match env (lit "AGENT_BROWSER_PROXY") with
    | Some (c :: v) =>
        Some (c :: v,
              match env (lit "AGENT_BROWSER_PROXY_BYPASS") with
              | Some (d :: w) => Some (d :: w)
              | _ => None
              end)
    | _ => None
    end in
  mkLaunch (lit "auto") (lit "launch")
    (negb (isOne (env (lit "AGENT_BROWSER_HEADED"))))
    (env (lit "AGENT_BROWSER_EXECUTABLE_PATH"))
    extensions
    (env (lit "AGENT_BROWSER_PROFILE"))
    (env (lit "AGENT_BROWSER_STATE"))
    args
    (env (lit "AGENT_BROWSER_USER_AGENT"))
    proxy
    (isOne (env (lit "AGENT_BROWSER_IGNORE_HTTPS_ERRORS"))).

(** A call of an engine method from the daemon. *)
Definition callEngine {A} (c : engineCall)
  (f : browser -> completion A * browser) : M Conn A :=
  fun st =>
    let '(p, d) := st in
    let '(r, b') := f (theBrowser p) in
    (r, (set_theBrowser b' p, d), [Engine c]).

(** [socket.write(serializeResponse(resp) + '\n')] *)
Definition writeResponse (socket : nat) (resp : Response) : M Conn unit :=
  emit (SocketWrite socket (serializeResponse resp ++ [10])).

(** How one turn of the read loop ends: it goes on with the next line
    ([continue], or the end of the body), or the handler returns. *)
Inductive lineResult : Type := NextLine | ReturnFromHandler.

(** The [try] block of the read loop for one non-blank line. *)
Definition dispatchLine (socket : nat) (line : jsstring) : M Conn lineResult :=
  let! parseResult := liftC (parseCommand line) in
  match parseResult with
  | ParseFail id error =>
      writeResponse socket
        (errorResponse (match id with Some i => i | None => lit "unknown" end) error) >>
      ret NextLine
  | ParseOk command =>
      let! launched := gets (fun st => isLaunched (theBrowser (fst st))) in
      when (negb launched &&
            negb (code_units_eqb (action command) (lit "launch")) &&
            negb (code_units_eqb (action command) (lit "close")))
        (callEngine (CallLaunch autoLaunch) (launch autoLaunch)) >>
      if code_units_eqb (action command) (lit "close") then
        let! response :=
          callEngine (CallExecuteCommand (action command)) (executeCommand command) in
        writeResponse socket response >>
        let! down := gets (fun st => shuttingDown (fst st)) in
        when (negb down)
          (modify (fun st => (set_shuttingDown true (fst st), snd st)) >>
           emit (SetTimeout 100)) >>
        ret ReturnFromHandler
      else
        let! response :=
          callEngine (CallExecuteCommand (action command)) (executeCommand command) in
        writeResponse socket response >>
        ret NextLine
  end.

(** How the read loop ends: the [while] condition became false with
    [buffer] left over, or the handler returned from inside the loop.
    [OutOfFuel] is never produced by [data] (see [processLines_fuel]). *)
Inductive loopResult : Type :=
| LoopDone (buffer : jsstring)
| HandlerReturned
| OutOfFuel.

(** [while (buffer.includes('\n')) { ... }]. Each turn removes at least
    the line feed from [buffer], so [length buffer + 1] turns suffice. *)
Fixpoint processLines (socket : nat) (fuel : nat) (buffer : jsstring)
  : M Conn loopResult :=
  match fuel with
  | O => ret OutOfFuel
  | S fuel' =>
      match cutLine buffer with
      | None => ret (LoopDone buffer)
      | Some (line, rest) =>
          if negb (nonEmpty (trim line)) then processLines socket fuel' rest
          else
            let! r :=
              tryCatch (dispatchLine socket line)
                (fun message =>
                   writeResponse socket (errorResponse (lit "error") message) >>
                   ret NextLine) in
            match r with
            | NextLine => processLines socket fuel' rest
            | ReturnFromHandler => ret HandlerReturned
            end
      end
  end.

(** The read loop of the [data] callback and the statement after it,
    which saves the unterminated rest back to [chunks]. *)
Definition readLines (socket : nat) (buffer : jsstring) : M Conn unit :=
  let! r := processLines socket (S (length buffer)) buffer in
  match r with
  | LoopDone rest =>
      modify (set_chunks (fun _ => if nonEmpty rest then [rest] else []))
  | HandlerReturned => ret tt
  | OutOfFuel => ret tt
  end.

(** The [data] callback for one decoded chunk ([data.toString()]). *)
Definition data (socket : nat) (chunk : jsstring) : M Conn unit :=
  let! currentSize := gets (fun st => bufferedSize (chunks (snd st))) in
  if currentSize + Z.of_nat (length chunk) >? MAX_BUFFER_SIZE then
    emit (SocketTerminate socket BufferOverflow)
  else
    modify (set_chunks (fun cs => cs ++ [chunk])) >>
    let! buffer := gets (fun st => concat (chunks (snd st))) in
    let! checked := gets (fun st => httpChecked (snd st)) in
    let! isHttp :=
      (if negb checked then
         modify (set_httpChecked true) >>
         ret (isHttpRequestLine (trimStart buffer))
       else ret false) in
    if isHttp then emit (SocketTerminate socket HttpRequest)
    else readLines socket buffer.

(** A sequence of data events on one connection. *)
Fixpoint dataEvents (socket : nat) (received : list jsstring) : M Conn unit :=
  match received with
  | [] => ret tt
  | chunk :: later => data socket chunk >> dataEvents socket later
  end.

(** [server.stop(true)] on the command listener: no connection is
    accepted any more and the open ones are closed (their [close]
    callback does nothing). The runtime unlinks the socket file of a
    Unix listener when it stops it. *)
Definition serverStop : M Process unit :=
  emit ServerStop >>
  modify (set_listening false) >>
  if isWindows then ret tt
  else
    let! path := gets (fun p => getSocketAddress p None) in
    modify (set_sockets (fun s => s ∖ {[path]})).


(** Run a [StreamServer] method on the object held by [streamServer]. *)
Definition onStream {A} (s : StreamServer) (m : M StreamState A) : M Process A :=
  zoom (fun p => (s, theBrowser p))
       (fun st p => set_theBrowser (snd st) (set_streamServer (Some (fst st)) p))
       m.

Definition shutdown : M Process unit :=
  let! down := gets shuttingDown in
  if down then ret tt
  else
    modify (set_shuttingDown true) >>
    let! ss := gets streamServer in
    match ss with
    | Some s =>
        let! open := gets viewers in
        onStream s (stop open) >>
        (* the connections that [stop] closed are gone *)
        modify (set_viewers []) >>
        modify (set_streamServer None) >>
        let! streamPortFile := gets (fun p => getStreamPortFile p None) in
        tryCatch (deleteIfExists streamPortFile) (fun _ => ret tt)
    | None => ret tt
    end >>
    zoom theBrowser set_theBrowser
      (fun b => let '(r, b') := close b in (r, b', [Engine CallClose])) >>
    serverStop >>
    tryFinally (cleanupSocket None) (processExit 0).

(** The events on which [startDaemon] registers a listener. *)
Inductive trigger : Type :=
| SIGINT | SIGTERM | SIGHUP
| uncaughtException | unhandledRejection | beforeExit.

(** The listener registered for each event. *)
Definition listener (t : trigger) : M Process unit :=
  match t with
  | SIGINT | SIGTERM | SIGHUP => shutdown
  | uncaughtException | unhandledRejection =>
      tryFinally (cleanupSocket None) (processExit 1)
  | beforeExit => cleanupSocket None
  end.

End Model.

(* ================================================================= *)
(** * Start-up of the daemon ([daemon.ts]) *)
(* ================================================================= *)

(** The options [startDaemon] passes to [Bun.listen]:
    [{hostname, port}] or [{unix}]. *)
Inductive ListenOptions : Type :=
| ListenTcp (hostname : jsstring) (port : Z)
| ListenUnix (unix : jsstring).

(** What [startDaemon] asks of the runtime besides [Host]: whether
    [mkdirSync(dir, {recursive: true})] succeeds, whether [Bun.write] of
    a text to a path succeeds, whether [Bun.listen] can bind the
    transport, the state of a [new BrowserManager()] and
    [import.meta.main]. *)
Class Runtime (BM : BrowserManager) : Type := {
  mkdirSync : jsstring -> completion unit;
  bunWrite : jsstring -> jsstring -> completion unit;
  bunListen : ListenOptions -> completion unit;
  newBrowserManager : browser;
  importMetaMain : bool
}.

Section Startup.
Context {HO : Host} {BM : BrowserManager} {PR : Protocol} {AC : Actions BM PR}
        {RT : Runtime BM}.

(** The result of [getConnectionInfo]. *)
Inductive ConnectionInfo : Type :=
| ConnUnix (path : jsstring)
| ConnTcp (port : Z).

Definition getConnectionInfo (p : Process) (session : option jsstring)
  : ConnectionInfo :=
  let sess := sessionOr p session in
  if isWindows then ConnTcp (getPortForSession sess)
  else ConnUnix (join getSocketDir (sess ++ lit ".sock")).

(** The daemon process as [startDaemon] sees it: the state the handlers
    run on, the file mode mask ([process.umask]), the events with a
    registered listener in registration order ([process.on]) and whether
    [process.stdin.resume()] was called. *)
Record Daemon : Type := mkDaemon {
  proc : Process;
  umask : Z;
  handlers : list trigger;
  stdinResumed : bool
}.

Definition set_proc (p : Process) (d : Daemon) :=
  mkDaemon p (umask d) (handlers d) (stdinResumed d).

Definition set_umask (m : Z) (d : Daemon) :=
  mkDaemon (proc d) m (handlers d) (stdinResumed d).

Definition set_handlers (h : list trigger) (d : Daemon) :=
  mkDaemon (proc d) (umask d) h (stdinResumed d).

Definition set_stdinResumed (v : bool) (d : Daemon) :=
  mkDaemon (proc d) (umask d) (handlers d) v.

(** Run code of the daemon module on the process state. *)
Definition inProcess {A} (m : M Process A) : M Daemon A := zoom proc set_proc m.

(** [await Bun.write(path, text)] *)
Definition bunWriteFile (path text : jsstring) : M Daemon unit :=
  liftC (bunWrite path text) >>
  inProcess (modify (set_files (fun fs => <[path := text]> fs))).

(** [process.on(event, listener)], with [listener event] the listener. *)
Definition processOn (event : trigger) : M Daemon unit :=
  modify (fun d => set_handlers (handlers d ++ [event]) d).

(** [options?.streamPort ?? (env ? parseInt(env, 10) : 0)]; [None] is
    [NaN]. *)
Definition streamPortOf (options : option Z) : option Z :=
  match options with
  | Some n => Some n
  | None =>
      match env (lit "AGENT_BROWSER_STREAM_PORT") with
      | Some (c :: v) => parseInt10 (c :: v)
      | _ => Some 0
      end
  end.

Definition listenOptions (p : Process) : ListenOptions :=
  if isWindows
  then ListenTcp (lit "127.0.0.1") (getPortForSession (currentSession p))
  else ListenUnix (getSocketAddress p None).

(** [Bun.listen(listenOptions)]: it throws when the transport cannot be
    bound; binding a Unix socket creates the socket file. *)
Definition bunListenOn (opts : ListenOptions) : M Daemon unit :=
  liftC (bunListen opts) >>
  inProcess
    (modify (set_listening true) >>
     match opts with
     | ListenUnix path => modify (set_sockets (fun s => s ∪ {[path]}))
     | ListenTcp _ _ => ret tt
     end).

(** [await cleanupSocket().finally(() => process.exit(1))]. As in the
    listeners, [process.exit] is recorded (trace and [exited]); what the
    model runs after it is of no consequence to a process that is
    gone. *)
Definition exitAfterCleanup : M Daemon unit :=
  inProcess (tryFinally (cleanupSocket None) (processExit 1)).

(** The beginning of [startDaemon]: the socket directory, the removal
    of stale markers, the engine object and the shutdown flag. *)
Definition prepare : M Daemon unit :=
  liftC (mkdirSync getSocketDir) >>
  inProcess (cleanupSocket None) >>
  inProcess (modify (set_theBrowser newBrowserManager)) >>
  inProcess (modify (set_shuttingDown false)).

(** The block [if (streamPort > 0) { ... }] of [startDaemon]. *)
Definition streamBlock (streamPort : option Z) : M Daemon unit :=
  match streamPort with
  | Some n =>
      when (0 <? n)
        (inProcess (modify (set_streamServer (Some (mkStreamServer false n false 0)))) >>
         inProcess (onStream (mkStreamServer false n false 0) start) >>
         let! streamPortFile := gets (fun d => getStreamPortFile (proc d) None) in
         bunWriteFile streamPortFile (numberToString n))
  | None => ret tt
  end.

(** [if (isWindows) await Bun.write(getPortFile(), listenOptions.port.toString())];
    only the TCP options have a [port]. *)
Definition portBlock (opts : ListenOptions) : M Daemon unit :=
  if isWindows then
    match opts with
    | ListenTcp _ port =>
        let! portFile := gets (fun d => getPortFile (proc d) None) in
        bunWriteFile portFile (numberToString port)
    | ListenUnix _ =>
        throw (lit "undefined is not an object (evaluating 'listenOptions.port.toString')")
    end
  else ret tt.

(** The [try] block of [startDaemon]. *)
Definition listenBlock (opts : ListenOptions) : M Daemon unit :=
  bunListenOn opts >>
  processOn SIGINT >>
  processOn SIGTERM >>
  processOn SIGHUP >>
  processOn uncaughtException >>
  processOn unhandledRejection >>
  processOn beforeExit >>
  modify (set_stdinResumed true).

(** From [const oldUmask = ...] to the end of [startDaemon]: the
    [try]/[catch]/[finally] around the listener, under the mask 0o077
    except on Windows. *)
Definition guardedListen (opts : ListenOptions) : M Daemon unit :=
  let! oldUmask :=
    (if isWindows then ret None
     else let! old := gets umask in
          modify (set_umask 63) >> ret (Some old)) in
  tryFinally
    (tryCatch (listenBlock opts) (fun _ => exitAfterCleanup))
    (match oldUmask with
     | Some old => modify (set_umask old)
     | None => ret tt
     end).

Definition startDaemon (options : option Z) : M Daemon unit :=
  prepare >>
  streamBlock (streamPortOf options) >>
  let! pidFile := gets (fun d => getPidFile (proc d) None) in
  bunWriteFile pidFile (numberToString pid) >>
  let! opts := gets (fun d => listenOptions (proc d)) in
  portBlock opts >>
  guardedListen opts.


End Startup.

(* ================================================================= *)
(** * Vocabulary of the statements *)
(* ================================================================= *)

Section Vocabulary.
Context {HO : Host} {BM : BrowserManager} {PR : Protocol} {AC : Actions BM PR}.

(** What the read loop does to the outside: it writes to its own
    connection, calls the engine and arms the shutdown timer. *)
Definition loopEffect (socket : nat) (e : effect) : Prop :=
  match e with
  | SocketWrite s _ => s = socket
  | Engine _ => True
  | SetTimeout _ => True
  | _ => False
  end.

(** The paths [cleanupSocket] looks at: the PID file, the stream-port
    file and the transport marker (the port file on Windows, the path of
    the socket elsewhere). What it deletes there are regular files; a
    socket at the last path is in [sockets], not in [files]. *)
Definition markerFiles (p : Process) (session : option jsstring) : list jsstring :=
  [ getPidFile p session; getStreamPortFile p session;
    if isWindows then getPortFile p session else getSocketAddress p session ].

(** The state a completed cleanup leaves: the regular files at the
    three paths are gone, the socket files are as they were. *)
Definition cleaned (session : option jsstring) (p : Process) : Process :=
  set_files
    (fun fs =>
       delete (if isWindows then getPortFile p session
               else getSocketAddress p session)
         (delete (getStreamPortFile p session)
            (delete (getPidFile p session) fs)))
    p.


(** The number of bytes on the wire of a text that [data.toString()]
    decoded from UTF-8: one to three bytes for a code unit of the basic
    plane; a surrogate is one half of a pair that took four bytes. *)
Definition utf8Length (s : jsstring) : Z :=
  fold_right
    (fun c n =>
       (if c <? 128 then 1
        else if c <? 2048 then 2
        else if (55296 <=? c) && (c <? 57344) then 2
        else 3) + n)
    0 s.

(** The probe of [isDaemonRunning] on the text of a PID file fails when
    the text is not a number or names no live process. *)
Definition probeFails (text : jsstring) : bool :=
  match parseInt10 (trim text) with
  | Some n => negb (kill0 n)
  | None => true
  end.

(** What closing the viewers [open] does to the outside: each is
    unsubscribed from both groups by its [close] callback. *)
Definition closings (open : list nat) : list effect :=
  flat_map (fun ws => [WsUnsubscribe ws screencast; WsUnsubscribe ws status]) open.

(** The fields of a stream server after [stop] completed with the
    viewers [open] connected: unbound, not capturing; the client count
    of a server that was bound is reset and then decremented by each
    [close] callback. *)
Definition stoppedServer (open : list nat) (s : StreamServer) : StreamServer :=
  if server s
  then mkStreamServer false (port s) false (- Z.of_nat (length open))
  else mkStreamServer false (port s) false (clientCount s).



(** The status a viewer is sent when the engine state is [b] and the
    capturing flag is [casting]; nothing when there is no page. *)
Definition statusOf (casting : bool) (b : browser) : option StreamMessage :=
  match viewportSize b with
  | Normal viewport =>
      Some (StatusMessage true casting (fst <$> viewport) (snd <$> viewport))
  | Throw _ => None
  end.

Definition sent (ws : nat) (m : option StreamMessage) : list effect :=
  match m with Some m => [WsSend ws m] | None => [] end.

Definition published (srv : bool) (m : option StreamMessage) : list effect :=
  match m with Some m => if srv then [Publish status m] else [] | None => [] end.

Definition isEngineCall (e : effect) : bool :=
  match e with Engine _ => true | _ => false end.

(** What [handleMessage] may do: call the engine and send to the viewer
    the message came from. *)
Definition replyEffect (ws : nat) (e : effect) : Prop :=
  match e with
  | WsSend w _ => w = ws
  | Engine _ => True
  | _ => False
  end.

(** Viewers coming and going, and the engine answering: [Settled k] is
    the answer to the [k]-th of the calls that are not answered yet
    (nothing happens when there is none). *)
Inductive viewerEvent : Type :=
| Connect (ws : nat)
| Disconnect (ws : nat)
| Settled (k : nat).

(** The call a callback left behind, if any. *)
Definition left_behind (r : completion (option pending)) : list pending :=
  match r with
  | Normal (Some call) => [call]
  | _ => []
  end.

(** One event on the stream server between callbacks: its state and the
    engine calls that are not answered yet, oldest first. *)
Definition viewerStep (e : viewerEvent)
  (v : (StreamServer * browser) * list pending)
  : (StreamServer * browser) * list pending :=
  let '(st, calls) := v in
  match e with
  | Connect ws =>
      (final (handleOpen_begin ws) st,
       calls ++ left_behind (result (handleOpen_begin ws) st))
  | Disconnect ws =>
      (final (handleClose_begin ws) st,
       calls ++ left_behind (result (handleClose_begin ws) st))
  | Settled k =>
      match calls !! k with
      | Some call => (final (resume call) st, delete k calls)
      | None => (st, calls)
      end
  end.

Definition runViewers (evs : list viewerEvent)
  (v : (StreamServer * browser) * list pending)
  : (StreamServer * browser) * list pending :=
  fold_left (fun v e => viewerStep e v) evs v.

(** The sequence in which the engine answers every call before the next
    callback runs. *)
Definition promptly (evs : list viewerEvent) : list viewerEvent :=
  flat_map (fun e => [e; Settled 0%nat]) evs.

(** Only connected viewers disconnect: the count never drops below 0. *)
Fixpoint balanced (count : Z) (evs : list viewerEvent) : bool :=
  match evs with
  | [] => true
  | Connect _ :: evs' => balanced (count + 1) evs'
  | Disconnect _ :: evs' => (0 <? count) && balanced (count - 1) evs'
  | Settled _ :: evs' => balanced count evs'
  end.

(** An engine that, once launched, starts and stops capturing without
    throwing and stays launched. *)
Definition steadyEngine : Prop :=
  forall b, isLaunched b = true ->
    (exists b', browserStartScreencast b = (Normal tt, b') /\ isLaunched b' = true) /\
    (exists b', browserStopScreencast b = (Normal tt, b') /\ isLaunched b' = true).

(** Capture runs exactly while somebody watches. *)
Definition captureInv (st : StreamServer * browser) : Prop :=
  0 <= clientCount (fst st) /\
  isLaunched (snd st) = true /\
  isScreencasting (fst st) = (0 <? clientCount (fst st)).


(** ** Vocabulary of the further properties *)

(** From a state in [I], [m] ends in [I] and every action satisfies [P]. *)
Definition holds {St A} (I : St -> Prop) (P : effect -> Prop) (m : M St A) : Prop :=
  forall s, I s -> I (final m s) /\ Forall P (trace m s).

(** What the data handler of a connection may do: write to and
    terminate its own connection, call the engine, arm the timer. *)
Definition connectionEffect (socket : nat) (e : effect) : Prop :=
  match e with
  | SocketWrite s _ => s = socket
  | SocketTerminate s _ => s = socket
  | Engine _ => True
  | SetTimeout ms => ms = 100
  | _ => False
  end.


Definition isSocketWrite (e : effect) : bool :=
  match e with SocketWrite _ _ => true | _ => false end.

Definition isTimer (e : effect) : bool :=
  match e with SetTimeout _ => true | _ => false end.

(** How often the shutdown timer is armed in a trace. *)
Definition timers (l : list effect) : nat := length (List.filter isTimer l).

Definition isLaunchCall (e : effect) : bool :=
  match e with Engine (CallLaunch _) => true | _ => false end.

(** The buffer cut at its line feeds: the complete lines, and the
    unterminated text after the last line feed. *)
Definition pieces (buffer : jsstring) : list jsstring :=
  splitOn (fun c => c =? 10) [] buffer.

Definition completeLines (buffer : jsstring) : list jsstring :=
  List.removelast (pieces buffer).

Definition partialLine (buffer : jsstring) : jsstring :=
  List.last (pieces buffer) [].

Definition isBlank (line : jsstring) : bool := negb (nonEmpty (trim line)).

(** The [try]/[catch] of the read loop around one line. *)
Definition lineBlock (socket : nat) (line : jsstring) : M (Process * SocketData) lineResult :=
  tryCatch (dispatchLine socket line)
    (fun message =>
       writeResponse socket (errorResponse (lit "error") message) >>
       ret NextLine).


(** The condition of the implicit launch in the read loop. *)
Definition needsLaunch (p : Process) (cmd : Command) : bool :=
  negb (isLaunched (theBrowser p)) &&
  negb (code_units_eqb (action cmd) (lit "launch")) &&
  negb (code_units_eqb (action cmd) (lit "close")).

(** How many responses a trace writes. *)
Definition responses (l : list effect) : nat :=
  length (List.filter isSocketWrite l).

(** The hash of [getPortForSession] before wrapping: the polynomial in
    31 over the code units. *)
Definition polyHash (session : jsstring) : Z :=
  fold_left (fun hash c => 31 * hash + c) session 0.

(** Connects minus disconnects. *)
Definition viewerDelta (e : viewerEvent) : Z :=
  match e with Connect _ => 1 | Disconnect _ => -1 | Settled _ => 0 end.

Definition netViewers (evs : list viewerEvent) : Z :=
  fold_right (fun e n => viewerDelta e + n) 0 evs.

(** No viewer of the sequence connects to a server without viewers. *)
Fixpoint noFirstViewer (count : Z) (evs : list viewerEvent) : bool :=
  match evs with
  | [] => true
  | Connect _ :: evs' => negb (count =? 0) && noFirstViewer (count + 1) evs'
  | Disconnect _ :: evs' => noFirstViewer (count - 1) evs'
  | Settled _ :: evs' => noFirstViewer count evs'
  end.

End Vocabulary.

(** ** Vocabulary of the start-up *)

Section StartupVocabulary.
Context {HO : Host} {BM : BrowserManager} {PR : Protocol} {AC : Actions BM PR}
        {RT : Runtime BM}.

(** The events [startDaemon] registers a listener for, in order. *)
Definition allTriggers : list trigger :=
  [SIGINT; SIGTERM; SIGHUP; uncaughtException; unhandledRejection; beforeExit].

(** The stream port [startDaemon] uses, when it is positive. *)
Definition streamingPort (options : option Z) : option Z :=
  match streamPortOf options with
  | Some n => if 0 <? n then Some n else None
  | None => None
  end.

(** The regular files of a daemon that started: the stream-port file
    when it streams, the PID file and, on Windows, the port file, on top
    of what the initial cleanup left. *)
Definition startedFiles (options : option Z) (p : Process) : gmap jsstring jsstring :=
  let withPid :=
    <[getPidFile p None := numberToString pid]>
      (match streamingPort options with
       | Some n => <[getStreamPortFile p None := numberToString n]>
                     (files (cleaned None p))
       | None => files (cleaned None p)
       end) in
  if isWindows
  then <[getPortFile p None
         := numberToString (getPortForSession (currentSession p))]> withPid
  else withPid.

(** The socket files on disk once the daemon listens. *)
Definition startedSockets (p : Process) : gset jsstring :=
  if isWindows then sockets p else sockets p ∪ {[getSocketAddress p None]}.

(** The state in which a successful [startDaemon] leaves the daemon. *)
Definition started (options : option Z) (d : Daemon) : Daemon :=
  mkDaemon
    (mkProcess (currentSession (proc d)) (cleaningUp (proc d))
       (startedFiles options (proc d))
       (match streamingPort options with
        | Some n => Some (mkStreamServer true n false 0)
        | None => streamServer (proc d)
        end)
       newBrowserManager false true (exited (proc d))
       (startedSockets (proc d)) (viewers (proc d)))
    (umask d) (handlers d ++ allTriggers) true.

(** What a successful [startDaemon] does to the outside. *)
Definition startedTrace (options : option Z) : list effect :=
  match streamingPort options with
  | Some n => [StreamListen n; SetScreencastFrameCallback true]
  | None => []
  end.

(** The process state once [startDaemon] has removed stale markers and
    created its engine object. *)
Definition prepared (p : Process) : Process :=
  set_shuttingDown false (set_theBrowser newBrowserManager (cleaned None p)).

End StartupVocabulary.

(* ================================================================= *)
(** * A small concrete host, engine and codec *)
(* ================================================================= *)

(** Instances of the interfaces on which the model can be run. *)
Module Sample.

Definition host : Host := {|
  isWindows := false;
  env := fun _ => None;
  homedir := lit "/home/u";
  tmpdir := lit "/tmp";
  join := fun a b => a ++ lit "/" ++ b;
  pid := 4242;
  kill0 := fun n => n =? 4242;
  JSON_parse := fun s =>
    if code_units_eqb s (lit "null") then Normal JNull
    else if code_units_eqb s (lit "{}") then Normal (JObject [])
    else Throw (lit "JSON Parse error");
  bunServe := fun _ => Normal tt
|}.

(** An engine whose state is [(launched, capturing)]. *)
Definition engine : BrowserManager := {|
  browser := bool * bool;
  isLaunched := fun b => fst b;
  launch := fun _ b => (Normal tt, (true, snd b));
  close := fun _ => (Normal tt, (false, false));
  viewportSize := fun b =>
    if fst b then Normal (Some (1280, 720)) else Throw (lit "no page");
  browserStartScreencast := fun b => (Normal tt, (fst b, true));
  browserStopScreencast := fun b => (Normal tt, (fst b, false));
  injectMouseEvent := fun _ b => (Normal tt, b);
  injectKeyboardEvent := fun _ b => (Normal tt, b);
  injectTouchEvent := fun _ b => (Normal tt, b)
|}.

(** A codec whose commands are bare action names; a line that starts
    with [!] does not parse. *)
Definition codec : Protocol := {|
  Command := jsstring;
  Response := jsstring;
  action := fun c => c;
  parseCommand := fun line =>
    Normal (if startsWith (lit "!") line
            then ParseFail None (lit "bad")
            else ParseOk (trim line));
  errorResponse := fun id message => lit "ERR " ++ id ++ lit " " ++ message;
  serializeResponse := fun r => r
|}.

Definition actions : Actions engine codec :=
  Build_Actions engine codec
    (fun (c : jsstring) (b : bool * bool) => (Normal (lit "ok " ++ c), b)).

Definition freshStream : StreamServer := mkStreamServer true 9223 false 0.

Definition process (launched : bool) (fs : gmap jsstring jsstring)
  : @Process engine :=
  @mkProcess engine (lit "default") ∅ fs None (launched, false) false true None
    ∅ [].

Definition pidPath : jsstring := lit "/home/u/.agent-browser/default.pid".
Definition streamPath : jsstring := lit "/home/u/.agent-browser/default.stream".
Definition sockPath : jsstring := lit "/home/u/.agent-browser/default.sock".
Definition notePath : jsstring := lit "/home/u/.agent-browser/notes.txt".

(** The marker files of a daemon with process id [n], and a bystander. *)
Definition markers (n : string) : gmap jsstring jsstring :=
  <[pidPath := lit n]>
    (<[streamPath := lit "9223"]> (<[notePath := lit "keep"]> ∅)).


(** A client process that looks for the daemon of the session after
    that daemon, process id 99, was killed: on disk are the daemon's
    marker files, its socket file and a bystander. *)
Definition killed : @Process engine :=
  @mkProcess engine (lit "default") ∅ (markers "99")
    None (false, false) false false None {[sockPath]} [].

(** Actions that fail on the command [boom]. *)
Definition flakyActions : Actions engine codec :=
  Build_Actions engine codec
    (fun (c : jsstring) (b : bool * bool) =>
       if code_units_eqb c (lit "boom") then (Throw (lit "exploded"), b)
       else (Normal (lit "ok " ++ c), b)).

(** A runtime in which the directory, the files and the transport are
    all available. *)
Definition runtime : Runtime engine :=
  Build_Runtime engine
    (fun _ => Normal tt) (fun _ _ => Normal tt) (fun _ => Normal tt)
    ((false, false) : bool * bool) true.


(** A process about to start as daemon, next to the stale markers of a
    daemon that is gone; its file mode mask is 0o022. *)
Definition daemon : @Daemon engine :=
  @mkDaemon engine (process false (markers "99")) 18 [] false.


End Sample.

(* ================================================================= *)
(** * Reasoning about handlers *)
(* ================================================================= *)

Section Rules.
Context {St : Type}.

Lemma traceAll_ret {A} P (a : A) : traceAll P (@ret St A a).
Proof. intros s. constructor. Qed.

Lemma traceAll_throw {A} P e : traceAll P (@throw St A e).
Proof. intros s. constructor. Qed.

Lemma traceAll_gets {A} P (f : St -> A) : traceAll P (gets f).
Proof. intros s. constructor. Qed.

Lemma traceAll_modify P (f : St -> St) : traceAll P (modify f).
Proof. intros s. constructor. Qed.

Lemma traceAll_liftC {A} P (c : completion A) : traceAll P (@liftC St A c).
Proof. intros s. constructor. Qed.

Lemma traceAll_emit (P : effect -> Prop) e : P e -> traceAll P (@emit St e).
Proof. intros H s. unfold trace, emit; simpl. auto. Qed.

Lemma traceAll_bind {A B} P (m : M St A) (k : A -> M St B) :
  traceAll P m -> (forall a, traceAll P (k a)) -> traceAll P (bind m k).
Proof.
  intros Hm Hk s. specialize (Hm s). unfold trace, bind in *.
  destruct (m s) as [[[a|e] s1] l1]; simpl in *; [|assumption].
  specialize (Hk a s1). unfold trace in Hk.
  destruct (k a s1) as [[r s2] l2]; simpl in *.
  apply Forall_app; auto.
Qed.

Lemma traceAll_tryCatch {A} P (m : M St A) h :
  traceAll P m -> (forall e, traceAll P (h e)) -> traceAll P (tryCatch m h).
Proof.
  intros Hm Hh s. specialize (Hm s). unfold trace, tryCatch in *.
  destruct (m s) as [[[a|e] s1] l1]; simpl in *; [assumption|].
  specialize (Hh e s1). unfold trace in Hh.
  destruct (h e s1) as [[r s2] l2]; simpl in *.
  apply Forall_app; auto.
Qed.

Lemma traceAll_tryFinally {A} P (m : M St A) f :
  traceAll P m -> traceAll P f -> traceAll P (tryFinally m f).
Proof.
  intros Hm Hf s. specialize (Hm s). unfold trace, tryFinally in *.
  destruct (m s) as [[r s1] l1]; simpl in *.
  specialize (Hf s1). unfold trace in Hf.
  destruct (f s1) as [[r2 s2] l2]; simpl in *.
  apply Forall_app; auto.
Qed.

Lemma traceAll_when P b (m : M St unit) : traceAll P m -> traceAll P (when b m).
Proof. destruct b; simpl; auto using traceAll_ret. Qed.

Lemma keeps_ret {A T} (f : St -> T) (a : A) : keeps f (@ret St A a).
Proof. intros s. reflexivity. Qed.

Lemma keeps_throw {A T} (f : St -> T) e : keeps f (@throw St A e).
Proof. intros s. reflexivity. Qed.

Lemma keeps_gets {A T} (f : St -> T) (g : St -> A) : keeps f (gets g).
Proof. intros s. reflexivity. Qed.

Lemma keeps_emit {T} (f : St -> T) e : keeps f (@emit St e).
Proof. intros s. reflexivity. Qed.

Lemma keeps_liftC {A T} (f : St -> T) (c : completion A) : keeps f (@liftC St A c).
Proof. intros s. reflexivity. Qed.

Lemma keeps_modify {T} (f : St -> T) (g : St -> St) :
  (forall s, f (g s) = f s) -> keeps f (modify g).
Proof. intros H s. apply H. Qed.

Lemma keeps_bind {A B T} (f : St -> T) (m : M St A) (k : A -> M St B) :
  keeps f m -> (forall a, keeps f (k a)) -> keeps f (bind m k).
Proof.
  intros Hm Hk s. specialize (Hm s). unfold final, bind in *.
  destruct (m s) as [[[a|e] s1] l1]; simpl in *; [|assumption].
  specialize (Hk a s1). unfold final in Hk.
  destruct (k a s1) as [[r s2] l2]; simpl in *. congruence.
Qed.

Lemma keeps_tryCatch {A T} (f : St -> T) (m : M St A) h :
  keeps f m -> (forall e, keeps f (h e)) -> keeps f (tryCatch m h).
Proof.
  intros Hm Hh s. specialize (Hm s). unfold final, tryCatch in *.
  destruct (m s) as [[[a|e] s1] l1]; simpl in *; [assumption|].
  specialize (Hh e s1). unfold final in Hh.
  destruct (h e s1) as [[r s2] l2]; simpl in *. congruence.
Qed.

Lemma keeps_when {T} (f : St -> T) b (m : M St unit) :
  keeps f m -> keeps f (when b m).
Proof. destruct b; simpl; auto using keeps_ret. Qed.

(** A bind whose first part is known. *)
Lemma bind_Normal {A B} (m : M St A) (k : A -> M St B) s a s1 l1 :
  m s = (Normal a, s1, l1) ->
  bind m k s = (result (k a) s1, final (k a) s1, l1 ++ trace (k a) s1).
Proof.
  intros E. unfold bind, result, final, trace. rewrite E.
  destruct (k a s1) as [[r s2] l2]. reflexivity.
Qed.

Lemma run_eta {A} (m : M St A) s : m s = (result m s, final m s, trace m s).
Proof. unfold result, final, trace. destruct (m s) as [[r s1] l]. reflexivity. Qed.

End Rules.

(* ================================================================= *)
(** * Properties *)
(* ================================================================= *)

Section Properties.
Context {HO : Host} {BM : BrowserManager} {PR : Protocol} {AC : Actions BM PR}.

Abbreviation StreamState := (StreamServer * browser)%type.
Abbreviation Conn := (Process * SocketData)%type.

(** ** Transport addressing *)

Lemma ToInt32_range x : - 2 ^ 31 <= ToInt32 x < 2 ^ 31.
Proof.
  unfold ToInt32.
  pose proof (Z.mod_pos_bound (x + 2 ^ 31) (2 ^ 32) ltac:(lia)). lia.
Qed.

Lemma hash_fold_int32 session h :
  - 2 ^ 31 <= h < 2 ^ 31 ->
  - 2 ^ 31 <= fold_left (fun hash c => ToInt32 (shl hash 5 - hash + c)) session h
    < 2 ^ 31.
Proof.
  revert h. induction session as [|c s IH]; intros h Hh; simpl.
  - exact Hh.
  - apply IH. apply ToInt32_range.
Qed.

(** The hash is a signed 32-bit integer. *)
Lemma sessionHash_int32 session : - 2 ^ 31 <= sessionHash session < 2 ^ 31.
Proof. apply hash_fold_int32. lia. Qed.

(** C7. The port derived from a session name is 49152 plus the
    absolute value of the name's 32-bit hash modulo 16383; it depends
    on the name only (equal names give equal ports) and lies in
    [49152, 49152 + 16383). *)
Theorem getPortForSession_spec (s1 s2 : jsstring) :
  s1 = s2 ->
  getPortForSession s1 = getPortForSession s2 /\
  getPortForSession s1 = 49152 + Z.abs (sessionHash s1) mod 16383 /\
  49152 <= getPortForSession s1 < 49152 + 16383.
Proof.
  intros ->. unfold getPortForSession; simpl.
  rewrite Z.rem_mod_nonneg by lia.
  pose proof (Z.mod_pos_bound (Z.abs (sessionHash s2)) 16383 ltac:(lia)).
  repeat split; lia.
Qed.

Lemma getPortForSession_spec_witness :
  getPortForSession (lit "default") = getPortForSession (lit "default") /\
  getPortForSession (lit "default")
    = 49152 + Z.abs (sessionHash (lit "default")) mod 16383 /\
  49152 <= getPortForSession (lit "default") < 49152 + 16383.
Proof. apply (getPortForSession_spec (lit "default") (lit "default")). reflexivity. Defined.

(** ** Origin filter of the stream server *)

(** C5. A request that declares a non-empty origin not starting with
    [file://] is answered with 403 and is never upgraded; a request
    with no origin, an empty origin or a [file://] origin passes the
    filter: the upgrade is attempted and its outcome alone decides the
    answer. *)
Theorem fetch_origin_filter (req : Request) :
  (forall o, origin req = Some o -> o <> [] ->
             startsWith (lit "file://") o = false ->
             fetch req = HttpResponse 403 (lit "Forbidden")) /\
  ((origin req = None \/ origin req = Some [] \/
    exists o, origin req = Some o /\ startsWith (lit "file://") o = true) ->
   fetch req = if upgradable req then Upgraded
               else HttpResponse 400 (lit "Upgrade failed")).
Proof.
  unfold fetch. split.
  - intros o -> Hne Hsw. destruct o as [|c o]; [congruence|].
    rewrite Hsw. reflexivity.
  - intros [-> | [-> | (o & -> & Hsw)]]; try reflexivity.
    destruct o as [|c o]; [reflexivity|]. rewrite Hsw. reflexivity.
Qed.

Lemma fetch_origin_filter_witness :
  fetch (mkRequest (Some (lit "https://evil.example")) true)
    = HttpResponse 403 (lit "Forbidden") /\
  fetch (mkRequest None true) = Upgraded /\
  fetch (mkRequest (Some (lit "file://")) true) = Upgraded.
Proof.
  split; [|split].
  - apply (proj1 (fetch_origin_filter
                    (mkRequest (Some (lit "https://evil.example")) true))
             (lit "https://evil.example")); [reflexivity|discriminate|reflexivity].
  - apply (proj2 (fetch_origin_filter (mkRequest None true))).
    left; reflexivity.
  - apply (proj2 (fetch_origin_filter (mkRequest (Some (lit "file://")) true))).
    right; right. exists (lit "file://"). split; reflexivity.
Defined.

(** ** The data handler of a command connection *)

Lemma traceAll_callEngine {A} (P : effect -> Prop) c
  (f : browser -> completion A * browser) :
  P (Engine c) -> traceAll P (callEngine c f).
Proof.
  intros H [p d]. unfold trace, callEngine.
  destruct (f (theBrowser p)) as [r b']. simpl. auto.
Qed.

Lemma keeps_callEngine {A} c (f : browser -> completion A * browser) :
  keeps snd (callEngine c f).
Proof.
  intros [p d]. unfold final, callEngine.
  destruct (f (theBrowser p)) as [r b']. reflexivity.
Qed.

Ltac trace_step :=
  match goal with
  | |- traceAll _ (bind _ _) => apply traceAll_bind; [|intros ?]
  | |- traceAll _ (tryCatch _ _) => apply traceAll_tryCatch; [|intros ?]
  | |- traceAll _ (when _ _) => apply traceAll_when
  | |- traceAll _ (emit _) => apply traceAll_emit; auto
  | |- traceAll _ (ret _) => apply traceAll_ret
  | |- traceAll _ (throw _) => apply traceAll_throw
  | |- traceAll _ (gets _) => apply traceAll_gets
  | |- traceAll _ (modify _) => apply traceAll_modify
  | |- traceAll _ (liftC _) => apply traceAll_liftC
  | |- traceAll _ (callEngine _ _) => apply traceAll_callEngine; auto
  | |- traceAll _ (match ?x with _ => _ end) => destruct x
  end.

Ltac keeps_step :=
  match goal with
  | |- keeps _ (bind _ _) => apply keeps_bind; [|intros ?]
  | |- keeps _ (tryCatch _ _) => apply keeps_tryCatch; [|intros ?]
  | |- keeps _ (when _ _) => apply keeps_when
  | |- keeps _ (emit _) => apply keeps_emit
  | |- keeps _ (ret _) => apply keeps_ret
  | |- keeps _ (throw _) => apply keeps_throw
  | |- keeps _ (gets _) => apply keeps_gets
  | |- keeps _ (liftC _) => apply keeps_liftC
  | |- keeps snd (callEngine _ _) => apply keeps_callEngine
  | |- keeps _ (modify _) => apply keeps_modify; intros [? ?]; reflexivity
  | |- keeps _ (match ?x with _ => _ end) => destruct x
  end.


Lemma dispatchLine_trace socket line :
  traceAll (loopEffect socket) (dispatchLine socket line).
Proof.
  unfold dispatchLine, writeResponse. repeat trace_step; simpl; auto.
Qed.

Lemma processLines_trace socket fuel buffer :
  traceAll (loopEffect socket) (processLines socket fuel buffer).
Proof.
  revert buffer. induction fuel as [|fuel IH]; intros buffer; simpl.
  - apply traceAll_ret.
  - destruct (cutLine buffer) as [[line rest]|]; [|apply traceAll_ret].
    destruct (negb (nonEmpty (trim line))); [apply IH|].
    apply traceAll_bind.
    + apply traceAll_tryCatch; [apply dispatchLine_trace|].
      intros e. unfold writeResponse. repeat trace_step; simpl; auto.
    + intros [|]; [apply IH|apply traceAll_ret].
Qed.

Lemma readLines_trace socket buffer :
  traceAll (loopEffect socket) (readLines socket buffer).
Proof.
  unfold readLines. apply traceAll_bind; [apply processLines_trace|].
  intros r. repeat trace_step.
Qed.

(** The read loop leaves the connection's data alone. *)
Lemma dispatchLine_keeps socket line : keeps snd (dispatchLine socket line).
Proof. unfold dispatchLine, writeResponse. repeat keeps_step. Qed.

Lemma processLines_keeps socket fuel buffer :
  keeps snd (processLines socket fuel buffer).
Proof.
  revert buffer. induction fuel as [|fuel IH]; intros buffer; simpl.
  - apply keeps_ret.
  - destruct (cutLine buffer) as [[line rest]|]; [|apply keeps_ret].
    destruct (negb (nonEmpty (trim line))); [apply IH|].
    apply keeps_bind.
    + apply keeps_tryCatch; [apply dispatchLine_keeps|].
      intros e. unfold writeResponse. repeat keeps_step.
    + intros [|]; [apply IH|apply keeps_ret].
Qed.

Lemma readLines_keeps_httpChecked socket buffer :
  keeps (fun st : Conn => httpChecked (snd st)) (readLines socket buffer).
Proof.
  unfold readLines. apply keeps_bind.
  - intros s. unfold final. pose proof (processLines_keeps socket (S (length buffer)) buffer s) as H.
    unfold final in H. rewrite H. reflexivity.
  - intros r. repeat keeps_step.
Qed.

(** The size the guard computes is the length of the joined buffer. *)
Lemma bufferedSize_from (cs : list jsstring) n :
  fold_left (fun sum (c : jsstring) => sum + Z.of_nat (length c)) cs n
  = n + Z.of_nat (length (concat cs)).
Proof.
  revert n. induction cs as [|c cs IH]; intros n; simpl.
  - lia.
  - rewrite IH, length_app. lia.
Qed.

Lemma bufferedSize_concat cs : bufferedSize cs = Z.of_nat (length (concat cs)).
Proof. unfold bufferedSize. rewrite bufferedSize_from. lia. Qed.

(** The start of [data], up to the read loop. *)
Lemma data_unfold socket chunk (p : Process) (d : SocketData) :
  data socket chunk (p, d) =
  if bufferedSize (chunks d) + Z.of_nat (length chunk) >? MAX_BUFFER_SIZE
  then (Normal tt, (p, d), [SocketTerminate socket BufferOverflow])
  else
    let buffer := concat (chunks d ++ [chunk]) in
    let d' := mkSocketData (chunks d ++ [chunk]) true in
    if negb (httpChecked d) && isHttpRequestLine (trimStart buffer)
    then (Normal tt, (p, d'), [SocketTerminate socket HttpRequest])
    else readLines socket buffer (p, d').
Proof.
  unfold data, bind, gets, modify, emit, ret; simpl.
  destruct (_ >? _); [reflexivity|].
  destruct d as [cs [|]]; simpl.
  - destruct (readLines _ _ _) as [[r s] l]. reflexivity.
  - destruct (isHttpRequestLine _); [reflexivity|].
    destruct (readLines _ _ _) as [[r s] l]. reflexivity.
Qed.

(** C3. A connection whose first chunk, after trimming leading white
    space, matches the HTTP request-line pattern is terminated, nothing
    is written to it and no command is dispatched: the run consists of
    the one [terminate] call (by the size guard when the chunk is also
    larger than the buffer bound, by the HTTP check otherwise). *)
Theorem http_request_terminated socket chunk (p : Process) :
  isHttpRequestLine (trimStart chunk) = true ->
  data socket chunk (p, open) =
  if Z.of_nat (length chunk) >? MAX_BUFFER_SIZE
  then (Normal tt, (p, open), [SocketTerminate socket BufferOverflow])
  else (Normal tt, (p, mkSocketData [chunk] true),
        [SocketTerminate socket HttpRequest]).
Proof.
  intros H. rewrite data_unfold. simpl.
  destruct (_ >? _); [reflexivity|].
  rewrite app_nil_r, H. reflexivity.
Qed.


Lemma loopEffect_not_terminate socket s why :
  ~ loopEffect socket (SocketTerminate s why).
Proof. simpl. tauto. Qed.

(** C4 (as the code has it). The guard of the data handler adds the
    lengths, in UTF-16 code units, of the strings held in [chunks] and
    of the incoming chunk, and compares the sum with [MAX_BUFFER_SIZE]
    (4 * 1024 * 1024). Above the bound the connection is terminated and
    nothing else happens; at or below the bound no termination by this
    guard occurs. The sum is the length of the text the loop would work
    on; it is neither a number of bytes nor restricted to text that has
    not been processed. *)
Theorem buffer_guard socket chunk (st : Conn) :
  let total := bufferedSize (chunks (snd st)) + Z.of_nat (length chunk) in
  MAX_BUFFER_SIZE = 4 * 1024 * 1024 /\
  total = Z.of_nat (length (concat (chunks (snd st) ++ [chunk]))) /\
  (total > MAX_BUFFER_SIZE ->
   data socket chunk st = (Normal tt, st, [SocketTerminate socket BufferOverflow])) /\
  (total <= MAX_BUFFER_SIZE ->
   forall s, ~ In (SocketTerminate s BufferOverflow) (trace (data socket chunk) st)).
Proof.
  destruct st as [p d]; simpl. split; [reflexivity|]. split; [|split].
  - rewrite bufferedSize_concat, concat_app, length_app. simpl.
    rewrite app_nil_r. lia.
  - intros H. rewrite data_unfold.
    destruct (Z.gtb_spec (bufferedSize (chunks d) + Z.of_nat (length chunk))
                MAX_BUFFER_SIZE); [reflexivity|unfold MAX_BUFFER_SIZE in *; lia].
  - intros H s Hin. unfold trace in Hin. rewrite data_unfold in Hin.
    destruct (Z.gtb_spec (bufferedSize (chunks d) + Z.of_nat (length chunk))
                MAX_BUFFER_SIZE); [unfold MAX_BUFFER_SIZE in *; lia|].
    simpl in Hin. destruct (_ && _).
    + simpl in Hin. destruct Hin as [Hin|[]]. discriminate.
    + pose proof (readLines_trace socket (concat (chunks d ++ [chunk]))
                    (p, mkSocketData (chunks d ++ [chunk]) true)) as Hall.
      rewrite List.Forall_forall in Hall.
      exact (loopEffect_not_terminate _ _ _ (Hall _ Hin)).
Qed.

(** Once set, [httpChecked] stays set; and every data event that passes
    the size guard sets it. *)
Lemma data_httpChecked socket chunk (st : Conn) :
  httpChecked (snd st) = true \/
  bufferedSize (chunks (snd st)) + Z.of_nat (length chunk) <= MAX_BUFFER_SIZE ->
  httpChecked (snd (final (data socket chunk) st)) = true.
Proof.
  destruct st as [p d]; simpl. intros H. unfold final. rewrite data_unfold.
  destruct (Z.gtb_spec (bufferedSize (chunks d) + Z.of_nat (length chunk))
              MAX_BUFFER_SIZE).
  - simpl. destruct H; [assumption|unfold MAX_BUFFER_SIZE in *; lia].
  - simpl. destruct (_ && _); [reflexivity|].
    apply (readLines_keeps_httpChecked socket _ (p, mkSocketData _ true)).
Qed.

Lemma dataEvents_httpChecked socket received (st : Conn) :
  httpChecked (snd st) = true ->
  httpChecked (snd (final (dataEvents socket received) st)) = true.
Proof.
  revert st. induction received as [|chunk later IH]; intros st H; simpl.
  - exact H.
  - pose proof (data_httpChecked socket chunk st (or_introl H)) as H1.
    unfold final, bind in *.
    destruct (data socket chunk st) as [[[[]|e] s1] l1]; simpl in *; [|exact H1].
    specialize (IH s1 H1).
    destruct (dataEvents socket later s1) as [[r s2] l2]. exact IH.
Qed.

(** C10. The HTTP check runs on the first data event only. When the
    first chunk passed the size guard and did not match the pattern,
    the flag [httpChecked] is set from then on, so a later chunk,
    whatever it starts with, is never terminated by the HTTP check: if it
    passes the size guard it is appended to the buffer and handed to the
    line loop. *)
Theorem http_check_first_chunk_only socket (p : Process) chunk1 later chunk2 :
  isHttpRequestLine (trimStart chunk1) = false ->
  Z.of_nat (length chunk1) <= MAX_BUFFER_SIZE ->
  let st := final (dataEvents socket (chunk1 :: later)) (p, open) in
  httpChecked (snd st) = true /\
  (forall s, ~ In (SocketTerminate s HttpRequest) (trace (data socket chunk2) st)) /\
  (bufferedSize (chunks (snd st)) + Z.of_nat (length chunk2) <= MAX_BUFFER_SIZE ->
   data socket chunk2 st =
   readLines socket (concat (chunks (snd st) ++ [chunk2]))
     (fst st, mkSocketData (chunks (snd st) ++ [chunk2]) true)).
Proof.
  intros Hno Hfit st.
  assert (Hst : httpChecked (snd st) = true).
  { subst st. simpl.
    assert (Hsz : bufferedSize (chunks (snd (p, open)))
                  + Z.of_nat (length chunk1) <= MAX_BUFFER_SIZE)
      by (unfold open, bufferedSize, MAX_BUFFER_SIZE in *; simpl; lia).
    pose proof (data_httpChecked socket chunk1 (p, open) (or_intror Hsz)) as H1.
    unfold final, bind in *.
    destruct (data socket chunk1 (p, open)) as [[[[]|e] s1] l1]; simpl in *;
      [|exact H1].
    pose proof (dataEvents_httpChecked socket later s1 H1) as H2.
    unfold final in H2.
    destruct (dataEvents socket later s1) as [[r s2] l2]. exact H2. }
  clearbody st. destruct st as [q d]; simpl in *.
  split; [exact Hst|]. split.
  - intros s Hin. unfold trace in Hin. rewrite data_unfold in Hin.
    rewrite Hst in Hin. simpl in Hin.
    destruct (_ >? _).
    + simpl in Hin. destruct Hin as [Hin|[]]. discriminate.
    + pose proof (readLines_trace socket (concat (chunks d ++ [chunk2]))
                    (q, mkSocketData (chunks d ++ [chunk2]) true)) as Hall.
      rewrite List.Forall_forall in Hall.
      exact (loopEffect_not_terminate _ _ _ (Hall _ Hin)).
  - intros Hsz. rewrite data_unfold. rewrite Hst. simpl.
    destruct (Z.gtb_spec (bufferedSize (chunks d) + Z.of_nat (length chunk2))
                MAX_BUFFER_SIZE); [unfold MAX_BUFFER_SIZE in *; lia|reflexivity].
Qed.


(** ** The read loop *)

Lemma cutLine_shorter s line rest :
  cutLine s = Some (line, rest) -> (length rest < length s)%nat.
Proof.
  revert line rest. induction s as [|c s IH]; intros line rest; simpl.
  - discriminate.
  - destruct (c =? 10).
    + intros [= <- <-]. lia.
    + destruct (cutLine s) as [[l r]|]; [|discriminate].
      intros [= <- <-]. specialize (IH l r eq_refl). lia.
Qed.

Lemma cutLine_app s more line rest :
  cutLine s = Some (line, rest) ->
  cutLine (s ++ more) = Some (line, rest ++ more).
Proof.
  revert line rest. induction s as [|c s IH]; intros line rest; simpl.
  - discriminate.
  - destruct (c =? 10).
    + intros [= <- <-]. reflexivity.
    + destruct (cutLine s) as [[l r]|]; [|discriminate].
      intros [= <- <-]. rewrite (IH l r eq_refl). reflexivity.
Qed.

Lemma cutLine_first line rest :
  ~ In 10 line -> cutLine (line ++ 10 :: rest) = Some (line, rest).
Proof.
  induction line as [|c line IH]; intros Hno; simpl.
  - reflexivity.
  - destruct (Z.eqb_spec c 10) as [->|_].
    + exfalso. apply Hno. left. reflexivity.
    + rewrite IH; [reflexivity|]. intros H. apply Hno. right. exact H.
Qed.

Lemma cutLine_none s : ~ In 10 s -> cutLine s = None.
Proof.
  induction s as [|c s IH]; intros Hno; simpl; [reflexivity|].
  destruct (Z.eqb_spec c 10) as [->|_].
  - exfalso. apply Hno. left. reflexivity.
  - rewrite IH; [reflexivity|]. intros H. apply Hno. right. exact H.
Qed.

Lemma utf8Length_repeat c n :
  utf8Length (repeat c n) = utf8Length [c] * Z.of_nat n.
Proof.
  induction n as [|n IH].
  - cbn [repeat utf8Length fold_right]. lia.
  - rewrite Nat2Z.inj_succ. cbn [repeat]. unfold utf8Length in *.
    cbn [fold_right] in *. rewrite IH. lia.
Qed.

Lemma bind_ext {St A B} (m : M St A) (k1 k2 : A -> M St B) s :
  (forall a s', k1 a s' = k2 a s') -> bind m k1 s = bind m k2 s.
Proof.
  intros H. unfold bind. destruct (m s) as [[[a|e] s1] l1]; [|reflexivity].
  rewrite H. reflexivity.
Qed.

(** The loop terminates: with more fuel than the buffer has code units
    the outcome does not depend on the fuel, and fuel never runs out. *)
Lemma processLines_fuel socket fuel1 fuel2 buffer (st : Conn) :
  (length buffer < fuel1)%nat -> (length buffer < fuel2)%nat ->
  processLines socket fuel1 buffer st = processLines socket fuel2 buffer st /\
  result (processLines socket fuel1 buffer) st <> Normal OutOfFuel.
Proof.
  revert fuel2 buffer st.
  induction fuel1 as [|fuel1 IH]; intros fuel2 buffer st H1 H2; [lia|].
  destruct fuel2 as [|fuel2]; [lia|]. simpl.
  destruct (cutLine buffer) as [[line rest]|] eqn:Hcut.
  - apply cutLine_shorter in Hcut.
    assert (Hr1 : (length rest < fuel1)%nat) by lia.
    assert (Hr2 : (length rest < fuel2)%nat) by lia.
    destruct (negb (nonEmpty (trim line))).
    + apply IH; assumption.
    + split.
      * apply bind_ext. intros [|] s'; [|reflexivity].
        apply IH; assumption.
      * unfold result, bind.
        destruct (tryCatch _ _ st) as [[[[|]|e] s1] l1]; simpl.
        -- pose proof (proj2 (IH fuel2 rest s1 Hr1 Hr2)) as Hne.
           unfold result in Hne.
           destruct (processLines socket fuel1 rest s1) as [[r s2] l2].
           exact Hne.
        -- discriminate.
        -- discriminate.
  - split; [reflexivity|]. unfold result; simpl. discriminate.
Qed.



(** A [close] command that executes normally: no auto-launch, the
    command is executed, its response written, the shutdown timer armed
    unless a shutdown is already under way, and the handler returns. *)
Lemma dispatchLine_close socket line cmd resp b' (q : Process) (d : SocketData) :
  parseCommand line = Normal (ParseOk cmd) ->
  code_units_eqb (action cmd) (lit "close") = true ->
  executeCommand cmd (theBrowser q) = (Normal resp, b') ->
  dispatchLine socket line (q, d) =
  (Normal ReturnFromHandler,
   (set_shuttingDown true (set_theBrowser b' q), d),
   [Engine (CallExecuteCommand (action cmd));
    SocketWrite socket (serializeResponse resp ++ [10])]
   ++ (if shuttingDown q then [] else [SetTimeout 100])).
Proof.
  intros Hparse Hclose Hexec.
  unfold dispatchLine, bind, liftC, gets, when, callEngine, writeResponse,
    emit, modify, ret.
  rewrite Hparse. cbn [fst snd]. rewrite Hclose.
  cbn [negb]. rewrite andb_false_r. cbn [app].
  rewrite Hexec. destruct q as [cs cu fs ss b [|] li ex so vw]; reflexivity.
Qed.



(** ** Session registry *)



Lemma deleteIfExists_run path (p : Process) :
  deleteIfExists path p = (Normal tt, set_files (delete path) p, []).
Proof.
  unfold deleteIfExists, bind, gets, when, modify, ret. cbn [fst snd].
  destruct (bool_decide (is_Some (files p !! path))) eqn:E.
  - reflexivity.
  - apply bool_decide_eq_false in E.
    assert (Hnone : files p !! path = None).
    { destruct (files p !! path) eqn:E'; [|reflexivity].
      exfalso. apply E. eexists; reflexivity. }
    destruct p; unfold set_files; simpl in *.
    rewrite (delete_id _ _ Hnone). reflexivity.
Qed.

(** A cleanup that finds none in flight for the session deletes the
    regular files at the three marker paths and changes nothing else. *)
Lemma cleanupSocket_run session (p : Process) :
  sessionOr p session ∉ cleaningUp p ->
  cleanupSocket session p = (Normal tt, cleaned session p, []).
Proof.
  intros Hfree. unfold cleanupSocket, bind, gets. cbn [fst snd].
  rewrite bool_decide_eq_false_2 by exact Hfree.
  unfold modify, tryFinally, tryCatch, bind, gets. cbn [fst snd].
  rewrite !deleteIfExists_run.
  assert (Hset : (cleaningUp p ∪ {[sessionOr p session]}) ∖ {[sessionOr p session]}
                 = cleaningUp p).
  { apply set_eq. intros x.
    rewrite elem_of_difference, elem_of_union, elem_of_singleton.
    split; [intros [[H|H] Hne]; [exact H|contradiction]|].
    intros H. split; [left; exact H|]. intros ->. exact (Hfree H). }
  destruct isWindows eqn:Hw; unfold bind, gets; cbn [fst snd];
    rewrite deleteIfExists_run; unfold cleaned; rewrite Hw;
    destruct p; unfold set_files, set_cleaningUp in *; simpl in *;
    rewrite Hset; reflexivity.
Qed.

(** A cleanup that finds one in flight returns at once. *)
Lemma cleanupSocket_busy session (p : Process) :
  sessionOr p session ∈ cleaningUp p ->
  cleanupSocket session p = (Normal tt, p, []).
Proof.
  intros Hbusy. unfold cleanupSocket, bind, gets. cbn [fst snd].
  rewrite bool_decide_eq_true_2 by exact Hbusy. reflexivity.
Qed.

Lemma cleaned_markers session (p : Process) f :
  In f (markerFiles p session) -> files (cleaned session p) !! f = None.
Proof.
  unfold markerFiles, cleaned. destruct p; simpl.
  intros [<-|[<-|[<-|[]]]].
  - rewrite lookup_delete_None. right. rewrite lookup_delete_None. right.
    apply lookup_delete_eq.
  - rewrite lookup_delete_None. right. apply lookup_delete_eq.
  - apply lookup_delete_eq.
Qed.

Lemma cleaned_others session (p : Process) f :
  ~ In f (markerFiles p session) -> files (cleaned session p) !! f = files p !! f.
Proof.
  unfold markerFiles, cleaned. destruct p; simpl. intros Hno.
  rewrite !lookup_delete_ne; [reflexivity| |  |]; intros <-; apply Hno; auto.
Qed.


Lemma cleanupSocket_result session (p : Process) :
  result (cleanupSocket session) p = Normal tt.
Proof.
  unfold result.
  destruct (decide (sessionOr p session ∈ cleaningUp p)) as [Hbusy|Hfree].
  - rewrite (cleanupSocket_busy session p Hbusy). reflexivity.
  - rewrite (cleanupSocket_run session p Hfree). reflexivity.
Qed.

(** [isDaemonRunning], case by case: without a PID file it answers
    [false] and touches nothing; with a PID file whose probe fails it
    answers [false] and runs [cleanupSocket], after which no regular
    file is left at the session's marker paths, no other file is touched
    and the socket files are as they were (the files are deleted by this
    call unless a cleanup of the session is already in flight); with a
    PID file whose probe succeeds it answers [true] and touches
    nothing. *)
Lemma isDaemonRunning_cases session (p : Process) :
  let pidFile := getPidFile p session in
  (files p !! pidFile = None ->
   isDaemonRunning session p = (Normal false, p, [])) /\
  (forall text,
     files p !! pidFile = Some text -> probeFails text = true ->
     isDaemonRunning session p
       = (Normal false, final (cleanupSocket session) p,
          trace (cleanupSocket session) p) /\
     (sessionOr p session ∉ cleaningUp p ->
      isDaemonRunning session p = (Normal false, cleaned session p, []) /\
      (forall f, In f (markerFiles p session) ->
                 files (cleaned session p) !! f = None) /\
      (forall f, ~ In f (markerFiles p session) ->
                 files (cleaned session p) !! f = files p !! f) /\
      sockets (cleaned session p) = sockets p)) /\
  (forall text,
     files p !! pidFile = Some text -> probeFails text = false ->
     isDaemonRunning session p = (Normal true, p, [])).
Proof.
  intros pidFile. subst pidFile.
  unfold isDaemonRunning, bind, gets. cbn [fst snd].
  split; [|split].
  - intros ->. reflexivity.
  - intros text -> Hfail. split.
    + unfold probeFails in Hfail. unfold tryCatch, bind, probe, throw, ret.
      pose proof (cleanupSocket_result session p) as Hres.
      unfold result, final, trace in *.
      destruct (parseInt10 (trim text)) as [n|];
        [destruct (kill0 n); [discriminate|]|];
        destruct (cleanupSocket session p) as [[r s1] l1]; cbn in *;
        subst r; rewrite ?app_nil_r; reflexivity.
    + intros Hfree.
      split; [|split; [apply cleaned_markers|split; [apply cleaned_others|]]];
        [|destruct p; reflexivity].
      unfold probeFails in Hfail. unfold tryCatch, bind, probe.
      destruct (parseInt10 (trim text)) as [n|].
      * destruct (kill0 n); [discriminate|].
        unfold throw. rewrite (cleanupSocket_run session p Hfree). reflexivity.
      * unfold throw. rewrite (cleanupSocket_run session p Hfree). reflexivity.
  - intros text -> Hok. unfold probeFails in Hok.
    unfold tryCatch, bind, probe.
    destruct (parseInt10 (trim text)) as [n|]; [|discriminate].
    destruct (kill0 n); [reflexivity|discriminate].
Qed.


(** ** Shutdown *)

Lemma error_listener_run code (p : Process) :
  currentSession p ∉ cleaningUp p ->
  tryFinally (cleanupSocket None) (processExit code) p =
  (Normal tt, set_exited (Some code) (cleaned None p), [ProcessExit code]).
Proof.
  intros Hfree. unfold tryFinally.
  rewrite (cleanupSocket_run None p Hfree).
  reflexivity.
Qed.




(** *** The stream server stops *)

Ltac run_stream :=
  unfold result, final, trace, handleOpen, handleClose, sendStatus,
    startScreencast, stopScreencast, broadcastStatus, statusMessage,
    callBrowser, sendError, when, tryCatch, bind, gets, modify, emit, ret,
    throw, set_clientCount, set_isScreencasting;
  cbn.

Lemma stopScreencast_idle (s : StreamServer) (b : browser) :
  isScreencasting s = false -> stopScreencast (s, b) = (Normal tt, (s, b), []).
Proof. destruct s as [srv pt cast cnt]. cbn. intros ->. reflexivity. Qed.

Lemma stopScreencast_stops (s : StreamServer) (b b' : browser) :
  isScreencasting s = true -> browserStopScreencast b = (Normal tt, b') ->
  stopScreencast (s, b)
  = (Normal tt, (mkStreamServer (server s) (port s) false (clientCount s), b'),
     Engine CallStopScreencast :: published (server s) (statusOf false b')).
Proof.
  destruct s as [srv pt cast cnt]. cbn. intros -> Hs.
  run_stream. rewrite Hs. cbn. unfold published, statusOf.
  destruct srv; cbn; [destruct (viewportSize b')|]; try reflexivity.
  destruct (viewportSize b'); reflexivity.
Qed.

Lemma stopScreencast_fails (s : StreamServer) (b b' : browser) e :
  isScreencasting s = true -> browserStopScreencast b = (Throw e, b') ->
  stopScreencast (s, b) = (Throw e, (s, b'), [Engine CallStopScreencast]).
Proof.
  destruct s as [srv pt cast cnt]. cbn. intros -> Hs.
  run_stream. rewrite Hs. reflexivity.
Qed.

Lemma handleClose_last_idle ws (s : StreamServer) (b : browser) :
  isScreencasting s = false ->
  handleClose ws (s, b) =
  (Normal tt,
   (mkStreamServer (server s) (port s) false (clientCount s - 1), b),
   [WsUnsubscribe ws screencast; WsUnsubscribe ws status]).
Proof.
  destruct s as [srv pt cast cnt]. cbn. intros ->.
  run_stream. rewrite andb_false_r. reflexivity.
Qed.

Lemma closeViewers_run open (s : StreamServer) (b : browser) :
  isScreencasting s = false ->
  closeViewers open (s, b)
  = (Normal tt,
     (mkStreamServer (server s) (port s) false
        (clientCount s - Z.of_nat (length open)), b),
     closings open).
Proof.
  revert s. induction open as [|ws open IH]; intros s Hc.
  - cbn [closeViewers length closings flat_map]. unfold ret.
    destruct s as [srv pt cast cnt]. cbn in Hc. subst cast.
    cbn [server port clientCount]. change (Z.of_nat 0) with 0.
    rewrite Z.sub_0_r. reflexivity.
  - cbn [closeViewers]. unfold bind.
    rewrite (handleClose_last_idle ws s b Hc).
    rewrite IH by reflexivity.
    cbn [server port clientCount length closings flat_map app fst snd].
    rewrite Nat2Z.inj_succ.
    replace (clientCount s - 1 - Z.of_nat (length open))
      with (clientCount s - Z.succ (Z.of_nat (length open))) by lia.
    reflexivity.
Qed.

(** [stop], executed symbolically. *)
Lemma stop_run open (s : StreamServer) (b : browser) :
  stop open (s, b) =
  let tail := SetScreencastFrameCallback false
              :: (if server s then StreamStop :: closings open else []) in
  if isScreencasting s then
    match browserStopScreencast b with
    | (Normal _, b') =>
        (Normal tt, (stoppedServer open s, b'),
         Engine CallStopScreencast
         :: published (server s) (statusOf false b') ++ tail)
    | (Throw e, b') => (Throw e, (s, b'), [Engine CallStopScreencast])
    end
  else (Normal tt, (stoppedServer open s, b), tail).
Proof.
  cbv zeta. unfold stop, stoppedServer.
  unfold bind at 1. unfold gets at 1. cbn [fst snd].
  destruct (isScreencasting s) eqn:Hc; unfold when at 1.
  - unfold bind at 1.
    destruct (browserStopScreencast b) as [[[]|e] b'] eqn:Hs.
    + rewrite (stopScreencast_stops s b b' Hc Hs).
      unfold bind at 1. unfold emit at 1. unfold bind at 1. unfold gets at 1.
      cbn [fst snd server]. destruct (server s) eqn:Hsrv; unfold when.
      * unfold bind at 1. unfold modify at 1. cbn [fst snd set_clientCount].
        unfold bind at 1. unfold emit at 1. unfold bind at 1.
        cbn [server port isScreencasting clientCount].
        rewrite closeViewers_run by reflexivity.
        unfold modify, set_server.
        cbn [fst snd server port isScreencasting clientCount app].
        rewrite Z.sub_0_l, ?app_nil_r. reflexivity.
      * unfold ret. cbn [app]. rewrite ?app_nil_r.
        destruct s as [srv pt cast cnt]. cbn in *. subst. reflexivity.
    + rewrite (stopScreencast_fails s b b' e Hc Hs). reflexivity.
  - unfold bind at 1. unfold ret at 1. unfold bind at 1. unfold emit at 1.
    unfold bind at 1. unfold gets at 1. cbn [fst snd].
    destruct (server s) eqn:Hsrv; unfold when.
    + unfold bind at 1. unfold modify at 1. cbn [fst snd].
      unfold bind at 1. unfold emit at 1. unfold bind at 1.
      destruct s as [srv pt cast cnt]. cbn in Hc, Hsrv. subst.
      cbn [set_clientCount server port isScreencasting clientCount].
      rewrite closeViewers_run by reflexivity.
      unfold modify, set_server.
      cbn [fst snd server port isScreencasting clientCount app].
      rewrite Z.sub_0_l, ?app_nil_r. reflexivity.
    + unfold ret. destruct s as [srv pt cast cnt]. cbn in *. subst. reflexivity.
Qed.







Lemma shutdown_idempotent (p : Process) :
  shuttingDown p = true -> shutdown p = (Normal tt, p, []).
Proof.
  intros H. unfold shutdown, bind, gets. cbn [fst snd]. rewrite H. reflexivity.
Qed.





(** ** Viewers of the stream server *)







Lemma handleOpen_first_started ws (s : StreamServer) (b b' : browser) :
  clientCount s = 0 -> isScreencasting s = false ->
  isLaunched b = true -> browserStartScreencast b = (Normal tt, b') ->
  handleOpen ws (s, b) =
  (Normal tt,
   (mkStreamServer (server s) (port s) true 1, b'),
   [WsSubscribe ws screencast; WsSubscribe ws status]
   ++ sent ws (statusOf false b)
   ++ [Engine CallStartScreencast]
   ++ published (server s) (statusOf true b')).
Proof.
  destruct s as [srv pt cast cnt]. cbn. intros -> -> Hl Hs.
  run_stream. unfold statusOf, sent, published.
  change (0 + 1) with 1.
  destruct (viewportSize b); cbn; rewrite ?Hl; cbn; rewrite ?Hs; cbn;
    destruct srv; cbn; try reflexivity;
    destruct (viewportSize b'); reflexivity.
Qed.

Lemma handleOpen_first_not_launched ws (s : StreamServer) (b : browser) :
  clientCount s = 0 -> isScreencasting s = false -> isLaunched b = false ->
  handleOpen ws (s, b) =
  (Normal tt,
   (mkStreamServer (server s) (port s) false 1, b),
   [WsSubscribe ws screencast; WsSubscribe ws status]
   ++ sent ws (statusOf false b)
   ++ [WsSend ws (ErrorMessage (lit "Browser not launched"))]).
Proof.
  destruct s as [srv pt cast cnt]. cbn. intros -> -> Hl.
  run_stream. unfold statusOf, sent.
  change (0 + 1) with 1.
  destruct (viewportSize b); cbn; rewrite ?Hl; reflexivity.
Qed.

Lemma handleOpen_already_capturing ws (s : StreamServer) (b : browser) :
  isScreencasting s = true ->
  handleOpen ws (s, b) =
  (Normal tt,
   (mkStreamServer (server s) (port s) true (clientCount s + 1), b),
   [WsSubscribe ws screencast; WsSubscribe ws status]
   ++ sent ws (statusOf true b)).
Proof.
  destruct s as [srv pt cast cnt]. cbn. intros ->.
  run_stream. unfold statusOf, sent.
  destruct (viewportSize b); cbn; rewrite andb_false_r; reflexivity.
Qed.

Lemma handleOpen_not_first ws (s : StreamServer) (b : browser) :
  clientCount s <> 0 \/ isScreencasting s = true ->
  handleOpen ws (s, b) =
  (Normal tt,
   (mkStreamServer (server s) (port s) (isScreencasting s) (clientCount s + 1), b),
   [WsSubscribe ws screencast; WsSubscribe ws status]
   ++ sent ws (statusOf (isScreencasting s) b)).
Proof.
  intros [Hne|Hs].
  - destruct s as [srv pt cast cnt]. cbn in *.
    run_stream. unfold statusOf, sent.
    destruct (viewportSize b); cbn;
      (destruct (Z.eqb_spec (cnt + 1) 1) as [Heq|_]; [lia|]); reflexivity.
  - rewrite (handleOpen_already_capturing ws s b Hs), Hs. reflexivity.
Qed.

Lemma handleClose_others_remain ws (s : StreamServer) (b : browser) :
  clientCount s <> 1 ->
  handleClose ws (s, b) =
  (Normal tt,
   (mkStreamServer (server s) (port s) (isScreencasting s) (clientCount s - 1), b),
   [WsUnsubscribe ws screencast; WsUnsubscribe ws status]).
Proof.
  destruct s as [srv pt cast cnt]. cbn. intros Hne.
  run_stream. destruct (Z.eqb_spec (cnt - 1) 0); [lia|]. reflexivity.
Qed.

Lemma handleClose_last ws (s : StreamServer) (b b' : browser) :
  clientCount s = 1 -> isScreencasting s = true ->
  browserStopScreencast b = (Normal tt, b') ->
  handleClose ws (s, b) =
  (Normal tt,
   (mkStreamServer (server s) (port s) false 0, b'),
   [WsUnsubscribe ws screencast; WsUnsubscribe ws status;
    Engine CallStopScreencast]
   ++ published (server s) (statusOf false b')).
Proof.
  destruct s as [srv pt cast cnt]. cbn. intros -> -> Hs.
  run_stream. change (1 - 1) with 0. cbn. rewrite Hs. cbn.
  unfold statusOf, published.
  destruct srv; cbn; destruct (viewportSize b'); reflexivity.
Qed.


Lemma handleClose_last_fails ws (s : StreamServer) (b b' : browser) e :
  clientCount s = 1 -> isScreencasting s = true ->
  browserStopScreencast b = (Throw e, b') ->
  handleClose ws (s, b) =
  (Normal tt,
   (mkStreamServer (server s) (port s) true 0, b'),
   [WsUnsubscribe ws screencast; WsUnsubscribe ws status;
    Engine CallStopScreencast]).
Proof.
  destruct s as [srv pt cast cnt]. cbn. intros -> -> Hs.
  run_stream. change (1 - 1) with 0. cbn. rewrite Hs. reflexivity.
Qed.

Lemma handleOpen_first_start_fails ws (s : StreamServer) (b b' : browser) e :
  clientCount s = 0 -> isScreencasting s = false ->
  isLaunched b = true -> browserStartScreencast b = (Throw e, b') ->
  handleOpen ws (s, b) =
  (Normal tt,
   (mkStreamServer (server s) (port s) false 1, b'),
   [WsSubscribe ws screencast; WsSubscribe ws status]
   ++ sent ws (statusOf false b)
   ++ [Engine CallStartScreencast; WsSend ws (ErrorMessage e)]).
Proof.
  destruct s as [srv pt cast cnt]. cbn. intros -> -> Hl Hs.
  run_stream. unfold statusOf, sent.
  change (0 + 1) with 1.
  destruct (viewportSize b); cbn; rewrite ?Hl; cbn; rewrite ?Hs; reflexivity.
Qed.

Lemma sent_no_engine ws m : existsb isEngineCall (sent ws m) = false.
Proof. destruct m; reflexivity. Qed.

Lemma published_no_engine srv m : existsb isEngineCall (published srv m) = false.
Proof. destruct m; [destruct srv|]; reflexivity. Qed.

(** C2 (as the code has it). The first viewer to connect while nothing
    is captured makes the server try to start the capture. With the
    browser launched and the engine's start succeeding, the engine is
    asked once to start, the capturing flag is set and the status that is
    then published reports [screencasting = true]. With the browser not
    launched the guard of [startScreencast] throws: the engine is not
    called, the flag is rolled back and the viewer gets an error
    message. A viewer that connects while capture runs, or while other
    viewers are connected, starts nothing; a viewer that leaves while
    others remain leaves capture untouched; when the last viewer leaves a
    running capture, the engine is asked to stop; the flag is cleared
    and the new status published when that stop succeeds, and the flag
    stays set when it throws. A callback is taken together with the
    continuation of the start or stop it triggers. *)
Theorem viewer_lifecycle ws (s : StreamServer) (b : browser) :
  (clientCount s = 0 -> isScreencasting s = false ->
   (forall b', isLaunched b = true ->
      browserStartScreencast b = (Normal tt, b') ->
      handleOpen ws (s, b) =
      (Normal tt,
       (mkStreamServer (server s) (port s) true 1, b'),
       [WsSubscribe ws screencast; WsSubscribe ws status]
       ++ sent ws (statusOf false b)
       ++ [Engine CallStartScreencast]
       ++ published (server s) (statusOf true b'))) /\
   (isLaunched b = false ->
      handleOpen ws (s, b) =
      (Normal tt,
       (mkStreamServer (server s) (port s) false 1, b),
       [WsSubscribe ws screencast; WsSubscribe ws status]
       ++ sent ws (statusOf false b)
       ++ [WsSend ws (ErrorMessage (lit "Browser not launched"))]))) /\
  (clientCount s <> 0 \/ isScreencasting s = true ->
   handleOpen ws (s, b) =
   (Normal tt,
    (mkStreamServer (server s) (port s) (isScreencasting s) (clientCount s + 1), b),
    [WsSubscribe ws screencast; WsSubscribe ws status]
    ++ sent ws (statusOf (isScreencasting s) b)) /\
   existsb isEngineCall (trace (handleOpen ws) (s, b)) = false) /\
  (clientCount s <> 1 ->
   handleClose ws (s, b) =
   (Normal tt,
    (mkStreamServer (server s) (port s) (isScreencasting s) (clientCount s - 1), b),
    [WsUnsubscribe ws screencast; WsUnsubscribe ws status])) /\
  (clientCount s = 1 -> isScreencasting s = true ->
   (forall b', browserStopScreencast b = (Normal tt, b') ->
    handleClose ws (s, b) =
    (Normal tt,
     (mkStreamServer (server s) (port s) false 0, b'),
     [WsUnsubscribe ws screencast; WsUnsubscribe ws status;
      Engine CallStopScreencast]
     ++ published (server s) (statusOf false b'))) /\
   (forall e b', browserStopScreencast b = (Throw e, b') ->
    handleClose ws (s, b) =
    (Normal tt,
     (mkStreamServer (server s) (port s) true 0, b'),
     [WsUnsubscribe ws screencast; WsUnsubscribe ws status;
      Engine CallStopScreencast]))).
Proof.
  split; [|split; [|split]].
  - intros Hc Hs. split.
    + intros b' Hl Hstart. apply handleOpen_first_started; assumption.
    + intros Hl. apply handleOpen_first_not_launched; assumption.
  - intros Hs. split.
    + apply handleOpen_not_first; assumption.
    + unfold trace. rewrite (handleOpen_not_first ws s b Hs).
      cbn [snd app existsb isEngineCall orb]. apply sent_no_engine.
  - apply handleClose_others_remain.
  - intros Hc Hs. split.
    + intros b' Hstop. apply handleClose_last; assumption.
    + intros e b' Hstop. apply (handleClose_last_fails ws s b b' e); assumption.
Qed.

(** ** Messages from viewers *)


Lemma traceAll_callBrowser {A} (P : effect -> Prop) c
  (f : browser -> completion A * browser) :
  P (Engine c) -> traceAll P (callBrowser c f).
Proof.
  intros H [s b]. unfold trace, callBrowser.
  destruct (f b) as [r b']. simpl. auto.
Qed.

Lemma sendStatus_trace ws : traceAll (replyEffect ws) (sendStatus ws).
Proof.
  intros [s b]. unfold trace, sendStatus, statusMessage, bind; cbn.
  destruct (viewportSize b); cbn; auto.
  constructor; [reflexivity|constructor].
Qed.

Lemma dispatchMessage_trace ws message :
  traceAll (replyEffect ws) (dispatchMessage ws message).
Proof.
  unfold dispatchMessage. apply traceAll_bind; [apply traceAll_liftC|].
  intros ty.
  repeat match goal with
  | |- traceAll _ (if ?c then _ else _) => destruct c
  | |- traceAll _ (callBrowser _ _) => apply traceAll_callBrowser; exact I
  | |- traceAll _ (sendStatus _) => apply sendStatus_trace
  | |- traceAll _ (ret _) => apply traceAll_ret
  end.
Qed.

(** A [dispatchMessage] that throws did nothing but, at most, the
    engine call that threw; the server's own fields are unchanged. *)
Lemma dispatchMessage_throws ws message (st st' : StreamState) e log :
  dispatchMessage ws message st = (Throw e, st', log) ->
  fst st' = fst st /\ (log = [] \/ exists c, log = [Engine c]).
Proof.
  destruct st as [s b].
  unfold dispatchMessage, sendStatus, statusMessage, callBrowser, bind, liftC,
    emit, ret. cbn.
  destruct (messageType message) as [ty|e0]; cbn.
  - repeat match goal with
    | |- context [if ?c then _ else _] => destruct c
    | |- context [let '(_, _) := ?f ?p ?x in _] =>
        destruct (f p x) as [[[]|e1] b1]; cbn
    end;
    try (intros [= <- <- <-]; split; [reflexivity|right; eexists; reflexivity]);
    try discriminate.
    all: destruct (viewportSize _); cbn; discriminate.
  - intros [= <- <- <-]. split; [reflexivity|left; reflexivity].
Qed.

(** C8. A message that does not parse, or whose handling throws, is
    answered with one error message to the viewer that sent it, and
    [handleMessage] itself completes normally: the connection is not
    closed, nothing is published, no other viewer is sent anything, and
    the server's fields (server, flag, client count) are unchanged. For
    every message, whatever [handleMessage] sends goes to the sender. *)
Theorem malformed_message_reported ws data (st : StreamState) :
  (forall e, JSON_parse data = Throw e ->
     handleMessage ws data st = (Normal tt, st, [WsSend ws (ErrorMessage e)])) /\
  (forall message e st' log,
     JSON_parse data = Normal message ->
     dispatchMessage ws message st = (Throw e, st', log) ->
     handleMessage ws data st
       = (Normal tt, st', log ++ [WsSend ws (ErrorMessage e)]) /\
     fst st' = fst st /\
     (log = [] \/ exists c, log = [Engine c])) /\
  result (handleMessage ws data) st = Normal tt /\
  Forall (replyEffect ws) (trace (handleMessage ws data) st).
Proof.
  split; [|split; [|split]].
  - intros e He. unfold handleMessage, tryCatch, bind, liftC, sendError, emit.
    rewrite He. reflexivity.
  - intros message e st' log Hp Hd. split.
    + unfold handleMessage, tryCatch, bind, liftC, sendError, emit.
      rewrite Hp, Hd. reflexivity.
    + eapply dispatchMessage_throws. exact Hd.
  - unfold result, handleMessage, tryCatch, sendError, emit.
    destruct (bind _ _ st) as [[[[]|e] s1] l1]; reflexivity.
  - apply (traceAll_tryCatch (replyEffect ws)).
    + apply traceAll_bind; [apply traceAll_liftC|].
      intros m. apply dispatchMessage_trace.
    + intros e. unfold sendError. apply traceAll_emit. reflexivity.
Qed.


(* ================================================================= *)
(** * Further properties of the data handler *)
(* ================================================================= *)

Lemma holds_bind {St A B} (I : St -> Prop) P (m : M St A) (k : A -> M St B) :
  holds I P m -> (forall a, holds I P (k a)) -> holds I P (bind m k).
Proof.
  intros Hm Hk s Hs. destruct (Hm s Hs) as [H1 H2].
  unfold final, trace, bind in *.
  destruct (m s) as [[[a|e] s1] l1]; simpl in *; [|auto].
  destruct (Hk a s1 H1) as [H3 H4]. unfold final, trace in *.
  destruct (k a s1) as [[r s2] l2]; simpl in *.
  split; [assumption|apply Forall_app; auto].
Qed.

Lemma holds_silent {St A} (I : St -> Prop) P (m : M St A) :
  (forall s, final m s = s /\ trace m s = []) -> holds I P m.
Proof. intros H s Hs. destruct (H s) as [-> ->]. split; [exact Hs|constructor]. Qed.

(** The block around one line always completes: whatever is thrown
    inside is answered with an error response. *)
Lemma lineBlock_completes socket line (st : Conn) :
  exists r, result (lineBlock socket line) st = Normal r.
Proof.
  unfold result, lineBlock, tryCatch, writeResponse, bind, emit, ret.
  destruct (dispatchLine socket line st) as [[[r|e] s1] l1]; cbn; eauto.
Qed.

(** One turn of the loop, in terms of [lineBlock]. *)
Lemma processLines_S socket fuel buffer :
  processLines socket (S fuel) buffer =
  match cutLine buffer with
  | None => ret (LoopDone buffer)
  | Some (line, rest) =>
      if isBlank line then processLines socket fuel rest
      else
        bind (lineBlock socket line)
          (fun r => match r with
                    | NextLine => processLines socket fuel rest
                    | ReturnFromHandler => ret HandlerReturned
                    end)
  end.
Proof. reflexivity. Qed.

Lemma processLines_completes socket fuel buffer (st : Conn) :
  exists r, result (processLines socket fuel buffer) st = Normal r.
Proof.
  revert buffer st. induction fuel as [|fuel IH]; intros buffer st.
  - eexists. reflexivity.
  - rewrite processLines_S.
    destruct (cutLine buffer) as [[line rest]|]; [|eexists; reflexivity].
    destruct (isBlank line); [apply IH|].
    destruct (lineBlock_completes socket line st) as [r Hr].
    unfold result, bind in *.
    destruct (lineBlock socket line st) as [[r0 s1] l1]. simpl in Hr. subst r0.
    destruct r.
    + destruct (IH rest s1) as [r' Hr'].
      destruct (processLines socket fuel rest s1) as [[r0 s2] l2].
      simpl in Hr'. subst r0. cbn. eauto.
    + cbn. eauto.
Qed.

Lemma readLines_completes socket buffer (st : Conn) :
  result (readLines socket buffer) st = Normal tt.
Proof.
  unfold readLines, result, bind.
  destruct (processLines_completes socket (S (length buffer)) buffer st) as [r Hr].
  unfold result in Hr.
  destruct (processLines socket (S (length buffer)) buffer st) as [[r0 s1] l1].
  simpl in Hr. subst r0. destruct r; reflexivity.
Qed.

(** X1. The data handler never throws: a malformed line, a failing
    launch and a failing command are all answered on the connection. *)
Theorem data_never_throws socket chunk (st : Conn) :
  result (data socket chunk) st = Normal tt.
Proof.
  destruct st as [p d]. unfold result. rewrite data_unfold.
  destruct (_ >? _); [reflexivity|]. cbv zeta.
  destruct (_ && _); [reflexivity|].
  apply readLines_completes.
Qed.

Lemma dispatchLine_confined socket line :
  traceAll (connectionEffect socket) (dispatchLine socket line).
Proof.
  unfold dispatchLine, writeResponse. repeat trace_step; simpl; auto.
Qed.

Lemma processLines_confined socket fuel buffer :
  traceAll (connectionEffect socket) (processLines socket fuel buffer).
Proof.
  revert buffer. induction fuel as [|fuel IH]; intros buffer; simpl.
  - apply traceAll_ret.
  - destruct (cutLine buffer) as [[line rest]|]; [|apply traceAll_ret].
    destruct (negb (nonEmpty (trim line))); [apply IH|].
    apply traceAll_bind.
    + apply traceAll_tryCatch; [apply dispatchLine_confined|].
      intros e. unfold writeResponse. repeat trace_step; simpl; auto.
    + intros [|]; [apply IH|apply traceAll_ret].
Qed.

(** X2. A data event acts on its own connection only: every action is
    a write to or the termination of this connection, an engine call or
    the arming of the 100 ms timer. It never writes to another
    connection, stops the listener or exits the process. *)
Theorem data_confined socket chunk (st : Conn) :
  Forall (connectionEffect socket) (trace (data socket chunk) st).
Proof.
  destruct st as [p d]. unfold trace. rewrite data_unfold.
  destruct (_ >? _); [repeat constructor|]. cbv zeta.
  destruct (_ && _); [repeat constructor|].
  unfold readLines.
  apply (traceAll_bind (connectionEffect socket)
           (processLines socket _ _)).
  - apply processLines_confined.
  - intros r. repeat trace_step.
Qed.






(** What one line does to the shutdown flag and the timer, case by
    case: the flag is never cleared, and the timer is armed only by a
    line that finds the flag clear, sets it and returns from the
    handler, as its last action. *)
Lemma lineBlock_timer socket line (st : Conn) :
  let r := result (lineBlock socket line) st in
  let st' := final (lineBlock socket line) st in
  let l := trace (lineBlock socket line) st in
  snd st' = snd st /\
  ((shuttingDown (fst st') = shuttingDown (fst st) /\ timers l = 0%nat) \/
   (shuttingDown (fst st) = false /\ shuttingDown (fst st') = true /\
    r = Normal ReturnFromHandler /\ timers l = 1%nat)).
Proof.
  destruct st as [p d]. cbv zeta.
  unfold lineBlock, dispatchLine, writeResponse.
  generalize (lit "launch"), (lit "close"), (lit "unknown"), (lit "error"),
    autoLaunch.
  intros kl kc ku ke al.
  unfold result, final, trace, callEngine, tryCatch, bind, liftC, gets, when,
    modify, emit, ret.
  cbn.
  destruct (parseCommand line) as [[cmd|id err]|e]; cbn;
    [|split; [reflexivity|left; split; reflexivity]..].
  destruct (negb (isLaunched (theBrowser p)) &&
            negb (code_units_eqb (action cmd) kl) &&
            negb (code_units_eqb (action cmd) kc)); cbn;
    [destruct (launch al (theBrowser p)) as [[[]|e1] b1]; cbn;
       [|split; [reflexivity|left; split; [destruct p|]; reflexivity]]|];
    (destruct (code_units_eqb (action cmd) kc); cbn;
     [ destruct (executeCommand cmd _) as [[resp|e2] b2]; cbn;
       [ destruct p as [cs cu fs ss b [|] li ex so vw]; cbn;
         (split; [reflexivity|]);
         [ left; split; reflexivity
         | right; repeat split ]
       | split; [reflexivity|left; split; [destruct p|]; reflexivity] ]
     | destruct (executeCommand cmd _) as [[resp|e2] b2]; cbn;
       (split; [reflexivity|left; split; [destruct p|]; reflexivity]) ]).
Qed.


Lemma timers_app l1 l2 : timers (l1 ++ l2) = (timers l1 + timers l2)%nat.
Proof. unfold timers. rewrite List.filter_app, length_app. reflexivity. Qed.

Lemma processLines_timer socket fuel buffer (st : Conn) :
  let st' := final (processLines socket fuel buffer) st in
  let l := trace (processLines socket fuel buffer) st in
  (shuttingDown (fst st') = shuttingDown (fst st) /\ timers l = 0%nat) \/
  (shuttingDown (fst st) = false /\ shuttingDown (fst st') = true /\
   timers l = 1%nat).
Proof.
  cbv zeta. revert buffer st.
  induction fuel as [|fuel IH]; intros buffer st.
  - left. split; reflexivity.
  - rewrite processLines_S.
    destruct (cutLine buffer) as [[line rest]|]; [|left; split; reflexivity].
    destruct (isBlank line); [apply IH|].
    pose proof (lineBlock_timer socket line st) as Hline. cbv zeta in Hline.
    unfold result, final, trace, bind in *.
    destruct (lineBlock socket line st) as [[r s1] l1]. cbn [fst snd] in Hline.
    destruct Hline as [_ [[Hflag Hnone]|(Hoff & Hon & -> & Hone)]].
    + destruct r as [[|]|e]; cbn [fst snd].
      * specialize (IH rest s1).
        destruct (processLines socket fuel rest s1) as [[r2 s2] l2].
        cbn [fst snd] in *. rewrite timers_app, Hnone.
        rewrite <- Hflag. exact IH.
      * left. unfold ret; cbn [fst snd]. rewrite ?app_nil_r. split; assumption.
      * left. split; assumption.
    + unfold ret; cbn [fst snd]. right. rewrite ?app_nil_r.
      repeat split; assumption.
Qed.



(** X4. The shutdown timer. In one data event it is armed at most
    once; it is armed only when no shutdown is under way, and arming it
    sets the flag; the flag is never cleared. So over the life of the
    daemon the timer of the [close] command is armed at most once. *)
Theorem data_arms_timer_once socket chunk (st : Conn) :
  let st' := final (data socket chunk) st in
  let l := trace (data socket chunk) st in
  (shuttingDown (fst st') = shuttingDown (fst st) /\ timers l = 0%nat) \/
  (shuttingDown (fst st) = false /\ shuttingDown (fst st') = true /\
   timers l = 1%nat).
Proof.
  destruct st as [p d]. cbv zeta. unfold final, trace. rewrite data_unfold.
  destruct (_ >? _); [left; split; reflexivity|]. cbv zeta.
  destruct (_ && _); [left; split; reflexivity|].
  unfold readLines, bind.
  pose proof (processLines_timer socket
                (S (length (concat (chunks d ++ [chunk]))))
                (concat (chunks d ++ [chunk]))
                (p, mkSocketData (chunks d ++ [chunk]) true)) as H.
  cbv zeta in H. unfold final, trace in H.
  destruct (processLines socket _ _ _) as [[[r|e] [q d2]] l1];
    cbn [fst snd] in *; [|exact H].
  destruct r; unfold modify, ret; cbn [fst snd]; rewrite ?app_nil_r; exact H.
Qed.


(** The read loop on a buffer that starts with a complete line. *)
Lemma readLines_line socket line rest (st : Conn) :
  ~ In 10 line ->
  readLines socket (line ++ 10 :: rest) st =
  if isBlank line then readLines socket rest st
  else
    match lineBlock socket line st with
    | (Normal NextLine, s1, l1) =>
        (result (readLines socket rest) s1, final (readLines socket rest) s1,
         l1 ++ trace (readLines socket rest) s1)
    | (Normal ReturnFromHandler, s1, l1) => (Normal tt, s1, l1)
    | (Throw e, s1, l1) => (Throw e, s1, l1)
    end.
Proof.
  intros Hline. unfold readLines at 1.
  rewrite processLines_S, (cutLine_first line rest Hline).
  assert (Hfuel : forall s,
    processLines socket (length (line ++ 10 :: rest)) rest s
    = processLines socket (S (length rest)) rest s).
  { intros s. apply processLines_fuel; rewrite ?length_app; simpl; lia. }
  destruct (isBlank line).
  - unfold readLines, bind. rewrite Hfuel. reflexivity.
  - unfold bind at 1. unfold bind at 1.
    destruct (lineBlock socket line st) as [[[[|]|e] s1] l1].
    + rewrite Hfuel. unfold result, final, trace, readLines, bind.
      destruct (processLines socket (S (length rest)) rest s1) as [[[r|e] s2] l2];
        [|reflexivity].
      destruct r; unfold modify, ret; cbn [fst snd];
        rewrite ?app_nil_r, ?app_assoc; reflexivity.
    + unfold ret. cbn [fst snd]. rewrite !app_nil_r. reflexivity.
    + reflexivity.
Qed.

(** X5. A blank line (white space only) is skipped: nothing is parsed,
    nothing is written, and the loop goes on with what follows it. *)
Theorem blank_line_skipped socket line rest (st : Conn) :
  ~ In 10 line -> isBlank line = true ->
  readLines socket (line ++ 10 :: rest) st = readLines socket rest st.
Proof.
  intros Hline Hblank. rewrite (readLines_line socket line rest st Hline), Hblank.
  reflexivity.
Qed.

(** X6. A line that does not parse is answered with an error response
    that carries the recovered id, or ["unknown"]; nothing else happens
    for it, and the lines after it are processed as if it were absent. *)
Theorem malformed_line_answered socket line rest (st : Conn) id error :
  ~ In 10 line -> isBlank line = false ->
  parseCommand line = Normal (ParseFail id error) ->
  readLines socket (line ++ 10 :: rest) st =
  (result (readLines socket rest) st, final (readLines socket rest) st,
   SocketWrite socket
     (serializeResponse
        (errorResponse (match id with Some i => i | None => lit "unknown" end) error)
      ++ [10])
   :: trace (readLines socket rest) st).
Proof.
  intros Hline Hblank Hparse.
  rewrite (readLines_line socket line rest st Hline), Hblank.
  unfold lineBlock, tryCatch, dispatchLine, bind, liftC, writeResponse, emit, ret.
  rewrite Hparse. reflexivity.
Qed.

(** X7. Whatever is thrown while a line is handled (by the codec, by
    the implicit launch or by the command itself) is answered with an
    error response whose id is ["error"] and whose message is the thrown
    one; the engine keeps the state it had at the throw, and the loop
    goes on with the next line. *)
Theorem failing_line_answered socket line rest (st st1 : Conn) msg l1 :
  ~ In 10 line -> isBlank line = false ->
  dispatchLine socket line st = (Throw msg, st1, l1) ->
  readLines socket (line ++ 10 :: rest) st =
  (result (readLines socket rest) st1, final (readLines socket rest) st1,
   l1 ++ SocketWrite socket
           (serializeResponse (errorResponse (lit "error") msg) ++ [10])
      :: trace (readLines socket rest) st1).
Proof.
  intros Hline Hblank Hthrow.
  rewrite (readLines_line socket line rest st Hline), Hblank.
  unfold lineBlock, tryCatch. rewrite Hthrow.
  unfold writeResponse, bind, emit, ret. cbn [fst snd app].
  rewrite <- app_assoc. reflexivity.
Qed.


(** X8. The implicit launch. A command is preceded by a launch with the
    configuration from the environment exactly when the browser is not
    launched and the command is neither [launch] nor [close]; no other
    launch is ever issued by the loop. When that launch throws, the
    command itself is not executed. *)
Theorem auto_launch_when_needed socket line (st : Conn) :
  let l := trace (dispatchLine socket line) st in
  match parseCommand line with
  | Normal (ParseOk cmd) =>
      if needsLaunch (fst st) cmd then
        exists l', l = Engine (CallLaunch autoLaunch) :: l' /\
                   existsb isLaunchCall l' = false /\
                   (forall e b1, launch autoLaunch (theBrowser (fst st)) = (Throw e, b1) ->
                      dispatchLine socket line st
                      = (Throw e, (set_theBrowser b1 (fst st), snd st),
                         [Engine (CallLaunch autoLaunch)]))
      else existsb isLaunchCall l = false
  | _ => existsb isLaunchCall l = false
  end.
Proof.
  destruct st as [p d]. cbv zeta. unfold needsLaunch.
  unfold dispatchLine, writeResponse.
  generalize (lit "launch"), (lit "close"), (lit "unknown"), autoLaunch.
  intros kl kc ku al.
  unfold trace, callEngine, bind, liftC, gets, when, modify, emit, ret.
  cbn.
  destruct (parseCommand line) as [[cmd|id err]|e]; cbn; [|reflexivity..].
  destruct (negb (isLaunched (theBrowser p)) &&
            negb (code_units_eqb (action cmd) kl) &&
            negb (code_units_eqb (action cmd) kc)); cbn.
  - destruct (launch al (theBrowser p)) as [[[]|e1] b1]; cbn.
    + destruct (code_units_eqb (action cmd) kc); cbn;
        destruct (executeCommand cmd _) as [[resp|e2] b2]; cbn;
        try destruct (shuttingDown _); cbn;
        (eexists; split; [reflexivity|split; [reflexivity|discriminate]]).
    + eexists. split; [reflexivity|]. split; [reflexivity|].
      intros e b [= <- <-]. reflexivity.
  - destruct (code_units_eqb (action cmd) kc); cbn;
      destruct (executeCommand cmd _) as [[resp|e2] b2]; cbn;
      try destruct (shuttingDown _); reflexivity.
Qed.

(** Every non-blank line gets exactly one response. *)
Lemma lineBlock_one_response socket line (st : Conn) :
  responses (trace (lineBlock socket line) st) = 1%nat.
Proof.
  destruct st as [p d].
  unfold lineBlock, dispatchLine, writeResponse.
  generalize (lit "launch"), (lit "close"), (lit "unknown"), (lit "error"),
    autoLaunch.
  intros kl kc ku ke al.
  unfold responses, trace, callEngine, tryCatch, bind, liftC, gets, when,
    modify, emit, ret.
  cbn.
  destruct (parseCommand line) as [[cmd|id err]|e]; cbn; [|reflexivity..].
  destruct (negb (isLaunched (theBrowser p)) &&
            negb (code_units_eqb (action cmd) kl) &&
            negb (code_units_eqb (action cmd) kc)); cbn;
    [destruct (launch al (theBrowser p)) as [[[]|e1] b1]; cbn; [|reflexivity]|];
    (destruct (code_units_eqb (action cmd) kc); cbn;
     destruct (executeCommand cmd _) as [[resp|e2] b2]; cbn;
     try destruct (shuttingDown _); reflexivity).
Qed.

Lemma responses_app l1 l2 : responses (l1 ++ l2) = (responses l1 + responses l2)%nat.
Proof. unfold responses. rewrite List.filter_app, length_app. reflexivity. Qed.

(** [pieces] follows [cutLine]. *)
Lemma splitOn_cut cur (s : jsstring) :
  splitOn (fun c => c =? 10) cur s =
  match cutLine s with
  | Some (line, rest) => (rev cur ++ line) :: splitOn (fun c => c =? 10) [] rest
  | None => [rev cur ++ s]
  end.
Proof.
  revert cur. induction s as [|c s IH]; intros cur; simpl.
  - rewrite app_nil_r. reflexivity.
  - destruct (c =? 10).
    + rewrite app_nil_r. reflexivity.
    + rewrite IH. simpl.
      destruct (cutLine s) as [[line rest]|]; rewrite <- app_assoc; reflexivity.
Qed.

Lemma pieces_nonempty s : pieces s <> [].
Proof.
  unfold pieces. rewrite splitOn_cut.
  destruct (cutLine s) as [[line rest]|]; discriminate.
Qed.

Lemma pieces_cut s line rest :
  cutLine s = Some (line, rest) ->
  completeLines s = line :: completeLines rest /\ partialLine s = partialLine rest.
Proof.
  intros H. unfold completeLines, partialLine, pieces.
  rewrite (splitOn_cut [] s), H. cbn [rev app].
  fold (pieces rest). pose proof (pieces_nonempty rest) as Hne.
  destruct (pieces rest) as [|x xs] eqn:E; [congruence|]. split; reflexivity.
Qed.

Lemma pieces_whole s :
  cutLine s = None -> completeLines s = [] /\ partialLine s = s.
Proof.
  intros H. unfold completeLines, partialLine, pieces.
  rewrite (splitOn_cut [] s), H. split; reflexivity.
Qed.

(** X9. When the loop runs to its end it has written exactly one
    response for every non-blank complete line of the buffer, and what it
    hands back to be kept is the unterminated text after the last line
    feed. *)
Theorem one_response_per_line socket fuel buffer (st st' : Conn) rest l :
  processLines socket fuel buffer st = (Normal (LoopDone rest), st', l) ->
  rest = partialLine buffer /\
  responses l
  = length (List.filter (fun x => negb (isBlank x)) (completeLines buffer)).
Proof.
  revert buffer st l.
  induction fuel as [|fuel IH]; intros buffer st l Hrun.
  - discriminate.
  - rewrite processLines_S in Hrun.
    destruct (cutLine buffer) as [[line more]|] eqn:Hcut.
    + destruct (pieces_cut _ _ _ Hcut) as [-> ->]. cbn [List.filter].
      destruct (isBlank line); cbn [negb].
      * apply (IH _ _ _ Hrun).
      * pose proof (lineBlock_one_response socket line st) as Hone.
        unfold bind, trace in *.
        destruct (lineBlock socket line st) as [[[[|]|e] s1] l1];
          cbn [snd] in Hone; try discriminate.
        destruct (processLines socket fuel more s1) as [[r2 s2] l2] eqn:Hrest.
        injection Hrun as -> -> <-.
        destruct (IH _ _ _ Hrest) as [-> Hcount].
        split; [reflexivity|]. rewrite responses_app, Hone, Hcount. reflexivity.
    + destruct (pieces_whole _ Hcut) as [-> ->].
      injection Hrun as <- <- <-. split; reflexivity.
Qed.


(** What the loop hands back is never longer than the buffer. *)
Lemma partialLine_short socket fuel buffer (st st' : Conn) rest l :
  processLines socket fuel buffer st = (Normal (LoopDone rest), st', l) ->
  (length rest <= length buffer)%nat.
Proof.
  revert buffer st l.
  induction fuel as [|fuel IH]; intros buffer st l Hrun; [discriminate|].
  rewrite processLines_S in Hrun.
  destruct (cutLine buffer) as [[line more]|] eqn:Hcut.
  - apply cutLine_shorter in Hcut.
    destruct (isBlank line).
    + specialize (IH _ _ _ Hrun). lia.
    + unfold bind in Hrun.
      destruct (lineBlock socket line st) as [[[[|]|e] s1] l1]; try discriminate.
      destruct (processLines socket fuel more s1) as [[r2 s2] l2] eqn:Hrest.
      injection Hrun as -> -> <-. specialize (IH _ _ _ Hrest). lia.
  - injection Hrun as <- <- <-. lia.
Qed.

Lemma bufferedSize_keep (rest : jsstring) :
  bufferedSize (if nonEmpty rest then [rest] else []) = Z.of_nat (length rest).
Proof. destruct rest; unfold bufferedSize; simpl; lia. Qed.

Lemma data_bounded socket chunk (st : Conn) :
  bufferedSize (chunks (snd st)) <= MAX_BUFFER_SIZE ->
  bufferedSize (chunks (snd (final (data socket chunk) st))) <= MAX_BUFFER_SIZE.
Proof.
  destruct st as [p d]. cbn [snd]. intros Hd. unfold final. rewrite data_unfold.
  destruct (Z.gtb_spec (bufferedSize (chunks d) + Z.of_nat (length chunk))
              MAX_BUFFER_SIZE) as [Hgt|Hle]; [exact Hd|]. cbv zeta.
  assert (Hall : bufferedSize (chunks d ++ [chunk]) <= MAX_BUFFER_SIZE).
  { rewrite !bufferedSize_concat in *. rewrite concat_app, length_app. simpl.
    rewrite app_nil_r. lia. }
  destruct (_ && _); [exact Hall|].
  unfold readLines, bind.
  pose proof (processLines_keeps socket
                (S (length (concat (chunks d ++ [chunk]))))
                (concat (chunks d ++ [chunk]))
                (p, mkSocketData (chunks d ++ [chunk]) true)) as Hkeep.
  unfold final in Hkeep.
  destruct (processLines socket _ _ _) as [[[r|e] [q d2]] l1] eqn:Hrun;
    cbn [fst snd] in *; subst d2; [|exact Hall].
  destruct r as [rest| |]; unfold modify, ret, set_chunks; cbn [fst snd chunks];
    try exact Hall.
  rewrite bufferedSize_keep.
  apply partialLine_short in Hrun.
  rewrite bufferedSize_concat in Hall. lia.
Qed.

(** X10. The connection buffer never exceeds the bound: after any
    sequence of data events on a connection the text kept in [chunks]
    is at most [MAX_BUFFER_SIZE] long. *)
Theorem buffer_never_exceeds_bound socket received (p : Process) :
  bufferedSize (chunks (snd (final (dataEvents socket received) (p, open))))
  <= MAX_BUFFER_SIZE.
Proof.
  assert (Hgen : forall st : Conn,
    bufferedSize (chunks (snd st)) <= MAX_BUFFER_SIZE ->
    bufferedSize (chunks (snd (final (dataEvents socket received) st)))
    <= MAX_BUFFER_SIZE).
  { induction received as [|chunk later IH]; intros st Hst; [exact Hst|].
    pose proof (data_bounded socket chunk st Hst) as H1.
    cbn [dataEvents]. unfold final, bind in *.
    destruct (data socket chunk st) as [[[[]|e] s1] l1]; cbn [fst snd] in *;
      [|exact H1].
    specialize (IH s1 H1).
    destruct (dataEvents socket later s1) as [[r s2] l2]. exact IH. }
  apply Hgen. unfold open, bufferedSize, MAX_BUFFER_SIZE. simpl. lia.
Qed.


(** The loop does not look at the connection's data. *)
Lemma lineBlock_parametric socket line (p : Process) (d d0 : SocketData) :
  lineBlock socket line (p, d) =
  (result (lineBlock socket line) (p, d0),
   (fst (final (lineBlock socket line) (p, d0)), d),
   trace (lineBlock socket line) (p, d0)).
Proof.
  unfold lineBlock, dispatchLine, writeResponse.
  generalize (lit "launch"), (lit "close"), (lit "unknown"), (lit "error"),
    autoLaunch.
  intros kl kc ku ke al.
  unfold result, final, trace, callEngine, tryCatch, bind, liftC, gets, when,
    modify, emit, ret.
  cbn.
  destruct (parseCommand line) as [[cmd|id err]|e]; cbn; [|reflexivity..].
  destruct (negb (isLaunched (theBrowser p)) &&
            negb (code_units_eqb (action cmd) kl) &&
            negb (code_units_eqb (action cmd) kc)); cbn;
    [destruct (launch al (theBrowser p)) as [[[]|e1] b1]; cbn; [|reflexivity]|];
    (destruct (code_units_eqb (action cmd) kc); cbn;
     destruct (executeCommand cmd _) as [[resp|e2] b2]; cbn;
     try destruct (shuttingDown _); reflexivity).
Qed.

Lemma processLines_parametric socket fuel buffer (p : Process) (d d0 : SocketData) :
  processLines socket fuel buffer (p, d) =
  (result (processLines socket fuel buffer) (p, d0),
   (fst (final (processLines socket fuel buffer) (p, d0)), d),
   trace (processLines socket fuel buffer) (p, d0)).
Proof.
  revert buffer p d. induction fuel as [|fuel IH]; intros buffer p d.
  - reflexivity.
  - rewrite processLines_S.
    destruct (cutLine buffer) as [[line rest]|]; [|reflexivity].
    destruct (isBlank line); [apply IH|].
    unfold bind. rewrite (lineBlock_parametric socket line p d d0).
    unfold result, final, trace.
    destruct (lineBlock socket line (p, d0)) as [[[[|]|e] [q dq]] l1];
      cbn [fst snd]; try reflexivity.
    rewrite (IH rest q d), (IH rest q dq). unfold result, final, trace.
    destruct (processLines socket fuel rest (q, d0)) as [[r2 [q2 d2]] l2].
    reflexivity.
Qed.


(** Text that arrives after a loop ran to its end: the loop on
    [pre ++ more] does what it did on [pre] and then goes on with the
    kept rest followed by [more]. *)
Lemma processLines_split socket fuel pre more (st st2 : Conn) rest log1 fuel' :
  processLines socket fuel pre st = (Normal (LoopDone rest), st2, log1) ->
  (length (pre ++ more) < fuel')%nat ->
  processLines socket fuel' (pre ++ more) st =
  (result (processLines socket fuel' (rest ++ more)) st2,
   final (processLines socket fuel' (rest ++ more)) st2,
   log1 ++ trace (processLines socket fuel' (rest ++ more)) st2).
Proof.
  revert pre st log1 fuel'.
  induction fuel as [|fuel IH]; intros pre st log1 fuel' Hrun Hlen;
    [discriminate|].
  destruct fuel' as [|fuel']; [lia|].
  rewrite processLines_S in Hrun.
  destruct (cutLine pre) as [[line rest0]|] eqn:Hcut.
  - pose proof (cutLine_shorter _ _ _ Hcut) as Hshort.
    rewrite length_app in Hlen.
    assert (Hlen' : (length (rest0 ++ more) < fuel')%nat)
      by (rewrite length_app; lia).
    assert (Hstep : forall s1 l1,
      processLines socket fuel rest0 s1 = (Normal (LoopDone rest), st2, l1) ->
      processLines socket fuel' (rest0 ++ more) s1 =
      (result (processLines socket (S fuel') (rest ++ more)) st2,
       final (processLines socket (S fuel') (rest ++ more)) st2,
       l1 ++ trace (processLines socket (S fuel') (rest ++ more)) st2)).
    { intros s1 l1 Hsub.
      pose proof (partialLine_short _ _ _ _ _ _ _ Hsub) as Hrest.
      rewrite (IH _ _ _ _ Hsub Hlen').
      unfold result, final, trace.
      rewrite (proj1 (processLines_fuel socket fuel' (S fuel') (rest ++ more) st2
                        ltac:(rewrite length_app in *; lia)
                        ltac:(rewrite length_app in *; lia))).
      reflexivity. }
    rewrite (processLines_S socket fuel' (pre ++ more)).
    rewrite (cutLine_app _ more _ _ Hcut).
    destruct (isBlank line).
    + apply Hstep. exact Hrun.
    + unfold bind in *.
      destruct (lineBlock socket line st) as [[[[|]|e] s1] l1]; try discriminate.
      destruct (processLines socket fuel rest0 s1) as [[r2 s2] l2] eqn:Hsub.
      injection Hrun as -> -> <-.
      rewrite (Hstep _ _ Hsub). cbn [fst snd]. unfold result, final, trace.
      rewrite app_assoc. reflexivity.
  - injection Hrun as <- <- <-. cbn [app]. apply run_eta.
Qed.

Lemma concat_snoc (cs : list jsstring) (c : jsstring) :
  concat (cs ++ [c]) = concat cs ++ c.
Proof. rewrite concat_app. simpl. rewrite app_nil_r. reflexivity. Qed.

(** X11. A command may arrive in pieces. On a connection past its first
    data event, when the handler works a first chunk off to the end of
    its loop without executing a command (the chunk holds, besides blank
    lines and lines that do not parse, at most the beginning of a line),
    receiving a second chunk afterwards writes the same responses in the
    same order, issues the same engine calls and leaves the daemon in
    the same state as receiving the two chunks as one. The handler
    awaits nothing but engine calls, so a first handler that makes none
    is never suspended and has finished when the second chunk is
    delivered. (A chunk that arrives while the handler is suspended in a
    command finds the earlier chunk still in [chunks], which is replaced
    only by the handler's last statement; this statement does not cover
    that case.) *)
Theorem chunking_is_transparent socket c1 c2 (p : Process) (d : SocketData)
  rest (st1 : Conn) l1 :
  httpChecked d = true ->
  bufferedSize (chunks d) + Z.of_nat (length c1) + Z.of_nat (length c2)
    <= MAX_BUFFER_SIZE ->
  processLines socket (S (length (concat (chunks d ++ [c1]))))
    (concat (chunks d ++ [c1])) (p, mkSocketData (chunks d ++ [c1]) true)
  = (Normal (LoopDone rest), st1, l1) ->
  existsb isEngineCall l1 = false ->
  let two := bind (data socket c1) (fun _ => data socket c2) in
  let one := data socket (c1 ++ c2) in
  result two (p, d) = result one (p, d) /\
  trace two (p, d) = trace one (p, d) /\
  fst (final two (p, d)) = fst (final one (p, d)).
Proof.
  intros Hchecked Hsize Hfirst Hquiet. cbv zeta.
  pose proof (processLines_keeps socket (S (length (concat (chunks d ++ [c1]))))
                (concat (chunks d ++ [c1]))
                (p, mkSocketData (chunks d ++ [c1]) true)) as Hkeep.
  unfold final in Hkeep. rewrite Hfirst in Hkeep. destruct st1 as [q d1].
  cbn [fst snd] in Hkeep. subst d1.
  pose proof (partialLine_short _ _ _ _ _ _ _ Hfirst) as Hshort.
  rewrite concat_snoc, length_app in Hshort.
  pose proof (bufferedSize_concat (chunks d)) as Hbs.
  set (keep := if nonEmpty rest then [rest] else []).
  assert (Hkeepcat : concat (keep ++ [c2]) = rest ++ c2).
  { subst keep. destruct rest; simpl; rewrite ?app_nil_r; reflexivity. }
  (* the first event *)
  assert (H1 : data socket c1 (p, d)
               = (Normal tt, (q, mkSocketData keep true), l1)).
  { rewrite data_unfold.
    destruct (Z.gtb_spec (bufferedSize (chunks d) + Z.of_nat (length c1))
                MAX_BUFFER_SIZE); [lia|].
    cbv zeta. rewrite Hchecked. cbn [negb andb].
    unfold readLines, bind. rewrite Hfirst.
    unfold modify, set_chunks. cbn [fst snd chunks httpChecked].
    rewrite app_nil_r. reflexivity. }
  (* the second event *)
  assert (H2 : data socket c2 (q, mkSocketData keep true)
               = readLines socket (rest ++ c2)
                   (q, mkSocketData (keep ++ [c2]) true)).
  { rewrite data_unfold. cbn [chunks httpChecked].
    destruct (Z.gtb_spec (bufferedSize keep + Z.of_nat (length c2))
                MAX_BUFFER_SIZE) as [Hgt|_].
    - subst keep. rewrite bufferedSize_keep in Hgt. lia.
    - cbv zeta. cbn [negb andb]. rewrite Hkeepcat. reflexivity. }
  (* both at once *)
  assert (H3 : data socket (c1 ++ c2) (p, d)
               = readLines socket (concat (chunks d ++ [c1]) ++ c2)
                   (p, mkSocketData (chunks d ++ [c1 ++ c2]) true)).
  { rewrite data_unfold. rewrite length_app.
    destruct (Z.gtb_spec (bufferedSize (chunks d) + Z.of_nat (length c1 + length c2))
                MAX_BUFFER_SIZE); [lia|].
    cbv zeta. rewrite Hchecked. cbn [negb andb].
    rewrite !concat_snoc, app_assoc. reflexivity. }
  unfold result, final, trace, bind. rewrite H1, H2, H3. clear H1 H2 H3.
  unfold readLines, bind.
  set (F := S (length (concat (chunks d ++ [c1]) ++ c2))).
  rewrite (processLines_parametric socket F _ p _ (mkSocketData (chunks d ++ [c1]) true)).
  unfold result, final, trace.
  rewrite (processLines_split socket _ _ c2 _ _ _ _ F Hfirst) by (subst F; lia).
  unfold result, final, trace. cbn [fst snd].
  rewrite (proj1 (processLines_fuel socket F (S (length (rest ++ c2))) (rest ++ c2)
                    (q, mkSocketData (chunks d ++ [c1]) true)
                    ltac:(subst F; rewrite concat_snoc, !length_app in *; lia)
                    ltac:(lia))).
  rewrite (processLines_parametric socket (S (length (rest ++ c2))) (rest ++ c2) q
             (mkSocketData (keep ++ [c2]) true)
             (mkSocketData (chunks d ++ [c1]) true)).
  unfold result, final, trace.
  destruct (processLines socket (S (length (rest ++ c2))) (rest ++ c2)
              (q, mkSocketData (chunks d ++ [c1]) true)) as [[[r|e] [q2 d2]] l2];
    cbn [fst snd]; [|repeat split; reflexivity].
  destruct r; unfold modify, ret, set_chunks; cbn [fst snd];
    rewrite ?app_nil_r; repeat split; reflexivity.
Qed.


(* ================================================================= *)
(** * Further properties of the session registry *)
(* ================================================================= *)








(** X14. Only a [close] command that was parsed and executed normally
    makes the handler return from inside the loop, and it leaves the
    shutdown flag set. A termination signal that arrives afterwards
    therefore does nothing: the guarded shutdown path (stream server,
    engine) is not run once [close] has been answered. *)
Theorem close_disarms_signals socket line (st st' : Conn) l t :
  dispatchLine socket line st = (Normal ReturnFromHandler, st', l) ->
  In t [SIGINT; SIGTERM; SIGHUP] ->
  (exists cmd, parseCommand line = Normal (ParseOk cmd) /\
               code_units_eqb (action cmd) (lit "close") = true) /\
  shuttingDown (fst st') = true /\
  listener t (fst st') = (Normal tt, fst st', []).
Proof.
  intros Hrun Ht.
  assert (H : (exists cmd, parseCommand line = Normal (ParseOk cmd) /\
                 code_units_eqb (action cmd) (lit "close") = true) /\
              shuttingDown (fst st') = true).
  { revert Hrun. destruct st as [p d].
    unfold dispatchLine, writeResponse.
    generalize (lit "launch"), (lit "close"), (lit "unknown"), autoLaunch.
    intros kl kc ku al.
    unfold callEngine, bind, liftC, gets, when, modify, emit, ret.
    cbn.
    destruct (parseCommand line) as [[cmd|id err]|e]; cbn; try discriminate.
    destruct (negb (isLaunched (theBrowser p)) &&
              negb (code_units_eqb (action cmd) kl) &&
              negb (code_units_eqb (action cmd) kc)); cbn;
      [destruct (launch al (theBrowser p)) as [[[]|e1] b1]; cbn;
         [|discriminate]|];
      (destruct (code_units_eqb (action cmd) kc) eqn:Hc; cbn;
       destruct (executeCommand cmd _) as [[resp|e2] b2]; cbn;
       try discriminate;
       destruct p as [cs cu fs ss b [|] li ex so vw]; cbn;
       intros [= <- <-]; (split; [eauto|reflexivity])). }
  destruct H as [Hclose Hflag]. split; [exact Hclose|]. split; [exact Hflag|].
  assert (Hl : listener t = shutdown)
    by (destruct Ht as [<-|[<-|[<-|[]]]]; reflexivity).
  rewrite Hl. apply shutdown_idempotent. exact Hflag.
Qed.



(* ================================================================= *)
(** * Further properties of the transport addressing *)
(* ================================================================= *)

Lemma ToInt32_add_multiple x k : ToInt32 (x + k * 2 ^ 32) = ToInt32 x.
Proof.
  unfold ToInt32.
  replace (x + k * 2 ^ 32 + 2 ^ 31) with (x + 2 ^ 31 + k * 2 ^ 32) by lia.
  rewrite Z.mod_add by lia. reflexivity.
Qed.

Lemma ToInt32_wraps x : exists k, ToInt32 x = x + k * 2 ^ 32.
Proof.
  exists (- ((x + 2 ^ 31) / 2 ^ 32)). unfold ToInt32.
  pose proof (Z.div_mod (x + 2 ^ 31) (2 ^ 32) ltac:(lia)). lia.
Qed.

Lemma hash_step_wraps h h' c :
  h = ToInt32 h' ->
  ToInt32 (shl h 5 - h + c) = ToInt32 (31 * h' + c).
Proof.
  intros ->. unfold shl. rewrite Z.shiftl_mul_pow2 by lia.
  destruct (ToInt32_wraps h') as [k0 E0].
  destruct (ToInt32_wraps (ToInt32 h')) as [k1 E1].
  destruct (ToInt32_wraps (ToInt32 (ToInt32 h') * 2 ^ 5)) as [k2 E2].
  rewrite E2, E1, E0.
  replace ((h' + k0 * 2 ^ 32 + k1 * 2 ^ 32) * 2 ^ 5 + k2 * 2 ^ 32
           - (h' + k0 * 2 ^ 32) + c)
    with (31 * h' + c + (32 * k0 + 32 * k1 + k2 - k0) * 2 ^ 32) by lia.
  apply ToInt32_add_multiple.
Qed.

Lemma hash_fold_polynomial session h h' :
  h = ToInt32 h' ->
  fold_left (fun hash c => ToInt32 (shl hash 5 - hash + c)) session h
  = ToInt32 (fold_left (fun hash c => 31 * hash + c) session h').
Proof.
  revert h h'. induction session as [|c s IH]; intros h h' E; simpl.
  - exact E.
  - apply IH. apply hash_step_wraps. exact E.
Qed.

(** X16. The hash behind the port is the polynomial hash in 31 over the
    code units of the name, wrapped once to a signed 32-bit integer:
    wrapping after every step (with [<<] and [|= 0]) changes nothing. *)
Theorem sessionHash_polynomial session :
  sessionHash session = ToInt32 (polyHash session).
Proof. apply hash_fold_polynomial. reflexivity. Qed.

(** X17. The port does not identify the session: two names that differ
    only in having [Aa] where the other has [BB] are different names
    with the same hash, hence the same port. *)
Theorem ports_collide pre post :
  pre ++ lit "Aa" ++ post <> pre ++ lit "BB" ++ post /\
  sessionHash (pre ++ lit "Aa" ++ post) = sessionHash (pre ++ lit "BB" ++ post) /\
  getPortForSession (pre ++ lit "Aa" ++ post)
  = getPortForSession (pre ++ lit "BB" ++ post).
Proof.
  assert (E : polyHash (pre ++ lit "Aa" ++ post) = polyHash (pre ++ lit "BB" ++ post)).
  { unfold polyHash. rewrite !fold_left_app. f_equal.
    change (lit "Aa") with [65; 97]. change (lit "BB") with [66; 66].
    cbn [fold_left]. lia. }
  assert (P : forall s, sessionHash s = ToInt32 (polyHash s))
    by (intros s; apply hash_fold_polynomial; reflexivity).
  split; [|split].
  - intros H. apply app_inv_head in H. discriminate H.
  - rewrite !P, E. reflexivity.
  - unfold getPortForSession. cbv zeta. rewrite !P, E. reflexivity.
Qed.


(** ** Numbers as text *)

Lemma lit_String c s : lit (String c s) = Z.of_nat (nat_of_ascii c) :: lit s.
Proof. reflexivity. Qed.

Lemma isDigit_not_space c : isDigit c = true -> isWhiteSpace c = false.
Proof.
  unfold isDigit, isWhiteSpace. intros H.
  apply andb_true_iff in H as [H1 H2]. apply Z.leb_le in H1, H2.
  repeat (apply orb_false_iff; split); try (apply Z.eqb_neq; lia).
  apply andb_false_iff. left. apply Z.leb_gt. lia.
Qed.

Lemma trim_unpadded s :
  Forall (fun c => isWhiteSpace c = false) s -> trim s = s.
Proof.
  intros H. unfold trim, trimEnd.
  assert (Hs : trimStart s = s).
  { destruct H as [|c s Hc _]; [reflexivity|]. cbn. rewrite Hc. reflexivity. }
  rewrite Hs.
  assert (Hr : Forall (fun c => isWhiteSpace c = false) (rev s)).
  { apply List.Forall_forall. intros c Hc. apply in_rev in Hc.
    revert c Hc. apply List.Forall_forall. exact H. }
  assert (Hrs : trimStart (rev s) = rev s).
  { destruct Hr as [|c r Hc _]; [reflexivity|]. cbn. rewrite Hc. reflexivity. }
  rewrite Hrs. apply rev_involutive.
Qed.

Lemma uint_text_digits d :
  Forall (fun c => isDigit c = true) (lit (NilEmpty.string_of_uint d)).
Proof.
  induction d; cbn [NilEmpty.string_of_uint]; try rewrite lit_String;
    constructor; try reflexivity; assumption.
Qed.

Ltac ascii_code :=
  repeat match goal with
  | |- context [Z.of_nat (nat_of_ascii ?c)] =>
      let n := eval vm_compute in (Z.of_nat (nat_of_ascii c)) in
      change (Z.of_nat (nat_of_ascii c)) with n
  end.

Lemma uint_text_value d acc :
  digitsValue (Z.pos acc) (lit (NilEmpty.string_of_uint d))
  = Z.pos (Pos.of_uint_acc d acc).
Proof.
  revert acc. induction d; intros acc;
    cbn [NilEmpty.string_of_uint Pos.of_uint_acc]; try rewrite lit_String;
    try reflexivity;
    ascii_code; cbn [digitsValue];
    match goal with
    | |- context [isDigit ?c] => change (isDigit c) with true; cbv iota
    end;
    rewrite <- IHd; f_equal;
    rewrite ?Pos2Z.inj_add, ?Pos2Z.inj_mul; lia.
Qed.

Lemma uint_text_value0 d :
  digitsValue 0 (lit (NilEmpty.string_of_uint d)) = Z.of_N (Pos.of_uint d).
Proof.
  induction d; cbn [NilEmpty.string_of_uint Pos.of_uint]; try rewrite lit_String;
    try reflexivity;
    ascii_code; cbn [digitsValue];
    match goal with
    | |- context [isDigit ?c] => change (isDigit c) with true; cbv iota
    end;
    [exact IHd | ..];
    cbn [Z.of_N]; rewrite <- uint_text_value; f_equal.
Qed.

Lemma digit_cases c :
  isDigit c = true ->
  c = 48 \/ c = 49 \/ c = 50 \/ c = 51 \/ c = 52 \/
  c = 53 \/ c = 54 \/ c = 55 \/ c = 56 \/ c = 57.
Proof.
  unfold isDigit. intros H. apply andb_true_iff in H as [H1 H2].
  apply Z.leb_le in H1, H2. lia.
Qed.

Lemma parseInt10_digits c r :
  isDigit c = true -> parseInt10 (c :: r) = Some (digitsValue 0 (c :: r)).
Proof.
  intros H. rewrite <- (Z.mul_1_l (digitsValue 0 (c :: r))).
  pose proof (digit_cases c H) as Hc.
  repeat destruct Hc as [Hc|Hc]; subst c; reflexivity.
Qed.

Lemma parseInt10_minus c r :
  isDigit c = true ->
  parseInt10 (45 :: c :: r) = Some (- digitsValue 0 (c :: r)).
Proof.
  intros H. unfold parseInt10. change (trimStart (45 :: c :: r)) with (45 :: c :: r).
  cbv beta iota zeta. rewrite H. f_equal; lia.
Qed.

Lemma uint_text_shape p :
  exists c r, lit (NilEmpty.string_of_uint (Pos.to_uint p)) = c :: r /\
              isDigit c = true /\
              Forall (fun c => isWhiteSpace c = false) (c :: r) /\
              digitsValue 0 (c :: r) = Z.pos p /\
              NilZero.string_of_uint (Pos.to_uint p)
              = NilEmpty.string_of_uint (Pos.to_uint p).
Proof.
  pose proof (DecimalPos.Unsigned.to_uint_nonnil p) as Hn.
  pose proof (uint_text_digits (Pos.to_uint p)) as Hd.
  pose proof (uint_text_value0 (Pos.to_uint p)) as Hv.
  rewrite DecimalPos.Unsigned.of_to in Hv.
  destruct (lit (NilEmpty.string_of_uint (Pos.to_uint p))) as [|c r] eqn:El.
  { destruct (Pos.to_uint p); try contradiction; discriminate El. }
  exists c, r. split; [reflexivity|]. split; [inversion Hd; assumption|].
  split; [|split; [exact Hv|]].
  - eapply Forall_impl; [exact Hd|]. intros x. apply isDigit_not_space.
  - destruct (Pos.to_uint p); [contradiction|reflexivity..].
Qed.

(** Reading back the decimal text of an integer gives the integer:
    [parseInt(String(n).trim(), 10) === n]. *)
Lemma parseInt10_numberToString n :
  parseInt10 (trim (numberToString n)) = Some n.
Proof.
  unfold numberToString. destruct n as [|p|p].
  - reflexivity.
  - cbn [Z.to_int NilZero.string_of_int].
    destruct (uint_text_shape p) as (c & r & El & Hc & Hw & Hv & E).
    rewrite E, El, (trim_unpadded _ Hw), (parseInt10_digits c r Hc), Hv.
    reflexivity.
  - cbn [Z.to_int NilZero.string_of_int].
    destruct (uint_text_shape p) as (c & r & El & Hc & Hw & Hv & E).
    rewrite E, lit_String, El. ascii_code.
    rewrite trim_unpadded by (constructor; [reflexivity|exact Hw]).
    rewrite (parseInt10_minus c r Hc), Hv. reflexivity.
Qed.

(** ** The implicit launch command *)

Lemma trimStart_head s c r : trimStart s = c :: r -> isWhiteSpace c = false.
Proof.
  induction s as [|d s IH]; cbn [trimStart]; [discriminate|].
  destruct (isWhiteSpace d) eqn:E; [exact IH|].
  intros [= -> _]. exact E.
Qed.

Lemma trimStart_fixed s : trimStart (trimStart s) = trimStart s.
Proof.
  destruct (trimStart s) as [|c r] eqn:E; [reflexivity|].
  cbn [trimStart]. rewrite (trimStart_head s c r E). reflexivity.
Qed.

Lemma trimStart_suffix s : exists pre, s = pre ++ trimStart s.
Proof.
  induction s as [|d s [pre IH]]; [exists []; reflexivity|].
  cbn [trimStart]. destruct (isWhiteSpace d).
  - exists (d :: pre). cbn. f_equal. exact IH.
  - exists []. reflexivity.
Qed.

Lemma trimStart_In s c : In c (trimStart s) -> In c s.
Proof.
  destruct (trimStart_suffix s) as [pre E]. intros H. rewrite E.
  apply in_or_app. right. exact H.
Qed.

Lemma trim_In s c : In c (trim s) -> In c s.
Proof.
  unfold trim, trimEnd. intros H. apply in_rev in H.
  apply trimStart_In, in_rev, trimStart_In in H. exact H.
Qed.

Lemma trim_fixed s : trim (trim s) = trim s.
Proof.
  unfold trim, trimEnd.
  set (t := trimStart s). set (u := trimStart (rev t)).
  assert (Hu : trimStart (rev u) = rev u).
  { destruct (rev u) as [|c r] eqn:E; [reflexivity|].
    destruct (trimStart_suffix (rev t)) as [pre Hpre]. fold u in Hpre.
    assert (Ht : t = (c :: r) ++ rev pre).
    { rewrite <- (rev_involutive t), Hpre, rev_app_distr, E. reflexivity. }
    cbn [trimStart].
    rewrite (trimStart_head s c (r ++ rev pre)); [reflexivity|].
    fold t. exact Ht. }
  rewrite Hu, rev_involutive. unfold u. rewrite trimStart_fixed. reflexivity.
Qed.

Lemma splitOn_clean isSep cur s x :
  Forall (fun c => isSep c = false) cur ->
  In x (splitOn isSep cur s) -> Forall (fun c => isSep c = false) x.
Proof.
  revert cur. induction s as [|c s IH]; intros cur Hcur; cbn [splitOn].
  - intros [<-|[]]. apply List.Forall_forall. intros c Hc. apply in_rev in Hc.
    revert c Hc. apply List.Forall_forall. exact Hcur.
  - destruct (isSep c) eqn:E.
    + intros [<-|H].
      * apply List.Forall_forall. intros d Hd. apply in_rev in Hd.
        revert d Hd. apply List.Forall_forall. exact Hcur.
      * apply (IH []); [constructor|exact H].
    + apply IH. constructor; assumption.
Qed.

Lemma splitList_clean isSep s x :
  In x (splitList isSep s) ->
  x <> [] /\ trim x = x /\ Forall (fun c => isSep c = false) x.
Proof.
  unfold splitList. intros H. apply list_elem_of_In, list_elem_of_filter in H.
  destruct H as [Hne H]. apply list_elem_of_In, in_map_iff in H.
  destruct H as (y & <- & Hy). split; [|split].
  - intros E. rewrite E in Hne. discriminate Hne.
  - apply trim_fixed.
  - apply List.Forall_forall. intros c Hc. apply trim_In in Hc.
    revert c Hc. apply List.Forall_forall.
    apply (splitOn_clean isSep [] s); [constructor|exact Hy].
Qed.

(** X18. The lists of the implicit launch command are clean: an
    extension path or an extra argument taken from the environment is
    never empty, never padded with white space and never contains a
    separator (a comma; for the arguments also a line feed). *)
Theorem autoLaunch_lists_clean x :
  (forall l, extensions autoLaunch = Some l -> In x l ->
     x <> [] /\ trim x = x /\ ~ In 44 x) /\
  (forall l, args autoLaunch = Some l -> In x l ->
     x <> [] /\ trim x = x /\ ~ In 44 x /\ ~ In 10 x).
Proof.
  unfold autoLaunch; cbn [extensions args]. split; intros l Hl Hin.
  - destruct (env (lit "AGENT_BROWSER_EXTENSIONS")) as [[|c v]|];
      try discriminate Hl. injection Hl as <-.
    apply splitList_clean in Hin as (Hne & Ht & Hs).
    repeat split; try assumption.
    intros H44. rewrite List.Forall_forall in Hs. specialize (Hs 44 H44).
    discriminate Hs.
  - destruct (env (lit "AGENT_BROWSER_ARGS")) as [[|c v]|];
      try discriminate Hl. injection Hl as <-.
    apply splitList_clean in Hin as (Hne & Ht & Hs).
    rewrite List.Forall_forall in Hs.
    repeat split; try assumption.
    + intros H44. specialize (Hs 44 H44). discriminate Hs.
    + intros H10. specialize (Hs 10 H10). discriminate Hs.
Qed.

(* ================================================================= *)
(** * Further properties of the stream server *)
(* ================================================================= *)

(** ** The capture pipeline *)

Lemma startScreencast_running (s : StreamServer) (b : browser) :
  isScreencasting s = true -> startScreencast (s, b) = (Normal tt, (s, b), []).
Proof. destruct s as [srv pt cast cnt]. cbn. intros ->. reflexivity. Qed.

Lemma startScreencast_not_launched (s : StreamServer) (b : browser) :
  isScreencasting s = false -> isLaunched b = false ->
  startScreencast (s, b) = (Throw (lit "Browser not launched"), (s, b), []).
Proof.
  destruct s as [srv pt cast cnt]. cbn. intros -> Hl.
  run_stream. rewrite Hl. reflexivity.
Qed.

Lemma startScreencast_fails (s : StreamServer) (b b' : browser) e :
  isScreencasting s = false -> isLaunched b = true ->
  browserStartScreencast b = (Throw e, b') ->
  startScreencast (s, b) = (Throw e, (s, b'), [Engine CallStartScreencast]).
Proof.
  destruct s as [srv pt cast cnt]. cbn. intros -> Hl Hs.
  run_stream. rewrite Hl. cbn. rewrite Hs. reflexivity.
Qed.

Lemma startScreencast_starts (s : StreamServer) (b b' : browser) :
  isScreencasting s = false -> isLaunched b = true ->
  browserStartScreencast b = (Normal tt, b') ->
  startScreencast (s, b)
  = (Normal tt, (mkStreamServer (server s) (port s) true (clientCount s), b'),
     Engine CallStartScreencast :: published (server s) (statusOf true b')).
Proof.
  destruct s as [srv pt cast cnt]. cbn. intros -> Hl Hs.
  run_stream. rewrite Hl. cbn. rewrite Hs. cbn.
  unfold published, statusOf.
  destruct srv; cbn; [destruct (viewportSize b')|]; try reflexivity.
  destruct (viewportSize b'); reflexivity.
Qed.

Lemma published_calls srv m : List.filter isEngineCall (published srv m) = [].
Proof. destruct m; [destruct srv|]; reflexivity. Qed.

(** X19. [startScreencast]: while capture runs it does nothing at all.
    Otherwise the capturing flag it leaves tells whether the start
    succeeded (set exactly when it completed normally, rolled back when
    it threw); the engine is asked to start exactly once when the browser
    is launched, and not at all when it is not. The other fields of the
    server are never touched. *)
Theorem startScreencast_flag (st : StreamState) :
  let st' := final startScreencast st in
  let calls := List.filter isEngineCall (trace startScreencast st) in
  (isScreencasting (fst st) = true -> startScreencast st = (Normal tt, st, [])) /\
  (isScreencasting (fst st) = false ->
   (result startScreencast st = Normal tt <-> isScreencasting (fst st') = true) /\
   (isLaunched (snd st) = false -> calls = [] /\ snd st' = snd st) /\
   (isLaunched (snd st) = true -> calls = [Engine CallStartScreencast])) /\
  server (fst st') = server (fst st) /\
  port (fst st') = port (fst st) /\
  clientCount (fst st') = clientCount (fst st).
Proof.
  destruct st as [s b]. cbv zeta. cbn [fst snd].
  destruct (isScreencasting s) eqn:Hc.
  - unfold final, result, trace.
    rewrite (startScreencast_running s b Hc). cbn.
    repeat split; try reflexivity; discriminate.
  - destruct (isLaunched b) eqn:Hl.
    + destruct (browserStartScreencast b) as [[[]|e] b'] eqn:Hs.
      * unfold final, result, trace.
        rewrite (startScreencast_starts s b b' Hc Hl Hs).
        cbn [fst snd List.filter isEngineCall server port isScreencasting clientCount].
        rewrite published_calls.
        repeat split; try reflexivity; discriminate.
      * unfold final, result, trace.
        rewrite (startScreencast_fails s b b' e Hc Hl Hs).
        cbn [fst snd List.filter isEngineCall].
        repeat split; try reflexivity; try discriminate.
        rewrite Hc. discriminate.
    + unfold final, result, trace.
      rewrite (startScreencast_not_launched s b Hc Hl).
      cbn [fst snd List.filter].
      repeat split; try reflexivity; try discriminate.
      rewrite Hc. discriminate.
Qed.

(** X20. [stop], called while the viewers [open] are connected. When it
    completes, the server is unbound, capture is off, frames and status
    changes are no longer published, and stopping again only clears the
    frame callback once more. The client count of a server that was
    bound is then not 0 but minus the number of viewers: it is reset
    before the listener closes them, and the [close] callback of each
    (two unsubscribes, last in the trace) decrements it. [stop] throws
    only when the engine fails to stop a running capture, and then it
    has done nothing else: the server's fields are as before (the port
    is still bound, the viewers stay connected). *)
Theorem stop_outcome open (st : StreamState) :
  let st' := final (stop open) st in
  match result (stop open) st with
  | Normal _ =>
      server (fst st') = false /\
      isScreencasting (fst st') = false /\
      clientCount (fst st')
        = (if server (fst st) then - Z.of_nat (length open)
           else clientCount (fst st)) /\
      (exists l, trace (stop open) st
                 = l ++ SetScreencastFrameCallback false
                     :: (if server (fst st) then StreamStop :: closings open
                         else [])) /\
      (forall data metadata,
         broadcastFrame data metadata st' = (Normal tt, st', [])) /\
      broadcastStatus st' = (Normal tt, st', []) /\
      (forall open',
         stop open' st' = (Normal tt, st', [SetScreencastFrameCallback false]))
  | Throw _ =>
      isScreencasting (fst st) = true /\
      fst st' = fst st /\
      trace (stop open) st = [Engine CallStopScreencast]
  end.
Proof.
  destruct st as [s b]. cbv zeta. unfold result, final, trace.
  rewrite stop_run. cbv zeta.
  assert (Hquiet : forall b0,
    let st' := (stoppedServer open s, b0) in
    (forall data metadata,
       broadcastFrame data metadata st' = (Normal tt, st', [])) /\
    broadcastStatus st' = (Normal tt, st', []) /\
    (forall open',
       stop open' st' = (Normal tt, st', [SetScreencastFrameCallback false]))).
  { intros b0. cbv zeta.
    assert (Hsrv : server (stoppedServer open s) = false)
      by (unfold stoppedServer; destruct (server s); reflexivity).
    assert (Hc : isScreencasting (stoppedServer open s) = false)
      by (unfold stoppedServer; destruct (server s); reflexivity).
    split; [|split].
    - intros data metadata.
      unfold broadcastFrame, when, bind, gets, ret. cbn [fst snd].
      rewrite Hsrv. reflexivity.
    - unfold broadcastStatus, bind, gets, ret. cbn [fst snd].
      rewrite Hsrv. reflexivity.
    - intros open'. rewrite stop_run. cbv zeta. rewrite Hc, Hsrv.
      unfold stoppedServer. destruct (server s); reflexivity. }
  destruct (isScreencasting s) eqn:Hc.
  - destruct (browserStopScreencast b) as [[[]|e] b'] eqn:Hs; cbn [fst snd].
    + split; [unfold stoppedServer; destruct (server s); reflexivity|].
      split; [unfold stoppedServer; destruct (server s); reflexivity|].
      split; [unfold stoppedServer; destruct (server s); reflexivity|].
      split; [|apply Hquiet].
      exists (Engine CallStopScreencast :: published (server s) (statusOf false b')).
      reflexivity.
    + repeat split. exact Hc.
  - cbn [fst snd].
    split; [unfold stoppedServer; destruct (server s); reflexivity|].
    split; [unfold stoppedServer; destruct (server s); reflexivity|].
    split; [unfold stoppedServer; destruct (server s); reflexivity|].
    split; [|apply Hquiet].
    exists []. reflexivity.
Qed.

(** ** Viewers, for any engine *)

Lemma handleOpen_step ws (st : StreamState) :
  result (handleOpen ws) st = Normal tt /\
  clientCount (fst (final (handleOpen ws) st)) = clientCount (fst st) + 1 /\
  server (fst (final (handleOpen ws) st)) = server (fst st) /\
  port (fst (final (handleOpen ws) st)) = port (fst st).
Proof.
  destruct st as [s b]. unfold result, final. cbn [fst snd].
  destruct (Z.eq_dec (clientCount s) 0) as [Hz|Hnz].
  - destruct (isScreencasting s) eqn:Hc.
    + rewrite (handleOpen_not_first ws s b (or_intror Hc)). cbn. auto.
    + destruct (isLaunched b) eqn:Hl.
      * destruct (browserStartScreencast b) as [[[]|e] b'] eqn:Hs.
        -- rewrite (handleOpen_first_started ws s b b' Hz Hc Hl Hs). cbn.
           rewrite Hz. auto.
        -- rewrite (handleOpen_first_start_fails ws s b b' e Hz Hc Hl Hs). cbn.
           rewrite Hz. auto.
      * rewrite (handleOpen_first_not_launched ws s b Hz Hc Hl). cbn.
        rewrite Hz. auto.
  - rewrite (handleOpen_not_first ws s b (or_introl Hnz)). cbn. auto.
Qed.

Lemma handleClose_step ws (st : StreamState) :
  result (handleClose ws) st = Normal tt /\
  clientCount (fst (final (handleClose ws) st)) = clientCount (fst st) - 1 /\
  server (fst (final (handleClose ws) st)) = server (fst st) /\
  port (fst (final (handleClose ws) st)) = port (fst st).
Proof.
  destruct st as [s b]. unfold result, final. cbn [fst snd].
  destruct (Z.eq_dec (clientCount s) 1) as [Hone|Hmore].
  - destruct (isScreencasting s) eqn:Hc.
    + destruct (browserStopScreencast b) as [[[]|e] b'] eqn:Hs.
      * rewrite (handleClose_last ws s b b' Hone Hc Hs). cbn. rewrite Hone. auto.
      * rewrite (handleClose_last_fails ws s b b' e Hone Hc Hs). cbn.
        rewrite Hone. auto.
    + rewrite (handleClose_last_idle ws s b Hc). cbn. auto.
  - rewrite (handleClose_others_remain ws s b Hmore). cbn. auto.
Qed.

(** ** Viewers, with the engine answering at any time *)

Ltac run_async :=
  unfold handleOpen_begin, handleClose_begin, resume, startScreencast_begin,
    startScreencast_resume, stopScreencast_begin, stopScreencast_resume,
    callBrowserAsync, liftC;
  run_stream.

Lemma handleOpen_split ws (st : StreamState) :
  handleOpen ws st =
  (let! call := handleOpen_begin ws in
   match call with Some c => resume c | None => ret tt end) st.
Proof.
  destruct st as [[srv pt cast cnt] b]. run_async.
  destruct (viewportSize b) as [vp|e0]; cbn;
    (destruct (cnt + 1 =? 1); cbn; [|reflexivity]);
    (destruct cast; cbn; [reflexivity|]);
    (destruct (isLaunched b); cbn; [|reflexivity]);
    (destruct (browserStartScreencast b) as [[[]|e] b']; cbn; [|reflexivity]);
    destruct srv; cbn; try reflexivity;
    destruct (viewportSize b'); reflexivity.
Qed.

Lemma handleClose_split ws (st : StreamState) :
  handleClose ws st =
  (let! call := handleClose_begin ws in
   match call with Some c => resume c | None => ret tt end) st.
Proof.
  destruct st as [[srv pt cast cnt] b]. run_async.
  destruct (cnt - 1 =? 0); cbn; [|reflexivity].
  destruct cast; cbn; [|reflexivity].
  destruct (browserStopScreencast b) as [[[]|e] b']; cbn; [|reflexivity].
  destruct srv; cbn; try reflexivity.
  destruct (viewportSize b'); reflexivity.
Qed.

(** The [open] callback itself, case by case. *)
Lemma handleOpen_begin_run ws (s : StreamServer) (b : browser) :
  handleOpen_begin ws (s, b) =
  let l := [WsSubscribe ws screencast; WsSubscribe ws status]
           ++ sent ws (statusOf (isScreencasting s) b) in
  if (clientCount s + 1 =? 1) && negb (isScreencasting s) then
    if isLaunched b then
      (Normal (Some (Starting ws (fst (browserStartScreencast b)))),
       (mkStreamServer (server s) (port s) true (clientCount s + 1),
        snd (browserStartScreencast b)),
       l ++ [Engine CallStartScreencast])
    else
      (Normal None,
       (mkStreamServer (server s) (port s) false (clientCount s + 1), b),
       l ++ [WsSend ws (ErrorMessage (lit "Browser not launched"))])
  else
    (Normal None,
     (mkStreamServer (server s) (port s) (isScreencasting s) (clientCount s + 1), b),
     l).
Proof.
  destruct s as [srv pt cast cnt]. cbv zeta. run_async.
  unfold sent, statusOf.
  destruct (viewportSize b) as [vp|e0]; cbn;
    (destruct (cnt + 1 =? 1); cbn; [|reflexivity]);
    (destruct cast; cbn; [reflexivity|]);
    (destruct (isLaunched b); cbn; [|reflexivity]);
    destruct (browserStartScreencast b) as [[[]|e] b']; reflexivity.
Qed.

(** The [close] callback itself, case by case. *)
Lemma handleClose_begin_run ws (s : StreamServer) (b : browser) :
  handleClose_begin ws (s, b) =
  let l := [WsUnsubscribe ws screencast; WsUnsubscribe ws status] in
  if (clientCount s - 1 =? 0) && isScreencasting s then
    (Normal (Some (Stopping (fst (browserStopScreencast b)))),
     (mkStreamServer (server s) (port s) true (clientCount s - 1),
      snd (browserStopScreencast b)),
     l ++ [Engine CallStopScreencast])
  else
    (Normal None,
     (mkStreamServer (server s) (port s) (isScreencasting s) (clientCount s - 1), b),
     l).
Proof.
  destruct s as [srv pt cast cnt]. cbv zeta. run_async.
  destruct (cnt - 1 =? 0); cbn; [|reflexivity].
  destruct cast; cbn; [|reflexivity].
  destruct (browserStopScreencast b) as [[[]|e] b']; reflexivity.
Qed.

(** The continuation of a call, case by case. *)
Lemma resume_run call (s : StreamServer) (b : browser) :
  resume call (s, b) =
  match call with
  | Starting ws (Normal _) =>
      (Normal tt, (s, b), published (server s) (statusOf (isScreencasting s) b))
  | Starting ws (Throw e) =>
      (Normal tt,
       (mkStreamServer (server s) (port s) false (clientCount s), b),
       [WsSend ws (ErrorMessage e)])
  | Stopping (Normal _) =>
      (Normal tt,
       (mkStreamServer (server s) (port s) false (clientCount s), b),
       published (server s) (statusOf false b))
  | Stopping (Throw e) => (Normal tt, (s, b), [])
  end.
Proof.
  destruct s as [srv pt cast cnt].
  destruct call as [ws [[]|e]|[[]|e]]; run_async; unfold published, statusOf;
    try reflexivity;
    destruct srv; cbn; try reflexivity; destruct (viewportSize b); reflexivity.
Qed.

Lemma runViewers_cons e evs v :
  runViewers (e :: evs) v = runViewers evs (viewerStep e v).
Proof. reflexivity. Qed.

(** What every event leaves alone, and what it does to the count. *)
Lemma viewerStep_count e (st : StreamState) calls :
  let st' := fst (viewerStep e (st, calls)) in
  clientCount (fst st') = clientCount (fst st) + viewerDelta e /\
  server (fst st') = server (fst st) /\
  port (fst st') = port (fst st).
Proof.
  destruct st as [s b]. cbv zeta. destruct e as [ws|ws|k]; cbn [viewerStep viewerDelta].
  - unfold final, result. rewrite handleOpen_begin_run. cbv zeta.
    destruct (_ && _); [destruct (isLaunched b)|];
      cbn [fst snd clientCount server port]; repeat split; lia.
  - unfold final, result. rewrite handleClose_begin_run. cbv zeta.
    destruct (_ && _);
      cbn [fst snd clientCount server port]; repeat split; lia.
  - destruct (calls !! k) as [call|]; cbn [fst snd]; [|repeat split; lia].
    unfold final. rewrite resume_run.
    destruct call as [ws [[]|e]|[[]|e]]; cbn [fst snd clientCount server port];
      repeat split; lia.
Qed.

Lemma callbacks_never_throw ws call (st : StreamState) :
  result (handleOpen ws) st = Normal tt /\
  result (handleClose ws) st = Normal tt /\
  (exists c, result (handleOpen_begin ws) st = Normal c) /\
  (exists c, result (handleClose_begin ws) st = Normal c) /\
  result (resume call) st = Normal tt.
Proof.
  destruct st as [s b].
  split; [apply handleOpen_step|]. split; [apply handleClose_step|].
  unfold result. rewrite handleOpen_begin_run, handleClose_begin_run, resume_run.
  cbv zeta. split; [|split].
  - destruct (_ && _); [destruct (isLaunched b)|]; eexists; reflexivity.
  - destruct (_ && _); eexists; reflexivity.
  - destruct call as [w [[]|e]|[[]|e]]; reflexivity.
Qed.

(** X21. The callbacks for viewers never throw, whatever the engine
    does and whenever it answers, and through any sequence of connects,
    disconnects and answers of the engine, in any order, the client
    count is the number of connects minus the number of disconnects; the
    listener and its port are never touched. *)
Theorem viewer_count_tracks evs ws call (st : StreamState) calls :
  let st' := fst (runViewers evs (st, calls)) in
  result (handleOpen ws) st = Normal tt /\
  result (handleClose ws) st = Normal tt /\
  (exists c, result (handleOpen_begin ws) st = Normal c) /\
  (exists c, result (handleClose_begin ws) st = Normal c) /\
  result (resume call) st = Normal tt /\
  clientCount (fst st') = clientCount (fst st) + netViewers evs /\
  server (fst st') = server (fst st) /\
  port (fst st') = port (fst st).
Proof.
  cbv zeta.
  destruct (callbacks_never_throw ws call st) as (H1 & H2 & H3 & H4 & H5).
  do 5 (split; [assumption|]). clear.
  revert st calls. induction evs as [|e evs IH]; intros st calls.
  - cbn [runViewers fold_left netViewers fold_right fst]. repeat split. lia.
  - rewrite runViewers_cons.
    pose proof (viewerStep_count e st calls) as Hstep. cbv zeta in Hstep.
    destruct (viewerStep e (st, calls)) as [st1 calls1]. cbn [fst] in Hstep.
    destruct Hstep as (G1 & G2 & G3).
    destruct (IH st1 calls1) as (K1 & K2 & K3).
    rewrite K1, K2, K3, G1, G2, G3.
    cbn [netViewers fold_right]. fold (netViewers evs).
    repeat split. lia.
Qed.

(** While nothing is captured, an event that is not the connect of a
    first viewer leaves capture off and the engine alone. *)
Lemma viewerStep_idle e (st : StreamState) calls :
  isScreencasting (fst st) = false ->
  noFirstViewer (clientCount (fst st)) [e] = true ->
  let v := viewerStep e (st, calls) in
  isScreencasting (fst (fst v)) = false /\ snd (fst v) = snd st.
Proof.
  destruct st as [s b]. cbn [fst snd]. intros Hc Hn. cbv zeta.
  destruct e as [ws|ws|k]; cbn [viewerStep noFirstViewer] in *.
  - rewrite andb_true_r in Hn. apply negb_true_iff, Z.eqb_neq in Hn.
    unfold final, result. rewrite handleOpen_begin_run. cbv zeta.
    destruct (Z.eqb_spec (clientCount s + 1) 1) as [Heq|_]; [lia|].
    cbn [andb fst snd isScreencasting]. auto.
  - unfold final, result. rewrite handleClose_begin_run. cbv zeta.
    rewrite Hc, andb_false_r. cbn [fst snd isScreencasting]. auto.
  - destruct (calls !! k) as [call|]; cbn [fst snd]; [|auto].
    unfold final. rewrite resume_run.
    destruct call as [ws [[]|e]|[[]|e]]; cbn [fst snd isScreencasting]; auto.
Qed.

Lemma runViewers_idle evs (st : StreamState) calls :
  isScreencasting (fst st) = false ->
  noFirstViewer (clientCount (fst st)) evs = true ->
  isScreencasting (fst (fst (runViewers evs (st, calls)))) = false /\
  snd (fst (runViewers evs (st, calls))) = snd st.
Proof.
  revert st calls. induction evs as [|e evs IH]; intros st calls Hc Hn.
  - split; [exact Hc|reflexivity].
  - rewrite runViewers_cons.
    assert (Hn1 : noFirstViewer (clientCount (fst st)) [e] = true /\
                  noFirstViewer (clientCount (fst st) + viewerDelta e) evs = true).
    { destruct e; cbn [noFirstViewer viewerDelta] in *.
      - apply andb_true_iff in Hn as [-> Hn]. split; [reflexivity|exact Hn].
      - split; [reflexivity|exact Hn].
      - rewrite Z.add_0_r. split; [reflexivity|exact Hn]. }
    destruct Hn1 as [Hn1 Hn2].
    pose proof (viewerStep_idle e st calls Hc Hn1) as Hstep. cbv zeta in Hstep.
    pose proof (viewerStep_count e st calls) as Hcount. cbv zeta in Hcount.
    destruct (viewerStep e (st, calls)) as [st1 calls1]. cbn [fst snd] in *.
    destruct Hstep as [Hc1 Hb1]. destruct Hcount as [Hk _].
    rewrite <- Hk in Hn2.
    destruct (IH st1 calls1 Hc1 Hn2) as [K1 K2].
    split; [exact K1|]. rewrite K2. exact Hb1.
Qed.

(** X22. While nothing is captured, only a viewer that finds the server
    without viewers can start the capture: through any sequence of
    connects, disconnects and answers of the engine in which no viewer
    connects at count 0, whatever calls are still to be answered, the
    capture stays off and the engine is not called. In particular the
    viewers that join a first viewer whose start failed (browser not
    launched yet) do not start it either. *)
Theorem capture_starts_only_at_first_viewer evs (st : StreamState) calls :
  isScreencasting (fst st) = false ->
  noFirstViewer (clientCount (fst st)) evs = true ->
  isScreencasting (fst (fst (runViewers evs (st, calls)))) = false /\
  snd (fst (runViewers evs (st, calls))) = snd st.
Proof. apply runViewers_idle. Qed.

(** A callback whose call is answered before the next callback. *)
Lemma viewerStep_prompt e (st : StreamState) :
  viewerStep (Settled 0) (viewerStep e (st, [])) =
  (match e with
   | Connect ws => final (handleOpen ws) st
   | Disconnect ws => final (handleClose ws) st
   | Settled _ => st
   end, []).
Proof.
  destruct e as [ws|ws|k]; cbn [viewerStep app].
  - unfold final, result. rewrite handleOpen_split. unfold bind.
    destruct (handleOpen_begin ws st) as [[[[call|]|e] st1] l1];
      cbn [fst snd left_behind lookup list_lookup]; try reflexivity.
    destruct (resume call st1) as [[r st2] l2]. reflexivity.
  - unfold final, result. rewrite handleClose_split. unfold bind.
    destruct (handleClose_begin ws st) as [[[[call|]|e] st1] l1];
      cbn [fst snd left_behind lookup list_lookup]; try reflexivity.
    destruct (resume call st1) as [[r st2] l2]. reflexivity.
  - destruct k; reflexivity.
Qed.

Lemma runViewers_promptly_cons e evs (st : StreamState) :
  runViewers (promptly (e :: evs)) (st, []) =
  runViewers (promptly evs)
    (match e with
     | Connect ws => final (handleOpen ws) st
     | Disconnect ws => final (handleClose ws) st
     | Settled _ => st
     end, []).
Proof.
  unfold promptly. cbn [flat_map app].
  rewrite !runViewers_cons, viewerStep_prompt. reflexivity.
Qed.

(** With every call answered at once, a sequence of events is the
    sequence of the callbacks taken with their continuations, and the
    answers count for nothing in what the statements below look at. *)
Lemma runViewers_promptly evs (st : StreamState) :
  runViewers (promptly evs) (st, []) =
  (fold_left
     (fun st e =>
        match e with
        | Connect ws => final (handleOpen ws) st
        | Disconnect ws => final (handleClose ws) st
        | Settled _ => st
        end) evs st, []).
Proof.
  revert st. induction evs as [|e evs IH]; intros st; [reflexivity|].
  rewrite runViewers_promptly_cons, IH. reflexivity.
Qed.

Lemma netViewers_promptly evs : netViewers (promptly evs) = netViewers evs.
Proof.
  induction evs as [|e evs IH]; [reflexivity|].
  unfold promptly in *. cbn [flat_map app netViewers fold_right viewerDelta] in *.
  fold (netViewers (flat_map (fun e => [e; Settled 0%nat]) evs)).
  fold (netViewers evs). rewrite IH. lia.
Qed.

Lemma noFirstViewer_promptly count evs :
  noFirstViewer count (promptly evs) = noFirstViewer count evs.
Proof.
  revert count. induction evs as [|e evs IH]; intros count; [reflexivity|].
  unfold promptly in *. cbn [flat_map app].
  destruct e; cbn [noFirstViewer]; rewrite IH; reflexivity.
Qed.

(** X24. With a launched, steady engine that answers every call before
    the next viewer event, the capturing flag follows the number of
    viewers through any sequence of connects and disconnects: it is set
    exactly while at least one viewer is connected, and no call is left
    unanswered. *)
Lemma capture_follows_viewers evs (st : StreamState) :
  steadyEngine -> captureInv st ->
  balanced (clientCount (fst st)) evs = true ->
  captureInv (fst (runViewers (promptly evs) (st, []))) /\
  snd (runViewers (promptly evs) (st, [])) = [].
Proof.
  intros Hsteady. revert st.
  induction evs as [|[ws|ws|k] evs IH]; intros [s b] Hinv Hbal;
    [split; [exact Hinv|reflexivity]| | |];
    rewrite runViewers_promptly_cons;
    destruct Hinv as (Hpos & Hl & Hflag); cbn [fst snd] in *;
    cbn [balanced] in *.
  - destruct (Z.eq_dec (clientCount s) 0) as [Hz|Hnz].
    + rewrite Hz in Hflag. cbn in Hflag.
      destruct (proj1 (Hsteady b Hl)) as (b' & Hstart & Hl').
      unfold final.
      rewrite (handleOpen_first_started ws s b b' Hz Hflag Hl Hstart).
      cbn [fst snd]. apply IH.
      * repeat split; cbn; [lia|exact Hl'].
      * cbn. rewrite Hz in Hbal. exact Hbal.
    + unfold final. rewrite (handleOpen_not_first ws s b (or_introl Hnz)).
      cbn [fst snd]. apply IH.
      * unfold captureInv; cbn. rewrite Hflag. repeat split; [lia|exact Hl|].
        destruct (Z.ltb_spec 0 (clientCount s)), (Z.ltb_spec 0 (clientCount s + 1));
          try reflexivity; lia.
      * cbn. exact Hbal.
  - apply andb_true_iff in Hbal as [Hcount Hbal].
    apply Z.ltb_lt in Hcount.
    destruct (Z.eq_dec (clientCount s) 1) as [Hone|Hmore].
    + rewrite Hone in Hflag. cbn in Hflag.
      destruct (proj2 (Hsteady b Hl)) as (b' & Hstop & Hl').
      unfold final. rewrite (handleClose_last ws s b b' Hone Hflag Hstop).
      cbn [fst snd]. apply IH.
      * repeat split; cbn; [lia|exact Hl'].
      * cbn. rewrite Hone in Hbal. exact Hbal.
    + unfold final. rewrite (handleClose_others_remain ws s b Hmore).
      cbn [fst snd]. apply IH.
      * unfold captureInv; cbn. rewrite Hflag. repeat split; [lia|exact Hl|].
        destruct (Z.ltb_spec 0 (clientCount s)), (Z.ltb_spec 0 (clientCount s - 1));
          try reflexivity; lia.
      * cbn. exact Hbal.
  - apply IH; [repeat split; assumption|exact Hbal].
Qed.

(** X30. Capture is lost when the last viewer is replaced quickly. With a
    launched, steady engine and one viewer watching, if that viewer
    leaves and another connects before the engine has answered the stop,
    the new viewer starts nothing (the flag is still set), and the
    answer to the stop then clears the flag: one viewer is connected and
    nothing is captured, no call is pending, and the viewers that join
    later do not start the capture either. *)
Theorem capture_lost_on_quick_reconnect w w' evs (st : StreamState) :
  steadyEngine -> captureInv st -> clientCount (fst st) = 1 ->
  noFirstViewer 1 evs = true ->
  let v := runViewers [Disconnect w; Connect w'; Settled 0] (st, []) in
  snd v = [] /\
  clientCount (fst (fst v)) = 1 /\
  isScreencasting (fst (fst v)) = false /\
  isLaunched (snd (fst v)) = true /\
  ~ captureInv (fst v) /\
  isScreencasting (fst (fst (runViewers evs v))) = false.
Proof.
  intros Hsteady Hinv Hone Hevs. destruct st as [s b].
  destruct Hinv as (Hpos & Hl & Hflag). cbn [fst snd] in *.
  rewrite Hone in Hflag. cbn in Hflag.
  destruct (proj2 (Hsteady b Hl)) as (b' & Hstop & Hl').
  assert (Hrun : runViewers [Disconnect w; Connect w'; Settled 0] ((s, b), [])
                 = ((mkStreamServer (server s) (port s) false 1, b'), [])).
  { unfold runViewers. cbn [fold_left viewerStep].
    unfold final, result. rewrite handleClose_begin_run. cbv zeta.
    rewrite Hone, Hflag, Hstop. change (1 - 1 =? 0) with true.
    cbn [andb fst snd app left_behind].
    rewrite handleOpen_begin_run. cbv zeta.
    cbn [clientCount isScreencasting server port negb andb fst snd].
    rewrite andb_false_r. cbn [fst snd app left_behind].
    change ([Stopping (Normal ())] !! 0%nat) with (Some (Stopping (Normal tt))).
    cbn iota. rewrite resume_run.
    cbn [fst snd clientCount isScreencasting server port delete].
    reflexivity. }
  cbv zeta. rewrite Hrun. cbn [fst snd clientCount isScreencasting].
  split; [reflexivity|]. split; [reflexivity|]. split; [reflexivity|].
  split; [exact Hl'|]. split.
  - intros (_ & _ & Hbad). cbn in Hbad. discriminate.
  - apply runViewers_idle; [reflexivity|exact Hevs].
Qed.

(** ** Messages from viewers, in general *)

Lemma sendStatus_run ws (s : StreamServer) (b : browser) :
  sendStatus ws (s, b)
  = (Normal tt, (s, b), sent ws (statusOf (isScreencasting s) b)).
Proof.
  unfold sendStatus, statusMessage, bind, emit, ret, sent, statusOf. cbn [fst snd].
  destruct (viewportSize b); reflexivity.
Qed.

Lemma dispatchMessage_shape ws message (st : StreamState) :
  fst (final (dispatchMessage ws message) st) = fst st /\
  match result (dispatchMessage ws message) st with
  | Normal _ =>
      trace (dispatchMessage ws message) st = [] \/
      (exists m, trace (dispatchMessage ws message) st = [WsSend ws m]) \/
      (exists c, trace (dispatchMessage ws message) st = [Engine c])
  | Throw _ =>
      trace (dispatchMessage ws message) st = [] \/
      (exists c, trace (dispatchMessage ws message) st = [Engine c])
  end.
Proof.
  destruct st as [s b]. unfold result, final, trace.
  unfold dispatchMessage, bind, liftC.
  destruct (messageType message) as [ty|e0]; cbn [fst snd]; [|auto].
  repeat match goal with
  | |- context [if isType ?t ?n then _ else _] => destruct (isType t n)
  end; cbv beta iota.
  1-3: unfold callBrowser;
    match goal with
    | |- context [let '(_, _) := ?f ?p ?x in _] =>
        destruct (f p x) as [[[]|e1] b1]; cbn; eauto 6
    end.
  - rewrite sendStatus_run. cbn [fst snd app].
    split; [reflexivity|]. destruct (statusOf _ _); cbn; eauto.
  - cbn. auto.
Qed.

Lemma handleMessage_unfold ws data (st : StreamState) :
  handleMessage ws data st =
  match JSON_parse data with
  | Normal message =>
      match dispatchMessage ws message st with
      | (Normal a, s1, l1) => (Normal a, s1, l1)
      | (Throw e, s1, l1) => (Normal tt, s1, l1 ++ [WsSend ws (ErrorMessage e)])
      end
  | Throw e => (Normal tt, st, [WsSend ws (ErrorMessage e)])
  end.
Proof.
  unfold handleMessage, tryCatch, sendError, emit, bind, liftC.
  destruct (JSON_parse data) as [message|e]; [|reflexivity].
  destruct (dispatchMessage ws message st) as [[[a|e] s1] l1]; reflexivity.
Qed.

(** X23. A message from a viewer never makes [handleMessage] throw,
    never changes the server's own fields and causes at most one engine
    call and at most one message, which goes back to the sender; an
    engine call is followed by a message only when it threw. *)
Theorem message_effects ws data (st : StreamState) :
  let l := trace (handleMessage ws data) st in
  result (handleMessage ws data) st = Normal tt /\
  fst (final (handleMessage ws data) st) = fst st /\
  (l = [] \/ (exists m, l = [WsSend ws m]) \/ (exists c, l = [Engine c]) \/
   (exists c e, l = [Engine c; WsSend ws (ErrorMessage e)])).
Proof.
  cbv zeta. unfold result, final, trace. rewrite handleMessage_unfold.
  destruct (JSON_parse data) as [message|e].
  - pose proof (dispatchMessage_shape ws message st) as [Hs Hl].
    unfold result, final, trace in Hs, Hl.
    destruct (dispatchMessage ws message st) as [[[[]|e] st1] l1];
      cbn [fst snd] in *.
    + split; [reflexivity|]. split; [exact Hs|].
      destruct Hl as [->|[[m ->]|[c ->]]]; eauto 6.
    + split; [reflexivity|]. split; [exact Hs|].
      destruct Hl as [->|[c ->]]; cbn; eauto 8.
  - cbn. eauto 8.
Qed.

End Properties.

(* ================================================================= *)
(** * Properties of the start-up *)
(* ================================================================= *)

Section StartupProperties.
Context {HO : Host} {BM : BrowserManager} {PR : Protocol} {AC : Actions BM PR}
        {RT : Runtime BM}.

Lemma bunWriteFile_run path text (d : Daemon) :
  bunWriteFile path text d =
  match bunWrite path text with
  | Normal _ =>
      (Normal tt, set_proc (set_files (fun fs => <[path := text]> fs) (proc d)) d, [])
  | Throw e => (Throw e, d, [])
  end.
Proof.
  unfold bunWriteFile, inProcess, zoom, bind, liftC, modify.
  destruct (bunWrite path text) as [[]|e]; reflexivity.
Qed.

Lemma exitAfterCleanup_run (d : Daemon) :
  currentSession (proc d) ∉ cleaningUp (proc d) ->
  exitAfterCleanup d =
  (Normal tt, set_proc (set_exited (Some 1) (cleaned None (proc d))) d,
   [ProcessExit 1]).
Proof.
  intros Hfree. unfold exitAfterCleanup, inProcess, zoom.
  rewrite (error_listener_run 1 (proc d) Hfree). reflexivity.
Qed.

Lemma listenBlock_run opts (d : Daemon) :
  listenBlock opts d =
  match bunListen opts with
  | Normal _ =>
      (Normal tt,
       mkDaemon
         (match opts with
          | ListenUnix path =>
              set_sockets (fun s => s ∪ {[path]}) (set_listening true (proc d))
          | ListenTcp _ _ => set_listening true (proc d)
          end)
         (umask d) (handlers d ++ allTriggers) true,
       [])
  | Throw e => (Throw e, d, [])
  end.
Proof.
  unfold listenBlock, bunListenOn, processOn, inProcess, zoom, bind, liftC, modify, ret.
  destruct (bunListen opts) as [[]|e]; [|reflexivity].
  destruct d as [p um hs sr]. unfold set_proc, set_handlers, set_stdinResumed.
  cbn [proc umask handlers stdinResumed fst snd app].
  destruct opts; cbn [fst snd proc umask handlers stdinResumed];
    rewrite <- !app_assoc; reflexivity.
Qed.


Lemma prepare_run (d : Daemon) :
  currentSession (proc d) ∉ cleaningUp (proc d) ->
  prepare d =
  match mkdirSync getSocketDir with
  | Normal _ => (Normal tt, set_proc (prepared (proc d)) d, [])
  | Throw e => (Throw e, d, [])
  end.
Proof.
  intros Hfree. unfold prepare, bind at 1, liftC.
  destruct (mkdirSync getSocketDir) as [[]|e]; [|reflexivity].
  unfold bind, inProcess, zoom, modify.
  rewrite (cleanupSocket_run None (proc d) Hfree).
  destruct d; reflexivity.
Qed.

Lemma start_run (s : StreamServer) (b : browser) :
  start (s, b) =
  match bunServe (port s) with
  | Normal _ =>
      (Normal tt,
       (mkStreamServer true (port s) (isScreencasting s) (clientCount s), b),
       [StreamListen (port s); SetScreencastFrameCallback true])
  | Throw e => (Throw e, (s, b), [])
  end.
Proof.
  unfold start, tryCatch, bind, gets, liftC, modify, emit, throw, set_server.
  cbn [fst snd]. destruct (bunServe (port s)) as [[]|e]; reflexivity.
Qed.

Lemma streamBlock_run sp (d : Daemon) :
  streamBlock sp d =
  match sp with
  | Some n =>
      if 0 <? n then
        match bunServe n with
        | Normal _ =>
            match bunWrite (getStreamPortFile (proc d) None) (numberToString n) with
            | Normal _ =>
                (Normal tt,
                 set_proc
                   (set_files
                      (fun fs => <[getStreamPortFile (proc d) None := numberToString n]> fs)
                      (set_streamServer (Some (mkStreamServer true n false 0)) (proc d)))
                   d,
                 [StreamListen n; SetScreencastFrameCallback true])
            | Throw e =>
                (Throw e,
                 set_proc (set_streamServer (Some (mkStreamServer true n false 0)) (proc d)) d,
                 [StreamListen n; SetScreencastFrameCallback true])
            end
        | Throw e =>
            (Throw e,
             set_proc (set_streamServer (Some (mkStreamServer false n false 0)) (proc d)) d,
             [])
        end
      else (Normal tt, d, [])
  | None => (Normal tt, d, [])
  end.
Proof.
  destruct sp as [n|]; [|reflexivity]. unfold streamBlock.
  destruct (0 <? n); [|reflexivity]. unfold when.
  unfold bind at 1. unfold inProcess at 1, zoom, modify.
  unfold bind at 1. unfold inProcess at 1, onStream, zoom.
  rewrite start_run. cbn [port fst snd proc].
  destruct (bunServe n) as [[]|e].
  - unfold bind, gets. rewrite bunWriteFile_run.
    destruct d as [[cs cu fs ss b sd li ex so vw] um hs sr].
    cbn [proc set_proc set_streamServer getStreamPortFile sessionOr currentSession
         theBrowser set_theBrowser cleaningUp files streamServer shuttingDown
         listening exited umask handlers stdinResumed isScreencasting clientCount].
    destruct (bunWrite _ _) as [[]|e]; reflexivity.
  - destruct d as [[cs cu fs ss b sd li ex so vw] um hs sr]. reflexivity.
Qed.

Lemma portBlock_run (d : Daemon) :
  portBlock (listenOptions (proc d)) d =
  if isWindows then
    match bunWrite (getPortFile (proc d) None)
            (numberToString (getPortForSession (currentSession (proc d)))) with
    | Normal _ =>
        (Normal tt,
         set_proc
           (set_files
              (fun fs => <[getPortFile (proc d) None :=
                             numberToString (getPortForSession (currentSession (proc d)))]> fs)
              (proc d)) d, [])
    | Throw e => (Throw e, d, [])
    end
  else (Normal tt, d, []).
Proof.
  unfold portBlock, listenOptions. destruct isWindows; [|reflexivity].
  unfold bind, gets. rewrite bunWriteFile_run.
  destruct (bunWrite _ _) as [[]|e]; reflexivity.
Qed.

Lemma guardedListen_run opts (d : Daemon) :
  currentSession (proc d) ∉ cleaningUp (proc d) ->
  guardedListen opts d =
  match bunListen opts with
  | Normal _ =>
      (Normal tt,
       mkDaemon
         (match opts with
          | ListenUnix path =>
              set_sockets (fun s => s ∪ {[path]}) (set_listening true (proc d))
          | ListenTcp _ _ => set_listening true (proc d)
          end)
         (umask d) (handlers d ++ allTriggers) true,
       [])
  | Throw _ =>
      (Normal tt,
       set_proc (set_exited (Some 1) (cleaned None (proc d))) d,
       [ProcessExit 1])
  end.
Proof.
  intros Hfree. unfold guardedListen.
  destruct isWindows.
  - unfold bind, ret, tryFinally, tryCatch. rewrite listenBlock_run.
    destruct (bunListen opts) as [[]|e].
    + reflexivity.
    + rewrite (exitAfterCleanup_run d Hfree). reflexivity.
  - unfold bind, gets, modify, ret, tryFinally, tryCatch. rewrite listenBlock_run.
    destruct (bunListen opts) as [[]|e].
    + destruct d; reflexivity.
    + rewrite exitAfterCleanup_run by (destruct d; exact Hfree).
      destruct d; reflexivity.
Qed.


Lemma markers_and_listen_cases (d : Daemon) :
  currentSession (proc d) ∉ cleaningUp (proc d) ->
  match (let! pidFile := gets (fun d => getPidFile (proc d) None) in
         bunWriteFile pidFile (numberToString pid) >>
         let! opts := gets (fun d => listenOptions (proc d)) in
         portBlock opts >>
         guardedListen opts) d with
  | (Throw _, d', l) =>
      d' = set_proc (set_files (fun _ => files (proc d')) (proc d)) d /\ l = []
  | (Normal _, d', l) =>
      match bunListen (listenOptions (proc d)) with
      | Normal _ =>
          d' = mkDaemon
                 (set_sockets
                    (fun s => if isWindows then s
                              else s ∪ {[getSocketAddress (proc d) None]})
                    (set_listening true
                       (set_files
                          (fun fs =>
                             let withPid :=
                               <[getPidFile (proc d) None := numberToString pid]> fs in
                             if isWindows
                             then <[getPortFile (proc d) None
                                    := numberToString
                                         (getPortForSession (currentSession (proc d)))]>
                                    withPid
                             else withPid)
                          (proc d))))
                 (umask d) (handlers d ++ allTriggers) true /\
          l = []
      | Throw _ =>
          exists fs,
            d' = set_proc (set_exited (Some 1)
                             (cleaned None (set_files (fun _ => fs) (proc d)))) d /\
            l = [ProcessExit 1]
      end
  end.
Proof.
  intros Hfree.
  unfold bind at 1. unfold gets at 1. unfold bind at 1. rewrite bunWriteFile_run.
  destruct (bunWrite _ _) as [[]|e].
  2:{ split; [destruct d as [[] ? ? ?]; reflexivity|reflexivity]. }
  unfold bind at 1. unfold gets at 1. unfold bind at 1.
  rewrite portBlock_run.
  assert (Hopts : listenOptions
                    (proc (set_proc (set_files (fun fs => <[getPidFile (proc d) None
                             := numberToString pid]> fs) (proc d)) d))
                  = listenOptions (proc d))
    by (destruct d as [[] ? ? ?]; reflexivity).
  rewrite Hopts. unfold listenOptions.
  destruct isWindows eqn:Hw.
  - destruct (bunWrite _ _) as [[]|e].
    2:{ split; [destruct d as [[] ? ? ?]; reflexivity|reflexivity]. }
    rewrite guardedListen_run by (destruct d as [[] ? ? ?]; exact Hfree).
    destruct (bunListen _) as [[]|e].
    + split; [destruct d as [[] ? ? ?]; reflexivity|reflexivity].
    + eexists. split; [destruct d as [[] ? ? ?]; reflexivity|reflexivity].
  - rewrite guardedListen_run by (destruct d as [[] ? ? ?]; exact Hfree).
    destruct (bunListen _) as [[]|e].
    + split; [destruct d as [[] ? ? ?]; reflexivity|reflexivity].
    + eexists. split; [destruct d as [[] ? ? ?]; reflexivity|reflexivity].
Qed.


Ltac finish_start d2 Hfree :=
  let H := fresh "H" in
  let Hfree2 := fresh "Hfree2" in
  assert (Hfree2 : currentSession (proc d2) ∉ cleaningUp (proc d2)) by exact Hfree;
  pose proof (markers_and_listen_cases d2 Hfree2) as H;
  match type of H with
  | match ?run with _ => _ end =>
      change run with run; destruct run as [[[[]|?e] ?d'] ?l]
  end;
  [ change (listenOptions (proc d2)) with (listenOptions (proc d2)) in H;
    unfold listenOptions in *; cbn [proc currentSession] in *;
    destruct (bunListen _) as [[]|?e];
    [ destruct H as [-> ->]; split; reflexivity
    | destruct H as (?fs & -> & ->); eexists; repeat split;
      cbn [In app]; auto 8 ]
  | destruct H as [-> ->]; repeat split ].

Lemma startDaemon_cases options (d : Daemon) :
  currentSession (proc d) ∉ cleaningUp (proc d) ->
  match startDaemon options d with
  | (Throw _, d', _) =>
      currentSession (proc d') = currentSession (proc d) /\
      cleaningUp (proc d') = cleaningUp (proc d) /\
      handlers d' = handlers d /\
      stdinResumed d' = stdinResumed d /\
      listening (proc d') = listening (proc d) /\
      exited (proc d') = exited (proc d) /\
      umask d' = umask d /\
      sockets (proc d') = sockets (proc d)
  | (Normal _, d', l) =>
      match bunListen (listenOptions (proc d)) with
      | Normal _ => d' = started options d /\ l = startedTrace options
      | Throw _ =>
          exists q,
            d' = set_proc (set_exited (Some 1) (cleaned None q)) d /\
            currentSession q = currentSession (proc d) /\
            cleaningUp q = cleaningUp (proc d) /\
            listening q = listening (proc d) /\
            sockets q = sockets (proc d) /\
            In (ProcessExit 1) l
      end
  end.
Proof.
  intros Hfree. unfold startDaemon, startedTrace.
  unfold bind at 1. rewrite (prepare_run d Hfree).
  destruct (mkdirSync getSocketDir) as [[]|e]; [|repeat split].
  unfold bind at 1. rewrite streamBlock_run.
  unfold started, startedFiles, streamingPort.
  destruct (streamPortOf options) as [n|].
  - destruct (0 <? n).
    + destruct (bunServe n) as [[]|e].
      * destruct (bunWrite _ _) as [[]|e].
        -- match goal with
           | |- context [(let! pidFile := _ in _) ?d2] => finish_start d2 Hfree
           end.
        -- destruct d as [[] ? ? ?]; repeat split.
      * destruct d as [[] ? ? ?]; repeat split.
    + match goal with
      | |- context [(let! pidFile := _ in _) ?d2] => finish_start d2 Hfree
      end.
  - match goal with
    | |- context [(let! pidFile := _ in _) ?d2] => finish_start d2 Hfree
    end.
Qed.


Lemma startDaemon_started options (d : Daemon) :
  currentSession (proc d) ∉ cleaningUp (proc d) ->
  result (startDaemon options) d = Normal tt ->
  bunListen (listenOptions (proc d)) = Normal tt ->
  startDaemon options d = (Normal tt, started options d, startedTrace options).
Proof.
  intros Hfree Hres Hl.
  pose proof (startDaemon_cases options d Hfree) as H.
  unfold result in Hres.
  destruct (startDaemon options d) as [[[[]|e] d'] l]; [|discriminate Hres].
  rewrite Hl in H. destruct H as [-> ->]. reflexivity.
Qed.

Lemma markers_distinct (p : Process) :
  NoDup (markerFiles p None) ->
  getPidFile p None <> getStreamPortFile p None /\
  (isWindows = true ->
   getPidFile p None <> getPortFile p None /\
   getStreamPortFile p None <> getPortFile p None).
Proof.
  unfold markerFiles. intros H.
  apply NoDup_cons in H as [H1 H]. apply NoDup_cons in H as [H2 _].
  apply not_elem_of_cons in H1 as [Ha Hb].
  apply not_elem_of_cons in Hb as [Hb _].
  apply not_elem_of_cons in H2 as [Hc _].
  split; [exact Ha|]. intros Hw. rewrite Hw in *. auto.
Qed.

Lemma started_pid_file options (p : Process) :
  NoDup (markerFiles p None) ->
  startedFiles options p !! getPidFile p None = Some (numberToString pid).
Proof.
  intros H. destruct (markers_distinct p H) as (_ & H2).
  unfold startedFiles. cbv zeta. destruct isWindows.
  - destruct (H2 eq_refl) as [H3 _].
    rewrite lookup_insert_ne by (intros E; apply H3; symmetry; exact E).
    apply lookup_insert_eq.
  - apply lookup_insert_eq.
Qed.


Lemma started_port_file options (p : Process) :
  isWindows = true ->
  startedFiles options p !! getPortFile p None
  = Some (numberToString (getPortForSession (currentSession p))).
Proof. intros Hw. unfold startedFiles. rewrite Hw. apply lookup_insert_eq. Qed.

(** X26. A daemon that started is seen as running: the PID file holds
    the decimal text of its process id, which [isDaemonRunning] reads
    back; as the probe of the own process id succeeds, the answer is
    [true] and nothing is cleaned up. *)
Theorem started_daemon_is_detected options (d : Daemon) :
  currentSession (proc d) ∉ cleaningUp (proc d) ->
  NoDup (markerFiles (proc d) None) ->
  kill0 pid = true ->
  result (startDaemon options) d = Normal tt ->
  bunListen (listenOptions (proc d)) = Normal tt ->
  let d' := final (startDaemon options) d in
  files (proc d') !! getPidFile (proc d') None = Some (numberToString pid) /\
  isDaemonRunning None (proc d') = (Normal true, proc d', []).
Proof.
  intros Hfree Hnd Hk Hres Hl. cbv zeta. unfold final.
  rewrite (startDaemon_started options d Hfree Hres Hl). cbn [fst snd].
  assert (Hpid : files (proc (started options d))
                   !! getPidFile (proc (started options d)) None
                 = Some (numberToString pid)).
  { unfold started. cbn [proc files].
    change (getPidFile _ None) with (getPidFile (proc d) None).
    apply started_pid_file. exact Hnd. }
  split; [exact Hpid|].
  unfold isDaemonRunning, bind, gets. cbn [fst snd]. rewrite Hpid.
  unfold tryCatch, bind, probe, ret.
  rewrite parseInt10_numberToString, Hk. reflexivity.
Qed.


(** X28. The daemon listens where its clients look for it: the
    address [getConnectionInfo] computes from the session is the one
    passed to [Bun.listen]. For a Unix socket it is the path
    [getSocketAddress] returns, at which the socket file now exists; for
    TCP the port file holds the port in a form [parseInt] reads back,
    and [getSocketAddress] is its decimal text. *)
Theorem daemon_listens_where_clients_connect options (d : Daemon) :
  currentSession (proc d) ∉ cleaningUp (proc d) ->
  result (startDaemon options) d = Normal tt ->
  bunListen (listenOptions (proc d)) = Normal tt ->
  let d' := final (startDaemon options) d in
  listening (proc d') = true /\
  match getConnectionInfo (proc d') None with
  | ConnUnix path =>
      listenOptions (proc d) = ListenUnix path /\
      getSocketAddress (proc d') None = path /\
      path ∈ sockets (proc d')
  | ConnTcp port =>
      (exists host, listenOptions (proc d) = ListenTcp host port) /\
      getSocketAddress (proc d') None = numberToString port /\
      exists text, files (proc d') !! getPortFile (proc d') None = Some text /\
                   parseInt10 (trim text) = Some port
  end.
Proof.
  intros Hfree Hres Hl. cbv zeta. unfold final.
  rewrite (startDaemon_started options d Hfree Hres Hl). cbn [fst snd].
  split; [reflexivity|].
  pose proof (started_port_file options (proc d)) as Hm.
  unfold getConnectionInfo, listenOptions, started, startedSockets in *.
  cbn [proc files sockets currentSession sessionOr] in *.
  unfold getSocketAddress, getPortFile, sessionOr in *.
  cbn [currentSession] in *.
  destruct isWindows; cbn [fst snd] in *.
  - split; [eexists; reflexivity|]. split; [reflexivity|].
    eexists. split; [exact (Hm eq_refl)|]. apply parseInt10_numberToString.
  - split; [reflexivity|]. split; [reflexivity|].
    apply elem_of_union_r, elem_of_singleton. reflexivity.
Qed.





End StartupProperties.

(* ================================================================= *)
(** * The theorems at work on the sample instances *)
(* ================================================================= *)

Section Instances.
#[local] Existing Instance Sample.host.
#[local] Existing Instance Sample.engine.
#[local] Existing Instance Sample.codec.
#[local] Existing Instance Sample.actions.

(** A browser-style probe to the command socket. *)
Lemma http_request_terminated_witness :
  isHttpRequestLine (trimStart (lit "GET / HTTP/1.1" ++ [13; 10])) = true /\
  data 7 (lit "GET / HTTP/1.1" ++ [13; 10]) (Sample.process false ∅, open) =
  (Normal tt,
   (Sample.process false ∅, mkSocketData [lit "GET / HTTP/1.1" ++ [13; 10]] true),
   [SocketTerminate 7 HttpRequest]).
Proof.
  split; [reflexivity|].
  apply (http_request_terminated 7 (lit "GET / HTTP/1.1" ++ [13; 10])
           (Sample.process false ∅)).
  reflexivity.
Defined.

(** One code unit above the bound, and a small chunk. *)
Lemma buffer_guard_witness :
  data 7 (repeat 120 (Z.to_nat (MAX_BUFFER_SIZE + 1))) (Sample.process true ∅, open)
  = (Normal tt, (Sample.process true ∅, open), [SocketTerminate 7 BufferOverflow]) /\
  ~ In (SocketTerminate 7 BufferOverflow)
      (trace (data 7 (lit "{}")) (Sample.process true ∅, open)).
Proof.
  split.
  - apply (buffer_guard 7 (repeat 120 (Z.to_nat (MAX_BUFFER_SIZE + 1)))
             (Sample.process true ∅, open)).
    cbn [snd open chunks bufferedSize fold_left].
    rewrite repeat_length, Z2Nat.id by (unfold MAX_BUFFER_SIZE; lia). lia.
  - apply (buffer_guard 7 (lit "{}") (Sample.process true ∅, open)).
    vm_compute. discriminate.
Defined.

(** A chunk of euro signs that holds no line feed is buffered whole. *)
Lemma euro_chunk_buffered n (p : @Process Sample.engine) :
  Z.of_nat (S n) <= MAX_BUFFER_SIZE ->
  data 7 (repeat 8364 (S n)) (p, open)
  = (Normal tt, (p, mkSocketData [repeat 8364 (S n)] true), []).
Proof.
  intros Hsz. rewrite data_unfold.
  cbn [chunks open httpChecked bufferedSize fold_left app concat negb andb].
  rewrite repeat_length, app_nil_r.
  destruct (Z.gtb_spec (0 + Z.of_nat (S n)) MAX_BUFFER_SIZE) as [Hgt|_]; [lia|].
  cbv zeta.
  assert (Hh : forall r, isHttpRequestLine (trimStart (8364 :: r)) = false)
    by (intros r; vm_compute; reflexivity).
  cbn [repeat]. rewrite Hh.
  unfold readLines, bind. cbn [processLines].
  rewrite cutLine_none.
  - reflexivity.
  - intros [H|H]; [discriminate|]. apply repeat_spec in H. discriminate.
Qed.

(** A [close] line followed by text without a line feed: the handler
    returns from the loop and [chunks] keeps the whole chunk, the line
    that was executed included. *)
Lemma close_chunk_kept (pad : jsstring) :
  Z.of_nat (length pad) + 6 <= MAX_BUFFER_SIZE ->
  data 7 (lit "close" ++ 10 :: pad) (Sample.process true ∅, open)
  = (Normal tt,
     (set_shuttingDown true (Sample.process true ∅),
      mkSocketData [lit "close" ++ 10 :: pad] true),
     [Engine (CallExecuteCommand (lit "close"));
      SocketWrite 7 (lit "ok close" ++ [10]); SetTimeout 100]).
Proof.
  intros Hsz. rewrite data_unfold.
  cbn [chunks open httpChecked bufferedSize fold_left app concat negb andb].
  rewrite app_nil_r.
  assert (Hlen : Z.of_nat (length (lit "close" ++ 10 :: pad))
                 = Z.of_nat (length pad) + 6).
  { rewrite length_app. cbn [length]. change (length (lit "close")) with 5%nat. lia. }
  rewrite Hlen.
  destruct (Z.gtb_spec (0 + (Z.of_nat (length pad) + 6)) MAX_BUFFER_SIZE) as [Hgt|_];
    [lia|].
  cbv zeta.
  assert (Hh : isHttpRequestLine (trimStart (lit "close" ++ 10 :: pad)) = false)
    by (vm_compute; reflexivity).
  rewrite Hh.
  unfold readLines. unfold bind at 1. cbn [processLines].
  rewrite (cutLine_first (lit "close") pad)
    by (vm_compute; intuition discriminate).
  change (negb (nonEmpty (trim (lit "close")))) with false. cbv iota.
  unfold bind at 1. unfold tryCatch.
  rewrite (dispatchLine_close (PR:=Sample.codec) (AC:=Sample.actions)
             7 (lit "close") (lit "close") (lit "ok close")
             (true, false) (Sample.process true ∅)
             (mkSocketData [lit "close" ++ 10 :: pad] true)
             eq_refl eq_refl eq_refl).
  reflexivity.
Qed.

(** C4, refuted as stated, both ways. Two Mi euro signs arrive in one
    chunk: on the wire they are 6 MiB, more than the bound, but the
    decoded text has 2 Mi code units, so the chunk is buffered and the
    connection is not terminated. And a chunk that starts with a [close]
    line and fills the bound exactly is kept whole when the handler
    returns; the next chunk, a single byte, is then refused by the
    guard, although the text after the executed line and the new byte
    together stay below the bound. *)
Lemma buffer_guard_counts_code_units_of_all_chunks :
  let euros := repeat 8364 (Z.to_nat 2097152) in
  let pad := repeat 120 (Z.to_nat (MAX_BUFFER_SIZE - 6)) in
  let st1 := (set_shuttingDown true (Sample.process true ∅),
              mkSocketData [lit "close" ++ 10 :: pad] true) in
  (utf8Length euros = 6291456 /\ 6291456 > MAX_BUFFER_SIZE /\
   data 7 euros (Sample.process true ∅, open)
   = (Normal tt, (Sample.process true ∅, mkSocketData [euros] true), [])) /\
  (final (data 7 (lit "close" ++ 10 :: pad)) (Sample.process true ∅, open) = st1 /\
   utf8Length pad + utf8Length (lit "x") = MAX_BUFFER_SIZE - 5 /\
   data 7 (lit "x") st1 = (Normal tt, st1, [SocketTerminate 7 BufferOverflow])).
Proof.
  cbv zeta. split; [split; [|split]|split; [|split]].
  - rewrite utf8Length_repeat, Z2Nat.id by lia. reflexivity.
  - unfold MAX_BUFFER_SIZE. lia.
  - replace (Z.to_nat 2097152) with (S (Z.to_nat 2097151)) by lia.
    apply euro_chunk_buffered.
    rewrite Nat2Z.inj_succ, Z2Nat.id by lia. unfold MAX_BUFFER_SIZE. lia.
  - unfold final. rewrite close_chunk_kept; [reflexivity|].
    rewrite repeat_length, Z2Nat.id by (unfold MAX_BUFFER_SIZE; lia). lia.
  - rewrite utf8Length_repeat, Z2Nat.id by (unfold MAX_BUFFER_SIZE; lia).
    unfold MAX_BUFFER_SIZE. reflexivity.
  - rewrite data_unfold.
    cbn [chunks bufferedSize fold_left].
    rewrite length_app. cbn [length]. change (length (lit "close")) with 5%nat.
    rewrite repeat_length.
    destruct (Z.gtb_spec
                (0 + Z.of_nat (5 + S (Z.to_nat (MAX_BUFFER_SIZE - 6)))
                 + Z.of_nat (length (lit "x"))) MAX_BUFFER_SIZE) as [_|Hle];
      [reflexivity|].
    exfalso. change (length (lit "x")) with 1%nat in Hle.
    unfold MAX_BUFFER_SIZE in Hle. lia.
Qed.

(** White space first, then an HTTP request line: the line is handed to
    the codec like any other. *)
Lemma http_check_first_chunk_only_witness :
  let st := final (dataEvents 7 [lit "  "]) (Sample.process true ∅, open) in
  httpChecked (snd st) = true /\
  trace (data 7 (lit "GET / HTTP/1.1" ++ [13; 10])) st =
  [Engine (CallExecuteCommand (lit "GET / HTTP/1.1"));
   SocketWrite 7 (lit "ok GET / HTTP/1.1" ++ [10])].
Proof.
  pose proof (http_check_first_chunk_only 7 (Sample.process true ∅)
                (lit "  ") [] (lit "GET / HTTP/1.1" ++ [13; 10])
                eq_refl ltac:(vm_compute; discriminate)) as [H1 [_ H3]].
  split; [exact H1|].
  unfold trace. rewrite H3 by (vm_compute; discriminate).
  vm_compute. reflexivity.
Defined.
(** ** Shutdown triggers *)



(** ** Viewers *)

(** C2, refuted as stated: the first viewer of a daemon whose browser
    is not launched yet (the daemon launches it on the first command)
    does not start the capture; it is sent an error instead, and no
    status reports [screencasting = true]. *)
Lemma first_viewer_before_launch_starts_nothing :
  clientCount Sample.freshStream = 0 /\
  handleOpen 1 (Sample.freshStream, (false, false)) =
  (Normal tt,
   (mkStreamServer true 9223 false 1, (false, false)),
   [WsSubscribe 1 screencast; WsSubscribe 1 status;
    WsSend 1 (ErrorMessage (lit "Browser not launched"))]).
Proof. split; reflexivity. Qed.

Lemma viewer_lifecycle_witness :
  handleOpen 1 (Sample.freshStream, (true, false)) =
  (Normal tt,
   (mkStreamServer true 9223 true 1, (true, true)),
   [WsSubscribe 1 screencast; WsSubscribe 1 status;
    WsSend 1 (StatusMessage true false (Some 1280) (Some 720));
    Engine CallStartScreencast;
    Publish status (StatusMessage true true (Some 1280) (Some 720))]) /\
  existsb isEngineCall
    (trace (handleOpen 2) (mkStreamServer true 9223 true 1, (true, true))) = false /\
  handleClose 2 (mkStreamServer true 9223 true 2, (true, true)) =
  (Normal tt,
   (mkStreamServer true 9223 true 1, (true, true)),
   [WsUnsubscribe 2 screencast; WsUnsubscribe 2 status]) /\
  handleClose 1 (mkStreamServer true 9223 true 1, (true, true)) =
  (Normal tt,
   (mkStreamServer true 9223 false 0, (true, false)),
   [WsUnsubscribe 1 screencast; WsUnsubscribe 1 status;
    Engine CallStopScreencast;
    Publish status (StatusMessage true false (Some 1280) (Some 720))]).
Proof.
  split; [|split; [|split]].
  - apply (proj1 (proj1 (viewer_lifecycle (BM:=Sample.engine) 1 Sample.freshStream (true, false))
                    eq_refl eq_refl) (true, true) eq_refl eq_refl).
  - apply (proj1 (proj2 (viewer_lifecycle (BM:=Sample.engine) 2 (mkStreamServer true 9223 true 1)
                           (true, true)))). right. reflexivity.
  - apply (proj1 (proj2 (proj2 (viewer_lifecycle (BM:=Sample.engine) 2 (mkStreamServer true 9223 true 2)
                                  (true, true))))).
    discriminate.
  - apply (proj1 (proj2 (proj2 (proj2 (viewer_lifecycle (BM:=Sample.engine) 1
                                         (mkStreamServer true 9223 true 1)
                                         (true, true)))) eq_refl eq_refl)
             (true, false)).
    reflexivity.
Defined.

(** The sample engine is steady: two viewers come, one leaves, capture
    still runs; the other leaves, capture is off. *)
Example capture_follows_viewers_sample :
  (captureInv (fst (runViewers (promptly [Connect 1; Connect 2; Disconnect 1])
                      ((Sample.freshStream, (true, false)), []))) /\
   snd (runViewers (promptly [Connect 1; Connect 2; Disconnect 1])
          ((Sample.freshStream, (true, false)), [])) = []) /\
  isScreencasting
    (fst (fst (runViewers
                 (promptly [Connect 1; Connect 2; Disconnect 1; Disconnect 2])
                 ((Sample.freshStream, (true, false)), [])))) = false.
Proof.
  split; [|reflexivity].
  apply (capture_follows_viewers (BM:=Sample.engine)).
  - intros [l c] Hl. cbn in Hl. subst l.
    split; eexists; split; reflexivity.
  - repeat split. cbn. lia.
  - reflexivity.
Defined.

(** The last viewer is replaced before the engine has answered the
    stop: the new viewer watches nothing. *)
Lemma capture_lost_on_quick_reconnect_witness :
  runViewers [Disconnect 1; Connect 2; Settled 0]
    ((mkStreamServer true 9223 true 1, (true, true)), [])
  = ((mkStreamServer true 9223 false 1, (true, false)), []) /\
  isScreencasting
    (fst (fst (runViewers [Disconnect 1; Connect 2; Settled 0; Connect 3]
                 ((mkStreamServer true 9223 true 1, (true, true)), [])))) = false.
Proof.
  split; [reflexivity|].
  apply (capture_lost_on_quick_reconnect (BM:=Sample.engine) 1%nat 2%nat
           [Connect 3] (mkStreamServer true 9223 true 1, (true, true))).
  - intros [l c] Hl. cbn in Hl. subst l.
    split; eexists; split; reflexivity.
  - repeat split. cbn. lia.
  - reflexivity.
  - reflexivity.
Defined.

(** ** Messages from viewers *)

Lemma malformed_message_reported_witness :
  handleMessage 3 (lit "{oops") (Sample.freshStream, (true, false)) =
  (Normal tt, (Sample.freshStream, (true, false)),
   [WsSend 3 (ErrorMessage (lit "JSON Parse error"))]) /\
  handleMessage 3 (lit "null") (Sample.freshStream, (true, false)) =
  (Normal tt, (Sample.freshStream, (true, false)),
   [WsSend 3 (ErrorMessage
                (lit "null is not an object (evaluating 'message.type')"))]).
Proof.
  split.
  - apply (proj1 (malformed_message_reported (BM:=Sample.engine) 3 (lit "{oops")
                    (Sample.freshStream, (true, false)))).
    reflexivity.
  - apply (proj1 (proj2 (malformed_message_reported (BM:=Sample.engine) 3 (lit "null")
                           (Sample.freshStream, (true, false))))
             JNull _ (Sample.freshStream, (true, false)) []);
      reflexivity.
Defined.

(** ** Session registry *)

(** C6, at the failing input. The daemon of the session, process id 99,
    was killed and left its PID file, its stream-port file and its
    socket. The liveness check answers [false] and removes the two
    files; the socket, which [cleanupSocket] goes on to look for with
    [Bun.file(path).exists()], is still there afterwards. Without a PID
    file the check answers [false] and with a live daemon [true],
    touching nothing. *)
Lemma stale_socket_survives_liveness_check :
  let p' := final (isDaemonRunning None) Sample.killed in
  (files Sample.killed !! getPidFile Sample.killed None = Some (lit "99") /\
   probeFails (lit "99") = true /\
   getSocketAddress Sample.killed None = Sample.sockPath /\
   In Sample.sockPath (markerFiles Sample.killed None) /\
   sockets Sample.killed = {[Sample.sockPath]}) /\
  (isDaemonRunning None Sample.killed = (Normal false, p', []) /\
   files p' = <[Sample.notePath := lit "keep"]> ∅ /\
   sockets p' = {[Sample.sockPath]}) /\
  isDaemonRunning None (Sample.process false ∅)
    = (Normal false, Sample.process false ∅, []) /\
  isDaemonRunning None (Sample.process false (Sample.markers "4242"))
    = (Normal true, Sample.process false (Sample.markers "4242"), []).
Proof.
  cbv zeta.
  pose proof (isDaemonRunning_cases None Sample.killed) as (_ & Hstale & _).
  specialize (Hstale (lit "99") eq_refl eq_refl).
  destruct Hstale as (_ & Hstale).
  specialize (Hstale (not_elem_of_empty _)).
  destruct Hstale as (Hrun & _ & _ & Hsock).
  split; [|split; [|split]].
  - split; [reflexivity|]. split; [reflexivity|]. split; [reflexivity|].
    split; [right; right; left; reflexivity|reflexivity].
  - unfold final. rewrite Hrun. cbn [fst snd].
    split; [reflexivity|]. split; [vm_compute; reflexivity|exact Hsock].
  - apply (proj1 (isDaemonRunning_cases None (Sample.process false ∅))).
    reflexivity.
  - apply (proj2 (proj2 (isDaemonRunning_cases None
                           (Sample.process false (Sample.markers "4242"))))
             (lit "4242")); reflexivity.
Qed.

(** ** The close command *)


(** ** Further properties *)

Ltac not_in_list :=
  vm_compute; let H := fresh in intros H;
  repeat (destruct H as [H|H]; [discriminate H|]); exact H.

(** A line of two blanks before a command. *)
Lemma blank_line_skipped_witness :
  readLines 7 (lit "  " ++ 10 :: lit "ping" ++ [10]) (Sample.process true ∅, open)
  = readLines 7 (lit "ping" ++ [10]) (Sample.process true ∅, open).
Proof.
  apply (blank_line_skipped (BM:=Sample.engine) (PR:=Sample.codec) 7 (lit "  ")
           (lit "ping" ++ [10]) (Sample.process true ∅, open)).
  - not_in_list.
  - reflexivity.
Defined.

(** A line the sample codec rejects, before a command. *)
Lemma malformed_line_answered_witness :
  readLines 7 (lit "!x" ++ 10 :: lit "ping" ++ [10]) (Sample.process true ∅, open)
  = (Normal tt, (Sample.process true ∅, open),
     [SocketWrite 7 (lit "ERR unknown bad" ++ [10]);
      Engine (CallExecuteCommand (lit "ping"));
      SocketWrite 7 (lit "ok ping" ++ [10])]).
Proof.
  rewrite (malformed_line_answered (BM:=Sample.engine) (PR:=Sample.codec) 7 (lit "!x")
             (lit "ping" ++ [10]) (Sample.process true ∅, open) None (lit "bad")).
  - reflexivity.
  - not_in_list.
  - reflexivity.
  - reflexivity.
Defined.

(** A command on which the actions throw, before a command. *)
Lemma failing_line_answered_witness :
  readLines (AC:=Sample.flakyActions) 7 (lit "boom" ++ 10 :: lit "ping" ++ [10])
    (Sample.process true ∅, open)
  = (Normal tt, (Sample.process true ∅, open),
     [Engine (CallExecuteCommand (lit "boom"));
      SocketWrite 7 (lit "ERR error exploded" ++ [10]);
      Engine (CallExecuteCommand (lit "ping"));
      SocketWrite 7 (lit "ok ping" ++ [10])]).
Proof.
  rewrite (failing_line_answered (BM:=Sample.engine) (PR:=Sample.codec)
             (AC:=Sample.flakyActions) 7 (lit "boom")
             (lit "ping" ++ [10]) (Sample.process true ∅, open)
             (Sample.process true ∅, open) (lit "exploded")
             [Engine (CallExecuteCommand (lit "boom"))]).
  - reflexivity.
  - not_in_list.
  - reflexivity.
  - reflexivity.
Defined.

(** Two commands around a blank line, and an unterminated rest. *)
Lemma one_response_per_line_witness :
  lit "par" = partialLine (lit "a" ++ [10; 10] ++ lit "b" ++ [10] ++ lit "par") /\
  responses [Engine (CallExecuteCommand (lit "a")); SocketWrite 7 (lit "ok a" ++ [10]);
             Engine (CallExecuteCommand (lit "b")); SocketWrite 7 (lit "ok b" ++ [10])]
  = length (List.filter (fun x => negb (isBlank x))
              (completeLines (lit "a" ++ [10; 10] ++ lit "b" ++ [10] ++ lit "par"))).
Proof.
  apply (one_response_per_line (BM:=Sample.engine) (PR:=Sample.codec) 7 20
           (lit "a" ++ [10; 10] ++ lit "b" ++ [10] ++ lit "par")
           (Sample.process true ∅, open) (Sample.process true ∅, open)).
  reflexivity.
Defined.

(** A command cut in the middle, after a line that does not parse. *)
Lemma chunking_is_transparent_witness :
  let c1 := lit "!oops" ++ [10] ++ lit "cli" in
  let c2 := lit "ck" ++ [10] in
  let st := (Sample.process true ∅, mkSocketData [] true) in
  let two := bind (data 7 c1) (fun _ => data 7 c2) in
  let one := data 7 (c1 ++ c2) in
  result two st = result one st /\
  trace two st = trace one st /\
  fst (final two st) = fst (final one st).
Proof.
  apply (chunking_is_transparent (BM:=Sample.engine) (PR:=Sample.codec) 7
           (lit "!oops" ++ [10] ++ lit "cli") (lit "ck" ++ [10])
           (Sample.process true ∅) (mkSocketData [] true)
           (lit "cli")
           (Sample.process true ∅,
            mkSocketData [lit "!oops" ++ [10] ++ lit "cli"] true)
           [SocketWrite 7 (lit "ERR unknown bad" ++ [10])]).
  - reflexivity.
  - vm_compute. discriminate.
  - reflexivity.
  - reflexivity.
Defined.


(** [close], then a termination signal. *)
Lemma close_disarms_signals_witness :
  (exists cmd, parseCommand (lit "close") = Normal (ParseOk cmd) /\
               code_units_eqb (action cmd) (lit "close") = true) /\
  shuttingDown (set_shuttingDown true (Sample.process true ∅)) = true /\
  listener SIGTERM (set_shuttingDown true (Sample.process true ∅))
  = (Normal tt, set_shuttingDown true (Sample.process true ∅), []).
Proof.
  apply (close_disarms_signals (BM:=Sample.engine) (PR:=Sample.codec) 7 (lit "close")
           (Sample.process true ∅, open)
           (set_shuttingDown true (Sample.process true ∅), open)
           [Engine (CallExecuteCommand (lit "close"));
            SocketWrite 7 (lit "ok close" ++ [10]);
            SetTimeout 100] SIGTERM).
  - reflexivity.
  - right. left. reflexivity.
Defined.


(** A second and a third viewer join a first one whose start failed,
    while the answer to an earlier stop is still to come. *)
Lemma capture_starts_only_at_first_viewer_witness :
  isScreencasting
    (fst (fst (runViewers [Connect 2; Settled 0; Disconnect 1; Connect 3]
                 ((mkStreamServer true 9223 false 1, (true, false)),
                  [Stopping (Normal tt)])))) = false /\
  snd (fst (runViewers [Connect 2; Settled 0; Disconnect 1; Connect 3]
              ((mkStreamServer true 9223 false 1, (true, false)),
               [Stopping (Normal tt)]))) = (true, false).
Proof.
  apply (capture_starts_only_at_first_viewer (BM:=Sample.engine)
           [Connect 2; Settled 0; Disconnect 1; Connect 3]
           (mkStreamServer true 9223 false 1, (true, false))
           [Stopping (Normal tt)]).
  - reflexivity.
  - reflexivity.
Defined.

Lemma sample_markers_distinct :
  NoDup (markerFiles (proc Sample.daemon) None).
Proof.
  refine (bool_decide_unpack _ _). vm_compute. exact I.
Qed.


Lemma started_daemon_is_detected_witness :
  let d' := final (startDaemon (RT:=Sample.runtime) None) Sample.daemon in
  files (proc d') !! getPidFile (proc d') None = Some (numberToString pid) /\
  isDaemonRunning None (proc d') = (Normal true, proc d', []).
Proof.
  apply (started_daemon_is_detected (BM:=Sample.engine) (RT:=Sample.runtime)
           None Sample.daemon).
  - apply not_elem_of_empty.
  - exact sample_markers_distinct.
  - reflexivity.
  - vm_compute. reflexivity.
  - reflexivity.
Defined.


(** The sample daemon listens on the Unix socket its clients use. *)
Lemma daemon_listens_where_clients_connect_witness :
  let d' := final (startDaemon (RT:=Sample.runtime) None) Sample.daemon in
  listening (proc d') = true /\
  match getConnectionInfo (proc d') None with
  | ConnUnix path =>
      listenOptions (proc Sample.daemon) = ListenUnix path /\
      getSocketAddress (proc d') None = path /\
      path ∈ sockets (proc d')
  | ConnTcp port =>
      (exists host, listenOptions (proc Sample.daemon) = ListenTcp host port) /\
      getSocketAddress (proc d') None = numberToString port /\
      exists text,
        files (proc d') !! getPortFile (proc d') None = Some text /\
        parseInt10 (trim text) = Some port
  end.
Proof.
  apply (daemon_listens_where_clients_connect (BM:=Sample.engine)
           (RT:=Sample.runtime) None Sample.daemon).
  - apply not_elem_of_empty.
  - vm_compute. reflexivity.
  - reflexivity.
Defined.


End Instances.
